(** * Sales-dashboard ingestion pipeline: a shallow embedding of [backend/app.py]

    The development follows the upload path of the application
    ([validate_dataframe], [detect_currency], [standardize_column_names],
    the coercion block of [upload_file]) and the five grouped series computed
    by [generate_charts].  It also covers the routes that read the stored
    uploads back ([dashboard], [delete_upload], [export_pdf]) and the
    account routes ([register], [login], [logout]).

    Conventions of the embedding.
    - Text is a Stdlib [string] (a byte string); [str.lower], [str.strip]
      and the [in] substring test are written out on ASCII.
    - Numbers are exact rationals [Q]; a float column is a list of [numeric],
      which adds the missing value NaN.  Infinities and rounding are not
      represented in the frames; the sum test and the product of lines 387
      and 388 are written out a second time on 64-bit integers and doubles
      ([machine_total]), and the statements about them say for which
      numbers the two agree.
    - A [DataFrame] is the ordered list of its labelled columns; labels may
      repeat, as they can in pandas after renaming.
    - The two pandas readers whose grammar lives outside this repository,
      [pd.to_numeric] on one text cell and [pd.to_datetime] on one column,
      are the fields of the class [Pandas]; [plain_reader] is an instance
      for plain decimals and ISO dates, used to run examples. *)

From Stdlib Require Import List String Ascii Bool ZArith QArith Qabs Lia Permutation Sorted Floats.
Import ListNotations.

Open Scope string_scope.
Open Scope list_scope.
Open Scope Z_scope.

(* ================================================================== *)
(** ** Text: the Python string operations the code uses *)

Module Text.

Definition code (c : ascii) : N := N_of_ascii c.

(** [str.lower] on one ASCII character. *)
Definition lower_char (c : ascii) : ascii :=
  if (N.leb 65 (code c) && N.leb (code c) 90)%bool
  then ascii_of_N (code c + 32) else c.

(** [str.upper] on one ASCII character. *)
Definition upper_char (c : ascii) : ascii :=
  if (N.leb 97 (code c) && N.leb (code c) 122)%bool
  then ascii_of_N (code c - 32) else c.

Fixpoint lower (s : string) : string :=
  match s with
  | EmptyString => EmptyString
  | String c r => String (lower_char c) (lower r)
  end.

Fixpoint upper (s : string) : string :=
  match s with
  | EmptyString => EmptyString
  | String c r => String (upper_char c) (upper r)
  end.

(** Characters removed by [str.strip()]: tab, LF, VT, FF, CR, the four
    separators 28..31 and the space. *)
Definition is_space (c : ascii) : bool :=
  let n := code c in
  ((N.leb 9 n && N.leb n 13) || (N.leb 28 n && N.leb n 32))%bool.

Fixpoint lstrip (s : string) : string :=
  match s with
  | EmptyString => EmptyString
  | String c r => if is_space c then lstrip r else s
  end.

Fixpoint rstrip (s : string) : string :=
  match s with
  | EmptyString => EmptyString
  | String c r =>
      match rstrip r with
      | EmptyString => if is_space c then EmptyString else String c EmptyString
      | r' => String c r'
      end
  end.

Definition strip (s : string) : string := rstrip (lstrip s).

(** [sub in s]. *)
Fixpoint contains (sub s : string) : bool :=
  (String.prefix sub s ||
   match s with
   | EmptyString => false
   | String _ r => contains sub r
   end)%bool.

(** [s.endswith(suffix)]. *)
Fixpoint endswith (suffix s : string) : bool :=
  (String.eqb suffix s ||
   match s with
   | EmptyString => false
   | String _ r => endswith suffix r
   end)%bool.

(** [x in l] for a list of strings. *)
Definition mem (x : string) (l : list string) : bool :=
  existsb (String.eqb x) l.

(** [re.sub(r'[\$,]', '', s)]: every dollar sign and every comma goes,
    wherever it stands. *)
Fixpoint remove_money_marks (s : string) : string :=
  match s with
  | EmptyString => EmptyString
  | String c r =>
      if (Ascii.eqb c "$" || Ascii.eqb c ",")%bool
      then remove_money_marks r
      else String c (remove_money_marks r)
  end.

Definition digit_char (d : Z) : ascii := ascii_of_N (48 + Z.to_N (d mod 10)).

(** Zero-padded decimal of fixed width, as [%Y], [%m] and [%d] print. *)
Fixpoint fixed_width (width : nat) (n : Z) : string :=
  match width with
  | O => EmptyString
  | S w => (fixed_width w (n / 10) ++ String (digit_char n) EmptyString)%string
  end.

Definition digit_value (c : ascii) : option Z :=
  let n := code c in
  if (N.leb 48 n && N.leb n 57)%bool then Some (Z.of_N n - 48) else None.

Fixpoint read_digits (acc : Z) (s : string) : option Z :=
  match s with
  | EmptyString => Some acc
  | String c r =>
      match digit_value c with
      | Some d => read_digits (10 * acc + d) r
      | None => None
      end
  end.

(** The text before the first dot and, when there is a dot, the text
    after it. *)
Fixpoint split_dot (s : string) : string * option string :=
  match s with
  | EmptyString => (EmptyString, None)
  | String c r =>
      if Ascii.eqb c "."
      then (EmptyString, Some r)
      else let '(a, b) := split_dot r in (String c a, b)
  end.

(** No character of the text is removed by [strip]. *)
Fixpoint no_space (s : string) : bool :=
  match s with
  | EmptyString => true
  | String c r => (negb (is_space c) && no_space r)%bool
  end.

End Text.

(* ================================================================== *)
(** ** Cells, float columns and frames *)

(** A value of a float column: a finite number or the missing value. *)
Inductive numeric : Type :=
| NaN
| Fin (q : Q).

(** A cell as the readers deliver it: missing, a number or a text. *)
Inductive cell : Type :=
| Blank
| Num (q : Q)
| Str (s : string).

Record date : Type := mkdate { year : Z; month : Z; day : Z }.

(** The readers of pandas the code calls.
    - [parse_float s] is [pd.to_numeric] on the text [s]: [None] when the
      text is refused, [Some NaN] when it reads as a missing value.
    - [to_datetime col] is [pd.to_datetime] on a whole column: [None] when
      it raises, otherwise the reading it applies to each cell of that
      column ([None] for a cell is NaT).  The reading may depend on the
      column, as the inferred format does. *)
Class Pandas : Type := {
  parse_float : string -> option numeric;
  to_datetime : list cell -> option (cell -> option date)
}.

Definition DataFrame : Type := list (string * list cell).

Definition columns (df : DataFrame) : list string := map fst df.

(** What [df[name]] evaluates to: a [KeyError], one column, or, when the
    label repeats, a sub-frame. *)
Inductive selection : Type :=
| NoColumn
| Series (s : list cell)
| SubFrame (cols : list (list cell)).

Definition labelled (name : string) (col : string * list cell) : bool :=
  String.eqb (fst col) name.

Definition select (name : string) (df : DataFrame) : selection :=
  match filter (labelled name) df with
  | [] => NoColumn
  | [(_, s)] => Series s
  | l => SubFrame (map snd l)
  end.

(** [name in df.columns]. *)
Definition has_column (name : string) (df : DataFrame) : bool :=
  Text.mem name (columns df).

(** [df[name] = s]: every column carrying the label is replaced; a new
    label is appended on the right. *)
Definition set_column (name : string) (s : list cell) (df : DataFrame) : DataFrame :=
  if has_column name df
  then map (fun col => if labelled name col then (fst col, s) else col) df
  else df ++ [(name, s)].

(** [df.rename(columns=f)] and [df.columns = df.columns.map(f)]. *)
Definition rename_columns (f : string -> string) (df : DataFrame) : DataFrame :=
  map (fun col => (f (fst col), snd col)) df.

(** Number of rows: the length of the index, read off the first column. *)
Definition nrows (df : DataFrame) : nat :=
  match df with
  | [] => 0%nat
  | (_, s) :: _ => List.length s
  end.

(** Every column has as many cells as the frame has rows. *)
Definition rectangular (df : DataFrame) : bool :=
  forallb (fun col => Nat.eqb (List.length (snd col)) (nrows df)) df.

(** One row of [df.to_dict(orient='records')]: the labels zipped with the
    cells of the row. *)
Definition record : Type := list (string * cell).

Definition row_at (df : DataFrame) (i : nat) : record :=
  map (fun col => (fst col, nth i (snd col) Blank)) df.

Definition to_dict_records (df : DataFrame) : list record :=
  map (row_at df) (seq 0 (nrows df)).

(** [r[name]] for a record built by [dict(zip(...))]: with a repeated key
    the last value stands. *)
Fixpoint record_get (name : string) (r : record) : option cell :=
  match r with
  | [] => None
  | (k, v) :: rest =>
      match record_get name rest with
      | Some v' => Some v'
      | None => if String.eqb k name then Some v else None
      end
  end.

(** ** Float columns *)

Definition to_numeric_cell `{Pandas} (c : cell) : option numeric :=
  match c with
  | Blank => Some NaN
  | Num q => Some (Fin q)
  | Str s => parse_float s
  end.

(** [pd.to_numeric(col, errors='raise')]: [None] when it raises. *)
Fixpoint to_numeric_raise `{Pandas} (col : list cell) : option (list numeric) :=
  match col with
  | [] => Some []
  | c :: rest =>
      match to_numeric_cell c, to_numeric_raise rest with
      | Some v, Some vs => Some (v :: vs)
      | _, _ => None
      end
  end.

(** [pd.to_numeric(col, errors='coerce')]. *)
Definition to_numeric_coerce `{Pandas} (col : list cell) : list numeric :=
  map (fun c => match to_numeric_cell c with Some v => v | None => NaN end) col.

(** [.fillna(0)] on one value. *)
Definition fillna0 (v : numeric) : Q :=
  match v with
  | NaN => 0%Q
  | Fin q => q
  end.

Definition cell_of_numeric (v : numeric) : cell :=
  match v with
  | NaN => Blank
  | Fin q => Num q
  end.

(** The values of a numeric column held in a frame; a text cell makes the
    column an object column, on which the arithmetic below is not defined. *)
Fixpoint as_floats (col : list cell) : option (list numeric) :=
  match col with
  | [] => Some []
  | Str _ :: _ => None
  | c :: rest =>
      match as_floats rest with
      | Some vs => Some (match c with Num q => Fin q | _ => NaN end :: vs)
      | None => None
      end
  end.

Definition Qsum (l : list Q) : Q := fold_right Qplus 0%Q l.

(** [Series.sum()]: missing values are skipped. *)
Definition nansum (l : list numeric) : Q := Qsum (map fillna0 l).

Definition numeric_mul (a b : numeric) : numeric :=
  match a, b with
  | Fin x, Fin y => Fin (x * y)
  | _, _ => NaN
  end.

(** Element-wise product of two columns of one frame. *)
Fixpoint series_mul (a b : list numeric) : list numeric :=
  match a, b with
  | x :: a', y :: b' => numeric_mul x y :: series_mul a' b'
  | _, _ => []
  end.

(** [.astype(str).str.replace(r'[\$,]', '', regex=True)] on one cell: a
    text loses its marks; a number is printed and read back unchanged, a
    missing cell prints as [nan] and reads back missing. *)
Definition strip_money (c : cell) : cell :=
  match c with
  | Str s => Str (Text.remove_money_marks s)
  | other => other
  end.

(** [pd.to_numeric(<stripped column>, errors='coerce').fillna(0)]. *)
Definition money_column `{Pandas} (col : list cell) : list Q :=
  map fillna0 (to_numeric_coerce (map strip_money col)).

(* ================================================================== *)
(** ** Helper functions of [app.py] *)

(** [d.get(k)] for a dict literal written as its list of items. *)
Fixpoint dict_get {A : Type} (k : string) (d : list (string * A)) : option A :=
  match d with
  | [] => None
  | (k', v) :: rest => if String.eqb k' k then Some v else dict_get k rest
  end.

Definition dict_has {A : Type} (k : string) (d : list (string * A)) : bool :=
  match dict_get k d with Some _ => true | None => false end.

Inductive Currency : Type := USD | KSH.

Definition currency_code (c : Currency) : string :=
  match c with USD => "USD" | KSH => "KSH" end.

Definition get_currency_symbol (currency_code : string) : string :=
  let mapping := [("USD", "$"); ("KSH", "KSh"); ("Ksh", "KSh")] in
  match dict_get (Text.upper currency_code) mapping with
  | Some symbol => symbol
  | None => currency_code
  end.

Definition column_mapping : list (string * string) :=
  [ ("price (ksh)", "price"); ("price(ksh)", "price");
    ("total (ksh)", "total"); ("total(ksh)", "total");
    ("price (usd)", "price"); ("price(usd)", "price");
    ("total (usd)", "total"); ("total(usd)", "total");
    ("product", "product"); ("item", "product");
    ("description", "product"); ("name", "product");
    ("quantity", "quantity"); ("qty", "quantity"); ("units", "quantity");
    ("date", "date"); ("sale date", "date");
    ("transaction date", "date"); ("order date", "date") ].

(** The renaming applied to one (already stripped) label:
    [mapping.get(x.lower(), x.lower())]. *)
Definition standard_name (x : string) : string :=
  match dict_get (Text.lower x) column_mapping with
  | Some canonical => canonical
  | None => Text.lower x
  end.

(** [df.columns = df.columns.str.strip()]. *)
Definition strip_columns (df : DataFrame) : DataFrame :=
  rename_columns Text.strip df.

Definition standardize_column_names (df : DataFrame) : DataFrame :=
  rename_columns standard_name (strip_columns df).

Definition required : list string := ["date"; "product"; "quantity"].

Definition possible_names : list (string * list string) :=
  [ ("date", ["date"; "sale date"; "transaction date"; "order date"]);
    ("product", ["product"; "item"; "description"; "name"]);
    ("quantity", ["quantity"; "qty"; "units"]) ].

(** The inner loop of the validator: the first label whose lower-case form
    is one of the candidates. *)
Definition first_match (candidates : list string) (cols : list string) : option string :=
  find (fun col => Text.mem (Text.lower col) candidates) cols.

(** The dict [found], filled in the order of [possible_names]. *)
Definition found_columns (cols : list string) : list (string * string) :=
  flat_map
    (fun item =>
       match first_match (snd item) cols with
       | Some col => [(fst item, col)]
       | None => []
       end)
    possible_names.

Definition as_series (sel : selection) : option (list cell) :=
  match sel with
  | Series s => Some s
  | _ => None
  end.

(** The [try] block of the validator; [None] stands for any exception. *)
Definition parse_check `{Pandas} (df : DataFrame) (found : list (string * string)) : option unit :=
  match dict_get "date" found with
  | None => None
  | Some date_col =>
      match as_series (select date_col df) with
      | None => None
      | Some dates =>
          match to_datetime dates with
          | None => None
          | Some _ =>
              match dict_get "quantity" found with
              | None => None
              | Some qty_col =>
                  match as_series (select qty_col df) with
                  | None => None
                  | Some qty =>
                      match to_numeric_raise qty with
                      | None => None
                      | Some _ => Some tt
                      end
                  end
              end
          end
      end
  end.

Definition has_price_or_total (cols : list string) : bool :=
  existsb (fun col => (Text.contains "price" (Text.lower col)
                       || Text.contains "total" (Text.lower col))%bool) cols.

Definition validate_dataframe `{Pandas} (df : DataFrame) : bool * string :=
  let df := strip_columns df in
  let found := found_columns (columns df) in
  if (List.length found <? 3)%nat then
    let missing := filter (fun k => negb (dict_has k found)) required in
    (false, "Missing required columns: " ++ String.concat ", " missing)%string
  else if negb (has_price_or_total (columns df)) then
    (false, "Missing price or total column")
  else
    match parse_check df found with
    | None => (false, "Invalid date or quantity format")
    | Some _ => (true, "")
    end.

Definition detect_currency (df : DataFrame) : Currency :=
  let cols := map Text.lower (columns df) in
  if existsb (Text.contains "ksh") cols then KSH else USD.

(* ================================================================== *)
(** ** The coercion block of [upload_file] *)

(** How the [try] block can stop before anything is stored: one of the two
    early [400] returns, or an exception caught by the handler. *)
Inductive fault : Type :=
| Invalid (msg : string)
| ColumnMappingFailed
| Raised.

Inductive outcome (A : Type) : Type :=
| Done (a : A)
| Stop (f : fault).
Arguments Done {A} a.
Arguments Stop {A} f.

Definition bind {A B : Type} (m : outcome A) (k : A -> outcome B) : outcome B :=
  match m with
  | Done a => k a
  | Stop f => Stop f
  end.

Notation "x <- m ;; k" := (bind m (fun x => k))
  (at level 61, m at next level, right associativity).

(** A pandas call that raises stops the block with [Raised]. *)
Definition try_ {A : Type} (o : option A) : outcome A :=
  match o with
  | Some a => Done a
  | None => Stop Raised
  end.

(** A read [df[name]] used where a single column is needed. *)
Definition series (name : string) (df : DataFrame) : outcome (list cell) :=
  try_ (as_series (select name df)).

(** The same read, taken as a float column. *)
Definition floats (name : string) (df : DataFrame) : outcome (list numeric) :=
  s <- series name df ;; try_ (as_floats s).

Definition date_text (d : date) : string :=
  (Text.fixed_width 4 (year d) ++ "-" ++ Text.fixed_width 2 (month d)
   ++ "-" ++ Text.fixed_width 2 (day d))%string.

(** [.dt.strftime('%Y-%m-%d')] on one value; NaT comes out missing. *)
Definition strftime (d : option date) : cell :=
  match d with
  | Some d => Str (date_text d)
  | None => Blank
  end.

(** [next((c for c in df.columns if sub in c), None)]. *)
Definition first_containing (sub : string) (df : DataFrame) : option string :=
  find (Text.contains sub) (columns df).

(** [df['total'] = df['quantity'] * df.get('price', 0)]. *)
Definition recompute_total (df : DataFrame) : outcome DataFrame :=
  qty <- floats "quantity" df ;;
  match select "price" df with
  | NoColumn =>
      Done (set_column "total"
              (map (fun q => cell_of_numeric (numeric_mul q (Fin 0))) qty) df)
  | Series s =>
      price <- try_ (as_floats s) ;;
      Done (set_column "total" (map cell_of_numeric (series_mul qty price)) df)
  | SubFrame _ => Stop Raised
  end.

(** Line 378: [pd.to_numeric(df['quantity'], errors='coerce').fillna(0)]. *)
Definition quantity_column `{Pandas} (col : list cell) : list Q :=
  map fillna0 (to_numeric_coerce col).

Definition coerce_quantity `{Pandas} (df : DataFrame) : outcome DataFrame :=
  qty <- series "quantity" df ;;
  Done (set_column "quantity" (map Num (quantity_column qty)) df).

(** Lines 379 to 385: the price-bearing and the total-bearing column are
    looked up first, then each is cleaned into [price] and [total]. *)
Definition coerce_money `{Pandas} (df : DataFrame) : outcome DataFrame :=
  let price_col := first_containing "price" df in
  let total_col := first_containing "total" df in
  df <- match price_col with
        | Some c =>
            s <- series c df ;;
            Done (set_column "price" (map Num (money_column s)) df)
        | None => Done df
        end ;;
  match total_col with
  | Some c =>
      s <- series c df ;;
      Done (set_column "total" (map Num (money_column s)) df)
  | None => Done df
  end.

(** Lines 387 and 388, with the exact sum and product of the rationals;
    [machine_total] below has them as the machine computes them. *)
Definition settle_total (df : DataFrame) : outcome DataFrame :=
  if negb (has_column "total" df) then recompute_total df
  else
    total <- floats "total" df ;;
    if Qeq_bool (nansum total) 0 then recompute_total df else Done df.

(** Line 390. *)
Definition format_dates `{Pandas} (df : DataFrame) : outcome DataFrame :=
  dates <- series "date" df ;;
  parsed <- try_ (to_datetime dates) ;;
  Done (set_column "date" (map (fun c => strftime (parsed c)) dates) df).

(** Lines 373 to 390: renaming, the mapping check, the numeric columns,
    the total and the date. *)
Definition coerce `{Pandas} (df : DataFrame) : outcome DataFrame :=
  let df := standardize_column_names df in
  if negb (forallb (fun col => has_column col df) ["date"; "product"; "quantity"])
  then Stop ColumnMappingFailed
  else
    df <- coerce_quantity df ;;
    df <- coerce_money df ;;
    df <- settle_total df ;;
    format_dates df.

(** Lines 366 to 390 as one step: the validated, coerced frame and its
    currency, or the reason the upload stops. *)
Definition ingest `{Pandas} (df : DataFrame) : outcome (Currency * DataFrame) :=
  let df := strip_columns df in
  let '(is_valid, msg) := validate_dataframe df in
  if negb is_valid then Stop (Invalid msg)
  else
    let currency := detect_currency df in
    df <- coerce df ;;
    Done (currency, df).

(* ================================================================== *)
(** ** Sorting and grouping, as pandas does them *)

Section Sorting.
Context {A : Type} (leb : A -> A -> bool).

(** Stable insertion: [x] goes in front of the first element it is not
    greater than. *)
Fixpoint insert_sorted (x : A) (l : list A) : list A :=
  match l with
  | [] => [x]
  | y :: r => if leb x y then x :: l else y :: insert_sorted x r
  end.

Fixpoint sort_by (l : list A) : list A :=
  match l with
  | [] => []
  | x :: r => insert_sorted x (sort_by r)
  end.
End Sorting.

Section GroupBy.
Context {K : Type} (eqb leb : K -> K -> bool).

(** The distinct keys, in order of first appearance. *)
Fixpoint dedup (l : list K) : list K :=
  match l with
  | [] => []
  | x :: r => x :: filter (fun y => negb (eqb x y)) (dedup r)
  end.

Definition in_group (k : K) (row : option K * numeric) : bool :=
  match fst row with
  | Some k' => eqb k k'
  | None => false
  end.

(** The row has a group key. *)
Definition has_key (row : option K * numeric) : bool :=
  match fst row with Some _ => true | None => false end.

Definition present_keys (rows : list (option K * numeric)) : list K :=
  flat_map (fun row => match fst row with Some k => [k] | None => [] end) rows.

(** The sum of one group. *)
Definition group_total (rows : list (option K * numeric)) (k : K) : Q :=
  nansum (map snd (filter (in_group k) rows)).

(** [df.groupby(key)[value].sum()]: rows whose key is missing are left
    out, the groups come sorted by key, each with the sum of its values
    (missing values skipped). *)
Definition groupby_sum (rows : list (option K * numeric)) : list (K * Q) :=
  map (fun k => (k, group_total rows k)) (sort_by leb (dedup (present_keys rows))).

(** The same grouping with the groups left in order of first appearance
    ([sort=False]). *)
Definition groupby_sum_unsorted (rows : list (option K * numeric)) : list (K * Q) :=
  map (fun k => (k, group_total rows k)) (dedup (present_keys rows)).
End GroupBy.

Definition value_ge {K : Type} (a b : K * Q) : bool := Qle_bool (snd b) (snd a).
Definition value_le {K : Type} (a b : K * Q) : bool := Qle_bool (snd a) (snd b).

(** [s.nlargest(n)] with the default [keep='first']: descending by value,
    equal values in the order they have in [s].  (That order is what
    pandas fixes for a series of more than [n] entries; a shorter series
    goes through its default sort, where the order of equal values is not
    fixed.) *)
Definition nlargest {K : Type} (n : nat) (s : list (K * Q)) : list (K * Q) :=
  firstn n (sort_by value_ge s).

(** [s.sort_values(ascending=True)].  (The order this gives to equal
    values is one of those pandas' default sort may give.) *)
Definition sort_values {K : Type} (s : list (K * Q)) : list (K * Q) :=
  sort_by value_le s.

(** [s.reindex(order, fill_value=0)]. *)
Definition reindex (order : list string) (s : list (string * Q)) : list (string * Q) :=
  map (fun label => (label, match dict_get label s with Some v => v | None => 0%Q end))
      order.

(** Grouping keys taken from cells: numbers compare by value and come
    before texts, texts compare as Python strings do. *)
Definition key_eqb (a b : cell) : bool :=
  match a, b with
  | Blank, Blank => true
  | Num x, Num y => Qeq_bool x y
  | Str s, Str t => String.eqb s t
  | _, _ => false
  end.

Definition key_leb (a b : cell) : bool :=
  match a, b with
  | Blank, _ => true
  | _, Blank => false
  | Num x, Num y => Qle_bool x y
  | Num _, Str _ => true
  | Str _, Num _ => false
  | Str s, Str t => String.leb s t
  end.

(** A missing cell is no group key. *)
Definition cell_key (c : cell) : option cell :=
  match c with
  | Blank => None
  | other => Some other
  end.

Definition period_eqb (a b : Z * Z) : bool :=
  (Z.eqb (fst a) (fst b) && Z.eqb (snd a) (snd b))%bool.

Definition period_leb (a b : Z * Z) : bool :=
  (Z.ltb (fst a) (fst b) || (Z.eqb (fst a) (fst b) && Z.leb (snd a) (snd b)))%bool.

(* ================================================================== *)
(** ** Calendar *)

Inductive weekday : Type :=
| Monday | Tuesday | Wednesday | Thursday | Friday | Saturday | Sunday.

Definition day_name (d : weekday) : string :=
  match d with
  | Monday => "Monday" | Tuesday => "Tuesday" | Wednesday => "Wednesday"
  | Thursday => "Thursday" | Friday => "Friday" | Saturday => "Saturday"
  | Sunday => "Sunday"
  end.

(** Days since 1970-01-01 in the proleptic Gregorian calendar. *)
Definition days_from_civil (d : date) : Z :=
  let y := if month d <=? 2 then year d - 1 else year d in
  let era := y / 400 in
  let yoe := y - era * 400 in
  let mp := if month d <=? 2 then month d + 9 else month d - 3 in
  let doy := (153 * mp + 2) / 5 + day d - 1 in
  let doe := yoe * 365 + yoe / 4 - yoe / 100 + doy in
  era * 146097 + doe - 719468.

(** [Timestamp.day_name()]; 1970-01-01 was a Thursday. *)
Definition weekday_of (d : date) : weekday :=
  match (days_from_civil d + 3) mod 7 with
  | 0 => Monday | 1 => Tuesday | 2 => Wednesday | 3 => Thursday
  | 4 => Friday | 5 => Saturday | _ => Sunday
  end.

(** [Timestamp.to_period('M')]. *)
Definition to_period_M (d : date) : Z * Z := (year d, month d).

(* ================================================================== *)
(** ** The series of [generate_charts] *)

(** One row of the frame once lines 134 to 144 have run. *)
Record sale : Type := mkSale {
  s_date : option date;
  s_product : cell;
  s_quantity : Q;
  s_price : Q;
  s_total : numeric
}.

Definition is_nan (v : numeric) : bool :=
  match v with NaN => true | Fin _ => false end.

Definition is_zero (v : numeric) : bool :=
  match v with NaN => false | Fin q => Qeq_bool q 0 end.

Fixpoint zip_sales (d : list (option date)) (p : list cell) (q pr : list Q)
         (t : list numeric) : list sale :=
  match d, p, q, pr, t with
  | d0 :: d', p0 :: p', q0 :: q', pr0 :: pr', t0 :: t' =>
      mkSale d0 p0 q0 pr0 t0 :: zip_sales d' p' q' pr' t'
  | _, _, _, _, _ => []
  end.

(** Lines 134 to 144 and the first read of [df['product']] (line 162);
    [None] when any of them raises, in which case no chart is made. *)
Definition prepare `{Pandas} (df : DataFrame) : option (list sale) :=
  match as_series (select "date" df) with
  | None => None
  | Some dates =>
  match to_datetime dates with
  | None => None
  | Some parsed =>
  let dates := map parsed dates in
  match as_series (select "quantity" df) with
  | None => None
  | Some qty =>
  let qty := map fillna0 (to_numeric_coerce qty) in
  match as_series (select "price" df) with
  | None => None
  | Some price =>
  let price := map fillna0 (to_numeric_coerce price) in
  match as_series (select "total" df) with
  | None => None
  | Some total =>
  let total := to_numeric_coerce total in
  let total :=
    if (forallb is_nan total || forallb is_zero total)%bool
    then series_mul (map Fin qty) (map Fin price)
    else total in
  match as_series (select "product" df) with
  | None => None
  | Some product => Some (zip_sales dates product qty price total)
  end end end end end end.

Definition by_product (value : sale -> numeric) (rows : list sale)
  : list (option cell * numeric) :=
  map (fun r => (cell_key (s_product r), value r)) rows.

(** [df.groupby('product')['total'].sum().sort_values(ascending=True)]. *)
Definition sales_by_product (rows : list sale) : list (cell * Q) :=
  sort_values (groupby_sum key_eqb key_leb (by_product s_total rows)).

(** [df.groupby(df['date'].dt.to_period('M'))['total'].sum()]. *)
Definition monthly_sales (rows : list sale) : list ((Z * Z) * Q) :=
  groupby_sum period_eqb period_leb
    (map (fun r => (option_map to_period_M (s_date r), s_total r)) rows).

(** [df.groupby('product')['total'].sum()]. *)
Definition product_share (rows : list sale) : list (cell * Q) :=
  groupby_sum key_eqb key_leb (by_product s_total rows).

(** [df.groupby('product')['quantity'].sum().nlargest(8)]. *)
Definition top_qty (rows : list sale) : list (cell * Q) :=
  nlargest 8 (groupby_sum key_eqb key_leb
                (by_product (fun r => Fin (s_quantity r)) rows)).

Definition order : list string :=
  ["Monday"; "Tuesday"; "Wednesday"; "Thursday"; "Friday"; "Saturday"; "Sunday"].

Definition day_of_week (r : sale) : option string :=
  option_map (fun d => day_name (weekday_of d)) (s_date r).

(** [df.groupby('day_of_week')['total'].sum().reindex(order, fill_value=0)]. *)
Definition weekday_sales (rows : list sale) : list (string * Q) :=
  reindex order
    (groupby_sum String.eqb String.leb
       (map (fun r => (day_of_week r, s_total r)) rows)).

(** The five series handed to the plotting calls, under the keys the
    charts are stored with.  Drawing them is left to matplotlib and is not
    part of the embedding. *)
Record Series5 : Type := mkSeries5 {
  chart_sales_by_product : list (cell * Q);
  chart_sales_trend : list ((Z * Z) * Q);
  chart_revenue_distribution : list (cell * Q);
  chart_top_products_qty : list (cell * Q);
  chart_weekday_sales : list (string * Q)
}.

(** [None] stands for the empty dict returned when the preparation
    raises.  The plotting calls between the series can raise as well and
    end in the same empty dict; they are not modelled. *)
Definition generate_charts `{Pandas} (df : DataFrame) : option Series5 :=
  match prepare df with
  | None => None
  | Some rows =>
      Some (mkSeries5 (sales_by_product rows) (monthly_sales rows)
              (product_share rows) (top_qty rows) (weekday_sales rows))
  end.

(** [pd.DataFrame(upload.data)]: the keys of the records become the
    columns. *)
Definition frame_of_records (data : list record) : DataFrame :=
  match data with
  | [] => []
  | r :: _ =>
      map (fun k =>
             (k, map (fun r => match record_get k r with
                               | Some c => c
                               | None => Blank
                               end) data))
          (dedup String.eqb (map fst r))
  end.

(* ================================================================== *)
(** ** The upload store and the route [/upload] *)

(** The arguments the route gives to the [UserUpload] constructor; the row
    id and the upload time are assigned by the database. *)
Record UserUpload : Type := mkUpload {
  user_id : Z;
  filename : string;
  data : list record;
  currency : Currency
}.

Definition Store : Type := list UserUpload.

Record Stats : Type := mkStats {
  total_sales : Q;
  total_products : nat;
  stats_currency : string
}.

Inductive response : Type :=
| Error (status : Z) (msg : string)
| Uploaded (stats : Stats).

(** The request as the route reads it: the session's user, and the posted
    file with its name and what [pd.read_excel] or [pd.read_csv] makes of
    its content ([None] when the reader raises). *)
Record request : Type := mkRequest {
  session_user : option Z;
  posted : option (string * option DataFrame)
}.

(** The figures of the success response that can raise: the revenue and
    the number of distinct products.  (The period text is left out.) *)
Definition response_stats (currency : Currency) (df : DataFrame) : option Stats :=
  match as_series (select "total" df) with
  | None => None
  | Some total =>
      match as_floats total with
      | None => None
      | Some total =>
          match as_series (select "product" df) with
          | None => None
          | Some product =>
              Some (mkStats (nansum total)
                      (List.length (dedup key_eqb (flat_map
                         (fun c => match cell_key c with Some k => [k] | None => [] end)
                         product)))
                      (currency_code currency))
          end
      end
  end.

Definition allowed_extension (name : string) : bool :=
  (Text.endswith ".xlsx" (Text.lower name) || Text.endswith ".csv" (Text.lower name))%bool.

Definition upload_file `{Pandas} (store : Store) (req : request) : Store * response :=
  match session_user req with
  | None => (store, Error 401 "Unauthorized")
  | Some uid =>
      match posted req with
      | None => (store, Error 400 "No file selected")
      | Some (name, content) =>
          if String.eqb name "" then (store, Error 400 "No file selected")
          else if negb (allowed_extension name) then (store, Error 400 "Invalid file type")
          else
            match content with
            | None => (store, Error 500 "Processing failed")
            | Some df =>
                match ingest df with
                | Stop (Invalid msg) => (store, Error 400 msg)
                | Stop ColumnMappingFailed => (store, Error 400 "Column mapping failed")
                | Stop Raised => (store, Error 500 "Processing failed")
                | Done (currency, df) =>
                    let upload := mkUpload uid name (to_dict_records df) currency in
                    let store := store ++ [upload] in
                    match response_stats currency df with
                    | Some stats => (store, Uploaded stats)
                    | None => (store, Error 500 "Processing failed")
                    end
                end
            end
      end
  end.

(* ================================================================== *)
(** ** A concrete reader, for running the pipeline on examples *)

(** Plain decimal numerals with an optional sign and an optional
    fractional part; the empty text and [nan] read as missing. *)
Definition unsigned_decimal (s : string) : option Q :=
  match Text.split_dot s with
  | (whole, None) =>
      match whole with
      | EmptyString => None
      | _ => option_map inject_Z (Text.read_digits 0 whole)
      end
  | (whole, Some frac) =>
      match whole, frac with
      | EmptyString, EmptyString => None
      | _, _ =>
          match Text.read_digits 0 (whole ++ frac)%string with
          | Some n => Some (Qred (n # Z.to_pos (10 ^ Z.of_nat (String.length frac))))
          | None => None
          end
      end
  end.

Definition decimal_float (s : string) : option numeric :=
  match s with
  | EmptyString => Some NaN
  | String c r =>
      if (String.eqb s "nan" || String.eqb s "NaN")%bool then Some NaN
      else if Ascii.eqb c "-" then option_map (fun q => Fin (Qred (- q))) (unsigned_decimal r)
      else if Ascii.eqb c "+" then option_map Fin (unsigned_decimal r)
      else option_map Fin (unsigned_decimal s)
  end.

Definition days_in_month (y m : Z) : Z :=
  if m =? 2 then
    if ((y mod 4 =? 0) && (negb (y mod 100 =? 0) || (y mod 400 =? 0)))%bool
    then 29 else 28
  else if ((m =? 4) || (m =? 6) || (m =? 9) || (m =? 11))%bool then 30 else 31.

(** A date written [YYYY-MM-DD]. *)
Definition iso_date (s : string) : option date :=
  if negb (Nat.eqb (String.length s) 10) then None
  else
    match Text.read_digits 0 (substring 0 4 s),
          Text.read_digits 0 (substring 5 2 s),
          Text.read_digits 0 (substring 8 2 s) with
    | Some y, Some m, Some d =>
        if (String.eqb (substring 4 1 s) "-" && String.eqb (substring 7 1 s) "-"
            && (1 <=? m) && (m <=? 12) && (1 <=? d) && (d <=? days_in_month y m))%bool
        then Some (mkdate y m d) else None
    | _, _, _ => None
    end.

Definition iso_cell (c : cell) : option date :=
  match c with
  | Str s => iso_date s
  | _ => None
  end.

Definition iso_readable (c : cell) : bool :=
  match c with
  | Blank => true
  | Str s => match iso_date s with Some _ => true | None => false end
  | Num _ => false
  end.

(** Missing cells become NaT, ISO texts are read, anything else raises. *)
Definition iso_column (col : list cell) : option (cell -> option date) :=
  if forallb iso_readable col then Some iso_cell else None.

Definition plain_reader : Pandas :=
  {| parse_float := decimal_float; to_datetime := iso_column |}.

(* ================================================================== *)
(** ** Readings of the specification that are compared with the code *)

(** Removing only the leading dollar signs and commas of a text. *)
Fixpoint strip_leading_money (s : string) : string :=
  match s with
  | EmptyString => EmptyString
  | String c r =>
      if (Ascii.eqb c "$" || Ascii.eqb c ",")%bool then strip_leading_money r else s
  end.

(** The amount read from one cell of a money column when [clean] is applied
    to its text first: a number stands for itself, a missing cell and a
    text that does not read as a number count as 0. *)
Definition cleaned_amount `{Pandas} (clean : string -> string) (c : cell) : Q :=
  match c with
  | Blank => 0%Q
  | Num q => q
  | Str s =>
      match parse_float (clean s) with
      | Some (Fin q) => q
      | _ => 0%Q
      end
  end.

(** Top products with the groups taken in the order the products first
    appear in the rows, so that a stable sort breaks ties by that order. *)
Definition top_qty_first_seen (rows : list sale) : list (cell * Q) :=
  nlargest 8 (groupby_sum_unsorted key_eqb
                (by_product (fun r => Fin (s_quantity r)) rows)).

(** The synonym set of a required field. *)
Definition synonyms (field : string) : list string :=
  match dict_get field possible_names with
  | Some names => names
  | None => []
  end.

(** Some header is, case-insensitively, a synonym of the field. *)
Definition field_matched (cols : list string) (field : string) : bool :=
  existsb (fun col => Text.mem (Text.lower col) (synonyms field)) cols.

(** The required fields no header matches, in the order date, product,
    quantity. *)
Definition missing_fields (cols : list string) : list string :=
  filter (fun field => negb (field_matched cols field)) required.

(** The column under the first header matching the field, read by its
    original label. *)
Definition matched_column (df : DataFrame) (field : string) : option (list cell) :=
  match first_match (synonyms field) (columns df) with
  | Some label => as_series (select label df)
  | None => None
  end.

Definition refused `{Pandas} (c : cell) : bool :=
  match to_numeric_cell c with
  | None => true
  | Some _ => false
  end.

(** The matched date column parses as dates. *)
Definition dates_parse `{Pandas} (df : DataFrame) : bool :=
  match matched_column df "date" with
  | Some col => match to_datetime col with Some _ => true | None => false end
  | None => false
  end.

(** No row of the matched quantity column fails to parse as a number. *)
Definition quantity_parses `{Pandas} (df : DataFrame) : bool :=
  match matched_column df "quantity" with
  | Some col => negb (existsb refused col)
  | None => false
  end.

(** Row by row product of two columns of numbers. *)
Definition products (a b : list Q) : list Q :=
  map (fun qp => (fst qp * snd qp)%Q) (combine a b).

(** The frame has the column, and every column under that label holds
    exactly these cells. *)
Definition column_is (name : string) (s : list cell) (df : DataFrame) : Prop :=
  has_column name df = true
  /\ Forall (fun col => snd col = s) (filter (labelled name) df).

(** Every total of the frame is its row's quantity times its row's price,
    the price counting as 0 when the frame has no price column. *)
Definition total_is_quantity_times_price (df : DataFrame) : Prop :=
  exists qty,
    select "quantity" df = Series (map Num qty)
    /\ ((exists price,
            select "price" df = Series (map Num price)
            /\ select "total" df = Series (map Num (products qty price)))
        \/ (select "price" df = NoColumn
            /\ select "total" df = Series (map (fun q => Num (q * 0)) qty))).


(** [df['total'].sum()], the grand total of a record sequence. *)
Definition grand_total (rows : list sale) : Q := nansum (map s_total rows).

Definition has_product (r : sale) : bool :=
  match cell_key (s_product r) with Some _ => true | None => false end.

Definition has_date (r : sale) : bool :=
  match s_date r with Some _ => true | None => false end.




(** The quantity sold of one product. *)
Definition product_quantity (rows : list sale) (k : cell) : Q :=
  Qsum (map s_quantity
          (filter (fun r => match cell_key (s_product r) with
                            | Some k' => key_eqb k k'
                            | None => false
                            end) rows)).

(* ================================================================== *)
(** ** Tables used in the examples *)

(** One sale, priced in shillings. *)
Definition table_widget : DataFrame :=
  [ ("Date", [Str "2024-01-05"]); ("Item", [Str "Widget"]);
    ("Qty", [Num 3]); ("Price (KSH)", [Num 10]) ].

(** A total column that is kept: its sum is not zero. *)
Definition table_kept_total : DataFrame :=
  [ ("Date", [Str "2024-01-05"; Str "2024-01-06"]);
    ("Product", [Str "A"; Str "B"]);
    ("Quantity", [Num 2; Num 5]);
    ("Price", [Num 50; Num 0]);
    ("Total", [Str "$100"; Str "$0"]) ].

(** A total column that sums to zero and is recomputed. *)
Definition table_zero_total : DataFrame :=
  [ ("Date", [Str "2024-01-05"; Str "2024-01-06"]);
    ("Product", [Str "A"; Str "B"]);
    ("Quantity", [Num 2; Num 5]);
    ("Price", [Num 50; Num 20]);
    ("Total", [Num 0; Num 0]) ].

(** What the coercion makes of the three example tables. *)
Definition table_widget_coerced : DataFrame :=
  [ ("date", [Str "2024-01-05"]); ("product", [Str "Widget"]);
    ("quantity", [Num 3]); ("price", [Num 10]); ("total", [Num (3 * 10)]) ].

Definition table_kept_total_coerced : DataFrame :=
  [ ("date", [Str "2024-01-05"; Str "2024-01-06"]);
    ("product", [Str "A"; Str "B"]);
    ("quantity", [Num 2; Num 5]);
    ("price", [Num 50; Num 0]);
    ("total", [Num 100; Num 0]) ].

Definition table_zero_total_coerced : DataFrame :=
  [ ("date", [Str "2024-01-05"; Str "2024-01-06"]);
    ("product", [Str "A"; Str "B"]);
    ("quantity", [Num 2; Num 5]);
    ("price", [Num 50; Num 20]);
    ("total", [Num (2 * 50); Num (5 * 20)]) ].

(** A price written with a thousands separator. *)
Definition table_thousands : DataFrame :=
  [ ("date", [Str "2024-01-05"]); ("product", [Str "Widget"]);
    ("quantity", [Num 1]); ("price", [Str "1,000"]) ].

(** A sale whose quantity cell is empty in the file. *)
Definition table_blank_quantity : DataFrame :=
  [ ("Date", [Str "2024-01-05"]); ("Product", [Str "Widget"]);
    ("Qty", [Blank]); ("Price", [Num 10]) ].

Definition table_blank_quantity_coerced : DataFrame :=
  [ ("date", [Str "2024-01-05"]); ("product", [Str "Widget"]);
    ("quantity", [Num 0]); ("price", [Num 10]); ("total", [Num (0 * 10)]) ].

(** Two sales of one day, the second without a product name. *)
Definition table_blank_product : DataFrame :=
  [ ("Date", [Str "2024-01-05"; Str "2024-01-05"]);
    ("Product", [Str "Widget"; Blank]);
    ("Qty", [Num 1; Num 1]);
    ("Price", [Num 10; Num 5]) ].

Definition table_blank_product_coerced : DataFrame :=
  [ ("date", [Str "2024-01-05"; Str "2024-01-05"]);
    ("product", [Str "Widget"; Blank]);
    ("quantity", [Num 1; Num 1]);
    ("price", [Num 10; Num 5]);
    ("total", [Num (1 * 10); Num (1 * 5)]) ].

Definition sales_blank_product : list sale :=
  [ mkSale (Some (mkdate 2024 1 5)) (Str "Widget") 1 10 (Fin (1 * 10));
    mkSale (Some (mkdate 2024 1 5)) Blank 1 5 (Fin (1 * 5)) ].

(** One unit sold of each of nine products, met in the order i, h, ..., a. *)
Definition one_unit (name : string) : sale :=
  mkSale (Some (mkdate 2024 1 5)) (Str name) 1 1 (Fin 1).

Definition nine_products : list sale :=
  map one_unit ["i"; "h"; "g"; "f"; "e"; "d"; "c"; "b"; "a"].

(** A sale listed with both a product and a description column. *)
Definition table_two_product_columns : DataFrame :=
  [ ("Date", [Str "2024-01-05"]); ("Product", [Str "Widget"]);
    ("Description", [Str "Blue widget"]); ("Qty", [Num 3]); ("Price", [Num 10]) ].

(* ================================================================== *)
(** ** The routes that read and delete stored uploads *)

(** A row of the table [user_upload]: the primary key and the upload time
    the database assigns, and the columns the route filled in. *)
Record UploadRow : Type := mkRow {
  row_id : Z;
  upload_date : Z;
  row_upload : UserUpload
}.

Definition Table : Type := list UploadRow.

(** [UserUpload.query.get(upload_id)], the lookup behind [get_or_404]. *)
Definition query_get (upload_id : Z) (t : Table) : option UploadRow :=
  find (fun r => row_id r =? upload_id) t.

Definition owned_by (uid : Z) (r : UploadRow) : bool :=
  user_id (row_upload r) =? uid.

(** The route [/delete_upload/<int:upload_id>]: the table it leaves and
    the status it answers with. *)
Definition delete_upload (session : option Z) (upload_id : Z) (t : Table) : Table * Z :=
  match session with
  | None => (t, 401)
  | Some uid =>
      match query_get upload_id t with
      | None => (t, 404)
      | Some upload =>
          if negb (owned_by uid upload) then (t, 403)
          else (filter (fun r => negb (row_id r =? upload_id)) t, 200)
      end
  end.

(** [order_by(UserUpload.upload_date.desc())]. *)
Definition newer_first (a b : UploadRow) : bool := upload_date b <=? upload_date a.

(** [UserUpload.query.filter_by(user_id=...).order_by(...).all()]. *)
Definition user_uploads (uid : Z) (t : Table) : list UploadRow :=
  sort_by newer_first (filter (owned_by uid) t).

Inductive dashboard_page : Type :=
| RedirectToLogin
| NoUploads
| NotFound
| Shown (selected : UploadRow) (flashed : bool).

(** The route [/dashboard] and [/dashboard/<int:upload_id>] up to the
    choice of the upload whose data and charts are rendered; [flashed]
    tells whether the permission warning was flashed. *)
Definition dashboard (session : option Z) (upload_id : option Z) (t : Table)
  : dashboard_page :=
  match session with
  | None => RedirectToLogin
  | Some uid =>
      match user_uploads uid t with
      | [] => NoUploads
      | latest :: _ =>
          match upload_id with
          | None => Shown latest false
          | Some id =>
              if id =? 0 then Shown latest false
              else
                match query_get id t with
                | None => NotFound
                | Some selected =>
                    if negb (owned_by uid selected) then Shown latest true
                    else Shown selected false
                end
          end
      end
  end.

(** One line of the upload history (lines 271 to 279 of [dashboard]): the
    revenue [temp_df['total'].sum()] and the number of records of a stored
    upload, both 0 when the read of the total column raises.  [TextTotal]
    stands for a total column that holds a text, whose sum is not a number
    (pandas joins texts or raises, depending on the other cells). *)
Inductive history_line : Type :=
| Figures (total_revenue : Q) (records : nat)
| TextTotal.

Definition upload_history_line (data : list record) : history_line :=
  let temp_df := frame_of_records data in
  match select "total" temp_df with
  | Series total =>
      match as_floats total with
      | Some values => Figures (nansum values) (List.length data)
      | None => TextTotal
      end
  | _ => Figures 0 0
  end.






(* ================================================================== *)
(** ** Accounts: the routes [/register], [/login] and [/logout] *)

(** The two functions of [werkzeug.security] the [User] model calls.  The
    salt [generate_password_hash] draws is an argument here; the law is the
    contract of the library: a password checks against a hash made of it. *)
Class Werkzeug : Type := {
  generate_password_hash : string -> string -> string;
  check_password_hash : string -> string -> bool;
  check_generated : forall password salt,
      check_password_hash (generate_password_hash password salt) password = true
}.

(** A row of the table [user]. *)
Record User : Type := mkUser {
  account_id : Z;
  username : string;
  password_hash : string
}.

Inductive http_method : Type := GET | POST.

(** [request.form.get('username')] and [request.form.get('password')]:
    [None] when the field is not in the form. *)
Record credentials : Type := mkForm {
  form_username : option string;
  form_password : option string
}.

(** [User.query.filter_by(username=username).first()]; the column is not
    nullable, so a missing name finds nobody. *)
Definition find_user (name : option string) (users : list User) : option User :=
  match name with
  | None => None
  | Some n => find (fun u => String.eqb (username u) n) users
  end.

Inductive register_page : Type :=
| RegisterForm
| UsernameExists
| Registered
| RegisterError.

(** The route [/register]: the user table it leaves and its answer.
    [salt] is the salt drawn for the hash and [new_id] the key the database
    assigns.  [RegisterError] is an exception leaving the route: hashing a
    missing password, or committing a user without a name.  The length
    limits of the columns are not represented (SQLite, the default
    database, does not enforce them). *)
Definition register `{Werkzeug} (method : http_method) (form : credentials)
           (salt : string) (new_id : Z) (users : list User)
  : list User * register_page :=
  match method with
  | GET => (users, RegisterForm)
  | POST =>
      match find_user (form_username form) users with
      | Some _ => (users, UsernameExists)
      | None =>
          match form_password form with
          | None => (users, RegisterError)
          | Some password =>
              match form_username form with
              | None => (users, RegisterError)
              | Some name =>
                  (users ++ [mkUser new_id name (generate_password_hash password salt)],
                   Registered)
              end
          end
      end
  end.

(** The session keys the routes use: [user_id] and [username]. *)
Definition Session : Type := option (Z * string).

Inductive login_page : Type :=
| LoginForm (invalid : bool)
| LoggedIn
| LoginError.

(** The route [/login]: the session it leaves and its answer; [invalid]
    tells whether "Invalid username or password" was flashed.
    [LoginError] is the exception raised when a missing password is
    checked against the hash of a user that was found. *)
Definition login `{Werkzeug} (method : http_method) (form : credentials)
           (session : Session) (users : list User) : Session * login_page :=
  match method with
  | GET => (session, LoginForm false)
  | POST =>
      match find_user (form_username form) users with
      | None => (session, LoginForm true)
      | Some user =>
          match form_password form with
          | None => (session, LoginError)
          | Some password =>
              if check_password_hash (password_hash user) password
              then (Some (account_id user, username user), LoggedIn)
              else (session, LoginForm true)
          end
      end
  end.

(** The route [/logout]: [session.clear()]. *)
Definition logout (session : Session) : Session := None.

(** The user a route sees in the session ([session['user_id']]). *)
Definition session_user_id (session : Session) : option Z := option_map fst session.

(** A hasher for running examples: the hash is the password itself. *)
Definition plain_hasher : Werkzeug :=
  {| generate_password_hash := fun password _ => password;
     check_password_hash := String.eqb;
     check_generated := fun password _ => String.eqb_refl password |}.

(** Two registered users. *)
Definition two_users : list User :=
  [ mkUser 1 "amina" "secret"; mkUser 2 "brian" "hunter2" ].

(* ================================================================== *)
(** ** Notions used to state further properties *)

(** A label the validator will read cells under: once stripped and
    lower-cased it is a synonym of date or of quantity. *)
Definition checked_label (label : string) : bool :=
  (Text.mem (Text.lower (Text.strip label)) (synonyms "date")
   || Text.mem (Text.lower (Text.strip label)) (synonyms "quantity"))%bool.

(** Two frames with the same labels in the same order and the same cells
    under every label the validator reads. *)
Definition same_checked_cells (df df' : DataFrame) : Prop :=
  Forall2 (fun col col' => fst col = fst col'
                           /\ (checked_label (fst col) = true -> snd col = snd col'))
          df df'.

(** A step that can only stop by raising. *)
Definition only_raises {A : Type} (o : outcome A) : Prop :=
  forall f, o = Stop f -> f = Raised.

(** The cell is a number. *)
Definition is_number (c : cell) : bool :=
  match c with Num _ => true | _ => false end.

(** A header as the code compares it: stripped and lower-cased. *)
Definition normal_label (label : string) : string := Text.lower (Text.strip label).

(** Two frames with the same cells whose headers differ at most in case
    and surrounding white space. *)
Definition same_up_to_header_case (df df' : DataFrame) : Prop :=
  Forall2 (fun col col' => normal_label (fst col) = normal_label (fst col')
                           /\ snd col = snd col')
          df df'.

(** The record is dated in the month. *)
Definition in_month (m : Z * Z) (r : sale) : bool :=
  match s_date r with
  | Some d => period_eqb m (to_period_M d)
  | None => false
  end.

(** One month is strictly before another. *)
Definition period_lt (a b : Z * Z) : Prop :=
  fst a < fst b \/ (fst a = fst b /\ snd a < snd b).

(** The revenue of one product. *)
Definition product_revenue (rows : list sale) (k : cell) : Q :=
  nansum (map s_total
            (filter (fun r => match cell_key (s_product r) with
                              | Some k' => key_eqb k k'
                              | None => false
                              end) rows)).

(** A sale recorded with its total only. *)
Definition table_total_only : DataFrame :=
  [ ("Date", [Str "2024-01-05"]); ("Product", [Str "Widget"]);
    ("Qty", [Num 3]); ("Total", [Num 30]) ].

Definition table_total_only_coerced : DataFrame :=
  [ ("date", [Str "2024-01-05"]); ("product", [Str "Widget"]);
    ("quantity", [Num 3]); ("total", [Num 30]) ].

(** A file with a header line and no rows. *)
Definition table_headers_only : DataFrame :=
  [ ("Date", []); ("Product", []); ("Qty", []); ("Price", []) ].

Definition table_headers_only_coerced : DataFrame :=
  [ ("date", []); ("product", []); ("quantity", []); ("price", []); ("total", []) ].

(** Three stored uploads of two users. *)
Definition three_uploads : Table :=
  [ mkRow 1 100 (mkUpload 7 "jan.csv" [] USD);
    mkRow 2 200 (mkUpload 8 "other.csv" [] KSH);
    mkRow 3 300 (mkUpload 7 "feb.csv" [] USD) ].

(* ================================================================== *)
(** ** Numeric columns in machine arithmetic

    The rationals of the frames stand for the numbers of a table.  pandas
    holds a numeric column as 64-bit integers or as doubles, and lines 387
    and 388 compute in that arithmetic: integer sums and products wrap
    around, doubles round and have infinities and NaN.  This part writes
    the two lines out on such columns, and says for which numbers the
    exact sum and product of the frames are the ones the machine finds. *)





















(* ================================================================== *)
(** * Properties *)

(** The branches of the route that return before anything is stored. *)
Ltac store_untouched :=
  split; [|split];
  [ intros; split; [reflexivity|do 2 eexists; reflexivity]
  | intros; reflexivity
  | now left ].


(** ** Text *)

Module TextFacts.
Import Text.

Lemma is_space_lower_char (c : ascii) : is_space (lower_char c) = is_space c.
Proof. destruct c as [[] [] [] [] [] [] [] []]; reflexivity. Qed.

Lemma lower_lstrip (s : string) : lower (lstrip s) = lstrip (lower s).
Proof.
  induction s as [|c r IH]; simpl; [reflexivity|].
  rewrite is_space_lower_char. destruct (is_space c); [exact IH | reflexivity].
Qed.

Lemma lower_rstrip (s : string) : lower (rstrip s) = rstrip (lower s).
Proof.
  induction s as [|c r IH]; simpl; [reflexivity|].
  rewrite <- IH, is_space_lower_char.
  destruct (rstrip r); simpl; [destruct (is_space c)|]; reflexivity.
Qed.

Lemma lower_strip (s : string) : lower (strip s) = strip (lower s).
Proof. unfold strip. now rewrite lower_rstrip, lower_lstrip. Qed.

Lemma prefix_space (k c : ascii) (sub r : string) :
  is_space k = false -> is_space c = true ->
  String.prefix (String k sub) (String c r) = false.
Proof.
  intros Hk Hc. simpl. destruct (ascii_dec k c) as [->|]; [congruence | reflexivity].
Qed.

Lemma contains_lstrip (sub s : string) :
  no_space sub = true -> contains sub (lstrip s) = contains sub s.
Proof.
  intros Hsub. induction s as [|c r IH]; [reflexivity|].
  cbn [lstrip]. destruct (is_space c) eqn:Hc; [|reflexivity].
  rewrite IH. cbn [contains].
  destruct sub as [|k sub']; [now destruct r|].
  simpl in Hsub. apply andb_prop in Hsub as [Hk _].
  apply negb_true_iff in Hk. now rewrite (prefix_space k c sub' r Hk Hc).
Qed.

Lemma prefix_rstrip (s sub : string) :
  no_space sub = true -> String.prefix sub (rstrip s) = String.prefix sub s.
Proof.
  revert sub. induction s as [|c r IH]; intros sub Hsub; [reflexivity|].
  destruct sub as [|k sub']; [now destruct (rstrip (String c r))|].
  simpl in Hsub. apply andb_prop in Hsub as [Hk Hsub'].
  apply negb_true_iff in Hk. specialize (IH sub' Hsub').
  cbn [rstrip]. destruct (rstrip r) as [|a r'] eqn:Hr.
  - destruct (is_space c) eqn:Hc.
    + now rewrite (prefix_space k c sub' r Hk Hc).
    + simpl. destruct (ascii_dec k c); [|reflexivity].
      rewrite <- IH. now destruct sub'.
  - simpl. destruct (ascii_dec k c); [|reflexivity]. exact IH.
Qed.

Lemma contains_rstrip (sub s : string) :
  no_space sub = true -> contains sub (rstrip s) = contains sub s.
Proof.
  intros Hsub. induction s as [|c r IH]; [reflexivity|].
  cbn [contains]. rewrite <- IH, <- (prefix_rstrip (String c r) sub Hsub).
  cbn [rstrip]. destruct (rstrip r) as [|a r'] eqn:Hr.
  - destruct (is_space c); cbn [contains]; destruct (String.prefix sub _); reflexivity.
  - reflexivity.
Qed.

Lemma contains_strip (sub s : string) :
  no_space sub = true -> contains sub (strip s) = contains sub s.
Proof.
  intros Hsub. unfold strip. now rewrite contains_rstrip, contains_lstrip.
Qed.

Lemma contains_lower_strip (sub s : string) :
  no_space sub = true -> contains sub (lower (strip s)) = contains sub (lower s).
Proof. intros Hsub. rewrite lower_strip. now apply contains_strip. Qed.

End TextFacts.

(** ** Currency detection *)

Lemma detect_currency_spec (df : DataFrame) :
  detect_currency df = KSH <->
  exists h, In h (columns df) /\ Text.contains "ksh" (Text.lower h) = true.
Proof.
  unfold detect_currency.
  destruct (existsb (Text.contains "ksh") (map Text.lower (columns df))) eqn:E.
  - split; [intros _|reflexivity].
    apply existsb_exists in E as (l & Hin & Hl).
    apply in_map_iff in Hin as (h & <- & Hh). now exists h.
  - split; [discriminate|]. intros (h & Hh & Hc).
    assert (existsb (Text.contains "ksh") (map Text.lower (columns df)) = true) as E'.
    { apply existsb_exists. exists (Text.lower h). split; [now apply in_map|exact Hc]. }
    congruence.
Qed.

Lemma detect_currency_strip (df : DataFrame) :
  detect_currency (strip_columns df) = detect_currency df.
Proof.
  unfold detect_currency, strip_columns, rename_columns, columns.
  rewrite !map_map. cbn [fst].
  replace (existsb (Text.contains "ksh")
             (map (fun x => Text.lower (Text.strip (fst x))) df))
    with (existsb (Text.contains "ksh") (map (fun x => Text.lower (fst x)) df));
    [reflexivity|].
  induction df as [|col df IH]; [reflexivity|]. cbn [map existsb].
  rewrite IH. f_equal. symmetry. now apply TextFacts.contains_lower_strip.
Qed.

Lemma ingest_currency `{Pandas} (df : DataFrame) (cur : Currency) (final : DataFrame) :
  ingest df = Done (cur, final) -> cur = detect_currency df.
Proof.
  unfold ingest. destruct (validate_dataframe (strip_columns df)) as [ok msg].
  destruct ok; cbn [negb]; [|discriminate].
  destruct (coerce (strip_columns df)); cbn [bind]; [|discriminate].
  intros [= <- _]. apply detect_currency_strip.
Qed.

(** C4. The currency is KSH exactly when some header of the table, as the
    file gives it, contains "ksh" once lower-cased, and USD otherwise.  Two
    tables with the same headers get the same currency whatever their
    cells hold.  In the upload path the currency of an accepted table is
    the one detected on the original headers: stripping them changes
    nothing, while detecting after the renaming would lose the mark of a
    header such as "Price (KSH)". *)
Theorem detect_currency_headers_only `{Pandas} (df : DataFrame) :
  (detect_currency df = KSH <->
   exists h, In h (columns df) /\ Text.contains "ksh" (Text.lower h) = true)
  /\ (detect_currency df = USD <->
      ~ exists h, In h (columns df) /\ Text.contains "ksh" (Text.lower h) = true)
  /\ (forall df', columns df' = columns df -> detect_currency df' = detect_currency df)
  /\ (forall cur final, ingest df = Done (cur, final) -> cur = detect_currency df)
  /\ (forall cells,
         detect_currency [("Price (KSH)", cells)] = KSH
         /\ detect_currency (standardize_column_names [("Price (KSH)", cells)]) = USD).
Proof.
  split; [apply detect_currency_spec|].
  split.
  { rewrite <- detect_currency_spec. destruct (detect_currency df); split; congruence. }
  split.
  { intros df' Hcols. unfold detect_currency. now rewrite Hcols. }
  split; [intros cur final; apply ingest_currency|].
  intros cells. split; reflexivity.
Qed.

Lemma detect_currency_headers_only_witness :
  @ingest plain_reader table_widget
  = Done (KSH, [ ("date", [Str "2024-01-05"]); ("product", [Str "Widget"]);
                 ("quantity", [Num 3]); ("price", [Num 10]); ("total", [Num 30]) ])
  /\ KSH = detect_currency table_widget.
Proof.
  split; [reflexivity|].
  apply (proj1 (proj2 (proj2 (proj2 (@detect_currency_headers_only plain_reader table_widget))))
           KSH [ ("date", [Str "2024-01-05"]); ("product", [Str "Widget"]);
                 ("quantity", [Num 3]); ("price", [Num 10]); ("total", [Num 30]) ]).
  reflexivity.
Defined.

(** ** The schema validator *)

Lemma first_match_matched (names cols : list string) :
  existsb (fun col => Text.mem (Text.lower col) names) cols
  = match first_match names cols with Some _ => true | None => false end.
Proof.
  unfold first_match. induction cols as [|c cols IH]; [reflexivity|].
  cbn [existsb find]. destruct (Text.mem (Text.lower c) names); [reflexivity|exact IH].
Qed.

Lemma to_numeric_raise_refused `{Pandas} (col : list cell) :
  match to_numeric_raise col with Some _ => true | None => false end
  = negb (existsb refused col).
Proof.
  induction col as [|c col IH]; [reflexivity|].
  cbn [to_numeric_raise existsb]. unfold refused at 1.
  destruct (to_numeric_cell c); [|reflexivity].
  cbn [orb]. rewrite <- IH. now destruct (to_numeric_raise col).
Qed.


Lemma validate_dataframe_unfold `{Pandas} (df : DataFrame) :
  validate_dataframe df =
    let t := strip_columns df in
    let missing := missing_fields (columns t) in
    if negb (match missing with [] => true | _ => false end) then
      (false, "Missing required columns: " ++ String.concat ", " missing)%string
    else if negb (has_price_or_total (columns t)) then
      (false, "Missing price or total column")
    else if negb (dates_parse t && quantity_parses t) then
      (false, "Invalid date or quantity format")
    else (true, "").
Proof.
  unfold validate_dataframe, missing_fields, found_columns, required, field_matched,
    dates_parse, quantity_parses, matched_column, parse_check.
  cbv zeta. set (t := strip_columns df).
  cbn [possible_names flat_map filter fst snd].
  change (synonyms "date") with ["date"; "sale date"; "transaction date"; "order date"].
  change (synonyms "product") with ["product"; "item"; "description"; "name"].
  change (synonyms "quantity") with ["quantity"; "qty"; "units"].
  rewrite !first_match_matched.
  destruct (first_match ["date"; "sale date"; "transaction date"; "order date"] (columns t))
    as [d|];
  destruct (first_match ["product"; "item"; "description"; "name"] (columns t)) as [p|];
  destruct (first_match ["quantity"; "qty"; "units"] (columns t)) as [q|];
  try reflexivity.
  cbn -[has_price_or_total select to_datetime to_numeric_raise refused String.concat].
  destruct (has_price_or_total (columns t)); [|reflexivity].
  cbn [negb].
  destruct (as_series (select d t)) as [dates|]; [|reflexivity].
  destruct (to_datetime dates); [|reflexivity].
  destruct (as_series (select q t)) as [qty|]; [|reflexivity].
  rewrite <- to_numeric_raise_refused.
  destruct (to_numeric_raise qty); reflexivity.
Qed.

(** C3. The validator evaluates its gates in a fixed order and answers with
    the first that fails: some required field matched by no header (the
    message lists exactly the unmatched fields); else no header containing
    "price" or "total"; else a matched date column that does not parse as
    dates or a matched quantity column with a row that does not parse as a
    number; else it passes.  The three rejections are pairwise different,
    and the headers Date, Product are rejected with quantity missing. *)
Theorem validate_dataframe_gates `{Pandas} (df : DataFrame) :
  (validate_dataframe df =
     let t := strip_columns df in
     let missing := missing_fields (columns t) in
     if negb (match missing with [] => true | _ => false end) then
       (false, "Missing required columns: " ++ String.concat ", " missing)%string
     else if negb (has_price_or_total (columns t)) then
       (false, "Missing price or total column")
     else if negb (dates_parse t && quantity_parses t) then
       (false, "Invalid date or quantity format")
     else (true, ""))
  /\ (forall names : string,
         ("Missing required columns: " ++ names)%string <> "Missing price or total column"
         /\ ("Missing required columns: " ++ names)%string <> "Invalid date or quantity format"
         /\ "Missing price or total column" <> "Invalid date or quantity format")
  /\ (forall dates products : list cell,
         validate_dataframe [("Date", dates); ("Product", products)]
         = (false, "Missing required columns: quantity")).
Proof.
  split; [apply validate_dataframe_unfold|].
  split; [intros names; repeat split; discriminate|].
  intros dates products. reflexivity.
Qed.

Lemma validate_dataframe_gates_witness :
  @validate_dataframe plain_reader table_widget = (true, "").
Proof.
  rewrite (proj1 (@validate_dataframe_gates plain_reader table_widget)).
  reflexivity.
Defined.

(** ** Frames: reading and assigning columns *)

Lemma has_column_labelled (name : string) (df : DataFrame) :
  has_column name df = existsb (labelled name) df.
Proof.
  unfold has_column, Text.mem, columns, labelled.
  induction df as [|col df IH]; [reflexivity|].
  cbn [map existsb]. now rewrite IH, String.eqb_sym.
Qed.

Lemma has_column_filter (name : string) (df : DataFrame) :
  has_column name df = match filter (labelled name) df with [] => false | _ => true end.
Proof.
  rewrite has_column_labelled.
  induction df as [|col df IH]; [reflexivity|].
  cbn [existsb filter]. destruct (labelled name col); [reflexivity|exact IH].
Qed.

Lemma select_has_column (name : string) (df : DataFrame) :
  has_column name df = match select name df with NoColumn => false | _ => true end.
Proof.
  rewrite has_column_filter. unfold select.
  destruct (filter (labelled name) df) as [|[l s] [|c r]]; reflexivity.
Qed.

Lemma filter_set_other (n m : string) (s : list cell) (df : DataFrame) :
  n <> m -> filter (labelled n) (set_column m s df) = filter (labelled n) df.
Proof.
  intros Hnm. unfold set_column. destruct (has_column m df).
  - induction df as [|col df IH]; [reflexivity|].
    cbn [map filter]. rewrite IH.
    destruct (labelled m col) eqn:Hm; [|reflexivity].
    apply String.eqb_eq in Hm.
    assert (labelled n col = false) as Hn
      by (apply String.eqb_neq; congruence).
    assert (labelled n (fst col, s) = false) as Hn' by exact Hn.
    now rewrite Hn, Hn'.
  - rewrite filter_app. cbn [filter]. unfold labelled at 2. cbn [fst].
    destruct (String.eqb_spec m n) as [Hn|Hn]; [congruence|]. apply app_nil_r.
Qed.

Lemma filter_set_same (n : string) (s : list cell) (df : DataFrame) :
  filter (labelled n) (set_column n s df)
  = if has_column n df
    then map (fun col => (fst col, s)) (filter (labelled n) df)
    else [(n, s)].
Proof.
  unfold set_column. destruct (has_column n df) eqn:Hhas.
  - clear Hhas. induction df as [|col df IH]; [reflexivity|].
    cbn [map filter]. destruct (labelled n col) eqn:Hl.
    + assert (labelled n (fst col, s) = true) as Hl' by exact Hl.
      rewrite Hl'. cbn [map]. now rewrite IH.
    + rewrite Hl. exact IH.
  - rewrite filter_app. rewrite has_column_filter in Hhas.
    destruct (filter (labelled n) df); [|discriminate].
    cbn [filter app]. unfold labelled. cbn [fst]. now rewrite String.eqb_refl.
Qed.

Lemma select_set_other (n m : string) (s : list cell) (df : DataFrame) :
  n <> m -> select n (set_column m s df) = select n df.
Proof. intros Hnm. unfold select. now rewrite filter_set_other. Qed.

Lemma select_set_series (n : string) (s s0 : list cell) (df : DataFrame) :
  select n df = Series s0 -> select n (set_column n s df) = Series s.
Proof.
  intros Hsel. unfold select. rewrite filter_set_same, select_has_column, Hsel.
  unfold select in Hsel.
  destruct (filter (labelled n) df) as [|[l c] [|c' r]]; try discriminate. reflexivity.
Qed.

Lemma select_set_new (n : string) (s : list cell) (df : DataFrame) :
  select n df = NoColumn -> select n (set_column n s df) = Series s.
Proof.
  intros Hsel. unfold select. now rewrite filter_set_same, select_has_column, Hsel.
Qed.

Lemma has_column_set (n m : string) (s : list cell) (df : DataFrame) :
  has_column n (set_column m s df) = (has_column n df || String.eqb n m)%bool.
Proof.
  destruct (String.eqb_spec n m) as [->|Hnm].
  - rewrite has_column_filter, filter_set_same.
    destruct (has_column m df) eqn:Hm; [|reflexivity].
    rewrite has_column_filter in Hm. now destruct (filter (labelled m) df).
  - rewrite orb_false_r, !has_column_filter. now rewrite filter_set_other.
Qed.

Lemma columns_set_existing (n : string) (s : list cell) (df : DataFrame) :
  has_column n df = true -> columns (set_column n s df) = columns df.
Proof.
  intros Hhas. unfold set_column. rewrite Hhas. unfold columns.
  rewrite map_map. apply map_ext. intros col. now destruct (labelled n col).
Qed.

Lemma first_containing_none (sub label : string) (df : DataFrame) :
  first_containing sub df = None -> Text.contains sub label = true ->
  has_column label df = false.
Proof.
  unfold first_containing, has_column, Text.mem. intros Hnone Hsub.
  destruct (existsb (String.eqb label) (columns df)) eqn:E; [|reflexivity].
  apply existsb_exists in E as (l & Hin & Hl). apply String.eqb_eq in Hl. subst l.
  pose proof (find_none _ _ Hnone label Hin). congruence.
Qed.

Lemma first_containing_some (sub label : string) (df : DataFrame) :
  first_containing sub df = Some label -> Text.contains sub label = true.
Proof. unfold first_containing. intros Hf. now apply find_some in Hf. Qed.

(** ** Float columns *)

Lemma as_floats_Num (l : list Q) : as_floats (map Num l) = Some (map Fin l).
Proof. induction l as [|q l IH]; [reflexivity|]. cbn. now rewrite IH. Qed.

Lemma nansum_Fin (l : list Q) : nansum (map Fin l) = Qsum l.
Proof. unfold nansum. rewrite map_map. cbn [fillna0]. now rewrite map_id. Qed.

Lemma series_mul_Fin (a b : list Q) :
  series_mul (map Fin a) (map Fin b) = map Fin (products a b).
Proof.
  unfold products. revert b. induction a as [|x a IH]; intros [|y b]; try reflexivity.
  cbn. now rewrite IH.
Qed.

Lemma map_cell_of_numeric_Fin (l : list Q) : map cell_of_numeric (map Fin l) = map Num l.
Proof. now rewrite map_map. Qed.

Lemma column_is_select (n : string) (s s' : list cell) (df : DataFrame) :
  column_is n s df -> select n df = Series s' -> s' = s.
Proof.
  intros [_ Hall]. unfold select.
  destruct (filter (labelled n) df) as [|[l c] [|c' r]]; try discriminate.
  intros [= <-]. now inversion Hall.
Qed.

Lemma select_column_is (n : string) (s : list cell) (df : DataFrame) :
  select n df = Series s -> column_is n s df.
Proof.
  intros Hsel. split; [now rewrite select_has_column, Hsel|].
  unfold select in Hsel.
  destruct (filter (labelled n) df) as [|[l c] [|c' r]]; try discriminate.
  injection Hsel as ->. now repeat constructor.
Qed.

Lemma column_is_set (n : string) (s : list cell) (df : DataFrame) :
  column_is n s (set_column n s df).
Proof.
  split.
  - rewrite has_column_set, String.eqb_refl. apply orb_true_r.
  - rewrite filter_set_same. destruct (has_column n df).
    + apply Forall_map. now apply Forall_forall.
    + now repeat constructor.
Qed.

Lemma column_is_filter (n : string) (s : list cell) (df df' : DataFrame) :
  filter (labelled n) df' = filter (labelled n) df ->
  column_is n s df -> column_is n s df'.
Proof.
  intros Hf [Hhas Hall]. split; [|now rewrite Hf].
  rewrite has_column_filter in *. now rewrite Hf.
Qed.

Lemma select_filter (n : string) (df df' : DataFrame) :
  filter (labelled n) df' = filter (labelled n) df -> select n df' = select n df.
Proof. intros Hf. unfold select. now rewrite Hf. Qed.

(** ** The stages of the coercion *)

Lemma series_inv (name : string) (df : DataFrame) (s : list cell) :
  series name df = Done s -> select name df = Series s.
Proof.
  unfold series. destruct (select name df); cbn; congruence.
Qed.

Lemma floats_Num (name : string) (df : DataFrame) (l : list Q) :
  select name df = Series (map Num l) -> floats name df = Done (map Fin l).
Proof.
  intros Hsel. unfold floats, series. rewrite Hsel. cbn. now rewrite as_floats_Num.
Qed.

Lemma coerce_quantity_inv `{Pandas} (df df' : DataFrame) :
  coerce_quantity df = Done df' ->
  exists qsrc,
    select "quantity" df = Series qsrc
    /\ df' = set_column "quantity" (map Num (quantity_column qsrc)) df.
Proof.
  unfold coerce_quantity. destruct (series "quantity" df) as [qsrc|] eqn:Hs; [|discriminate].
  cbn [bind]. intros [= <-]. exists qsrc. split; [now apply series_inv|reflexivity].
Qed.


Lemma coerce_money_inv `{Pandas} (df df' : DataFrame) :
  coerce_money df = Done df' ->
  (forall l, l <> "price" -> l <> "total" ->
             filter (labelled l) df' = filter (labelled l) df)
  /\ match first_containing "price" df with
     | Some pc => exists psrc, select pc df = Series psrc
                               /\ column_is "price" (map Num (money_column psrc)) df'
     | None => select "price" df' = NoColumn
     end
  /\ match first_containing "total" df with
     | Some tc => exists tsrc, select tc df = Series tsrc
                               /\ column_is "total" (map Num (money_column tsrc)) df'
     | None => select "total" df' = NoColumn
     end.
Proof.
  unfold coerce_money.
  assert (forall df3 : DataFrame,
            match first_containing "price" df with
            | Some c => s <- series c df ;; Done (set_column "price" (map Num (money_column s)) df)
            | None => Done df
            end = Done df3 ->
            (forall l, l <> "price" -> filter (labelled l) df3 = filter (labelled l) df)
            /\ match first_containing "price" df with
               | Some pc => exists psrc, select pc df = Series psrc
                                         /\ column_is "price" (map Num (money_column psrc)) df3
               | None => select "price" df3 = NoColumn
               end) as Hprice.
  { intros df3. destruct (first_containing "price" df) as [pc|] eqn:Hpc.
    - destruct (series pc df) as [psrc|] eqn:Hs; [|discriminate]. cbn [bind].
      intros [= <-]. split; [intros l Hl; now apply filter_set_other|].
      exists psrc. split; [now apply series_inv|apply column_is_set].
    - intros [= <-]. split; [reflexivity|].
      pose proof (first_containing_none "price" "price" df Hpc eq_refl) as Hno.
      rewrite select_has_column in Hno. now destruct (select "price" df). }
  destruct (match first_containing "price" df with
            | Some c => s <- series c df ;; Done (set_column "price" (map Num (money_column s)) df)
            | None => Done df
            end) as [df3|] eqn:E3; [|discriminate].
  destruct (Hprice df3 eq_refl) as [Hkeep3 Hp3]. clear Hprice. cbn [bind].
  destruct (first_containing "total" df) as [tc|] eqn:Htc.
  - destruct (series tc df3) as [tsrc|] eqn:Hs; [|discriminate]. cbn [bind].
    intros [= <-]. apply series_inv in Hs.
    assert (tc <> "price") as Htp.
    { intros ->. apply first_containing_some in Htc. discriminate Htc. }
    rewrite (select_filter tc df df3 (Hkeep3 tc Htp)) in Hs.
    split; [|split].
    + intros l Hl1 Hl2. rewrite filter_set_other by exact Hl2. now apply Hkeep3.
    + assert (filter (labelled "price") (set_column "total" (map Num (money_column tsrc)) df3)
              = filter (labelled "price") df3) as Hf by (apply filter_set_other; discriminate).
      destruct (first_containing "price" df).
      * destruct Hp3 as (psrc & Hsel & Hcol). exists psrc. split; [exact Hsel|].
        now apply (column_is_filter _ _ df3).
      * now rewrite (select_filter _ _ _ Hf).
    + exists tsrc. split; [exact Hs|apply column_is_set].
  - intros [= <-]. split; [|split].
    + intros l Hl1 _. now apply Hkeep3.
    + exact Hp3.
    + pose proof (first_containing_none "total" "total" df Htc eq_refl) as Hno.
      assert (filter (labelled "total") df3 = filter (labelled "total") df) as Hf
          by (apply Hkeep3; discriminate).
      rewrite (select_filter _ _ _ Hf).
      rewrite select_has_column in Hno. now destruct (select "total" df).
Qed.

Lemma recompute_total_inv (df df' : DataFrame) (qty : list Q) :
  select "quantity" df = Series (map Num qty) ->
  (forall s, select "price" df = Series s -> exists price, s = map Num price) ->
  (forall cols, select "total" df <> SubFrame cols) ->
  recompute_total df = Done df' ->
  (forall l, l <> "total" -> filter (labelled l) df' = filter (labelled l) df)
  /\ ((exists price,
         select "price" df = Series (map Num price)
         /\ select "total" df' = Series (map Num (products qty price)))
      \/ (select "price" df = NoColumn
          /\ select "total" df' = Series (map (fun q => Num (q * 0)) qty))).
Proof.
  intros Hq Hp Ht. unfold recompute_total. rewrite (floats_Num _ _ _ Hq). cbn [bind].
  assert (forall s, select "total" (set_column "total" s df) = Series s) as Hset.
  { intros s. destruct (select "total" df) as [|s0|cols] eqn:E.
    - now apply select_set_new.
    - now apply (select_set_series _ _ s0).
    - now destruct (Ht cols). }
  destruct (select "price" df) as [|s|cols] eqn:Eprice.
  - intros [= <-]. split; [intros l Hl; now apply filter_set_other|].
    right. split; [reflexivity|]. rewrite Hset. now rewrite map_map.
  - destruct (Hp s eq_refl) as (price & ->). rewrite as_floats_Num. cbn [try_ bind].
    intros [= <-]. split; [intros l Hl; now apply filter_set_other|].
    left. exists price. split; [reflexivity|].
    now rewrite Hset, series_mul_Fin, map_cell_of_numeric_Fin.
  - discriminate.
Qed.

Lemma settle_total_inv (df df' : DataFrame) (qty : list Q) :
  select "quantity" df = Series (map Num qty) ->
  (forall s, select "price" df = Series s -> exists price, s = map Num price) ->
  settle_total df = Done df' ->
  (forall l, l <> "total" -> filter (labelled l) df' = filter (labelled l) df)
  /\ (let recomputed :=
        (exists price,
            select "price" df = Series (map Num price)
            /\ select "total" df' = Series (map Num (products qty price)))
        \/ (select "price" df = NoColumn
            /\ select "total" df' = Series (map (fun q => Num (q * 0)) qty)) in
      (select "total" df = NoColumn -> recomputed)
      /\ (forall total, column_is "total" (map Num total) df ->
            if Qeq_bool (Qsum total) 0 then recomputed
            else select "total" df' = Series (map Num total))).
Proof.
  intros Hq Hp. unfold settle_total. rewrite select_has_column.
  destruct (select "total" df) as [|s|cols] eqn:Etotal; cbn [negb].
  - intros Hre.
    destruct (recompute_total_inv df df' qty Hq Hp) as [Hkeep Hres];
      [intros cols; rewrite Etotal; discriminate|exact Hre|].
    split; [exact Hkeep|]. cbv zeta. split; [intros _; exact Hres|].
    intros total [Hhas _]. rewrite select_has_column, Etotal in Hhas. discriminate.
  - unfold floats, series. rewrite Etotal. cbn [as_series try_ bind].
    destruct (as_floats s) as [vs|] eqn:Evs; [|discriminate]. cbn [try_ bind].
    destruct (Qeq_bool (nansum vs) 0) eqn:Ez.
    + intros Hre.
      destruct (recompute_total_inv df df' qty Hq Hp) as [Hkeep Hres];
        [intros cols; rewrite Etotal; discriminate|exact Hre|].
      split; [exact Hkeep|]. cbv zeta. split; [discriminate|].
      intros total Hcol. pose proof (column_is_select _ _ _ _ Hcol Etotal) as ->.
      rewrite as_floats_Num in Evs. injection Evs as <-.
      rewrite nansum_Fin in Ez. now rewrite Ez.
    + intros [= <-]. split; [reflexivity|]. cbv zeta. split; [discriminate|].
      intros total Hcol. pose proof (column_is_select _ _ _ _ Hcol Etotal) as ->.
      rewrite as_floats_Num in Evs. injection Evs as <-.
      rewrite nansum_Fin in Ez. now rewrite Ez.
  - unfold floats, series. rewrite Etotal. discriminate.
Qed.

Lemma format_dates_inv `{Pandas} (df df' : DataFrame) :
  format_dates df = Done df' ->
  forall l, l <> "date" -> filter (labelled l) df' = filter (labelled l) df.
Proof.
  unfold format_dates. destruct (series "date" df) as [dates|]; [|discriminate].
  cbn [bind]. destruct (to_datetime dates) as [parsed|]; [|discriminate].
  cbn [try_ bind]. intros [= <-] l Hl. now apply filter_set_other.
Qed.

Lemma coerce_stages `{Pandas} (df final : DataFrame) :
  coerce df = Done final ->
  exists df2 df4 df5,
    coerce_quantity (standardize_column_names df) = Done df2
    /\ coerce_money df2 = Done df4
    /\ settle_total df4 = Done df5
    /\ format_dates df5 = Done final.
Proof.
  unfold coerce. cbv zeta.
  destruct (negb (forallb _ _)); [discriminate|].
  destruct (coerce_quantity _) as [df2|] eqn:E2; [|discriminate]. cbn [bind].
  destruct (coerce_money df2) as [df4|] eqn:E4; [|discriminate]. cbn [bind].
  destruct (settle_total df4) as [df5|] eqn:E5; [|discriminate]. cbn [bind].
  intros Hfinal. now exists df2, df4, df5.
Qed.

(** What the coercion leaves in the three numeric columns of an accepted
    table, in terms of the renamed source frame. *)
Lemma coerce_spec `{Pandas} (df final : DataFrame) :
  coerce df = Done final ->
  let df1 := standardize_column_names df in
  exists qsrc,
    select "quantity" df1 = Series qsrc
    /\ select "quantity" final = Series (map Num (quantity_column qsrc))
    /\ match first_containing "price" df1 with
       | Some pc => exists psrc, select pc df1 = Series psrc
                                 /\ column_is "price" (map Num (money_column psrc)) final
       | None => select "price" final = NoColumn
       end
    /\ match first_containing "total" df1 with
       | Some tc =>
           exists tsrc,
             select tc df1 = Series tsrc
             /\ if Qeq_bool (Qsum (money_column tsrc)) 0
                then total_is_quantity_times_price final
                else select "total" final = Series (map Num (money_column tsrc))
       | None => total_is_quantity_times_price final
       end.
Proof.
  intros Hco df1. destruct (coerce_stages df final Hco) as (df2 & df4 & df5 & H2 & H4 & H5 & Hf).
  fold df1 in H2. apply coerce_quantity_inv in H2 as (qsrc & Hqsrc & ->).
  set (qty := quantity_column qsrc) in *.
  set (df2 := set_column "quantity" (map Num qty) df1) in *.
  assert (select "quantity" df2 = Series (map Num qty)) as Hq2
      by (now apply (select_set_series _ _ qsrc)).
  assert (columns df2 = columns df1) as Hcols.
  { apply columns_set_existing. now rewrite select_has_column, Hqsrc. }
  assert (forall sub, first_containing sub df2 = first_containing sub df1) as Hfc
      by (intros sub; unfold first_containing; now rewrite Hcols).
  assert (forall l, l <> "quantity" -> select l df2 = select l df1) as Hsel2
      by (intros l Hl; now apply select_set_other).
  apply coerce_money_inv in H4 as (Hkeep4 & Hp4 & Ht4).
  rewrite Hfc in Hp4, Ht4.
  assert (select "quantity" df4 = Series (map Num qty)) as Hq4.
  { rewrite (select_filter "quantity" df2 df4); [exact Hq2|]. apply Hkeep4; discriminate. }
  assert (forall s, select "price" df4 = Series s -> exists price, s = map Num price) as Hp4'.
  { intros s Hs. destruct (first_containing "price" df1).
    - destruct Hp4 as (psrc & _ & Hcol). eexists. exact (column_is_select _ _ _ _ Hcol Hs).
    - congruence. }
  destruct (settle_total_inv df4 df5 qty Hq4 Hp4' H5) as (Hkeep5 & Hnone5 & Hsome5).
  pose proof (format_dates_inv df5 final Hf) as Hkeepf.
  assert (forall l, l <> "total" -> l <> "date" -> select l final = select l df4) as Hfin.
  { intros l Hl1 Hl2. rewrite (select_filter l df5 final (Hkeepf l Hl2)).
    apply select_filter. now apply Hkeep5. }
  assert (select "total" final = select "total" df5) as Hfint
      by (apply select_filter, Hkeepf; discriminate).
  assert (((exists price,
              select "price" df4 = Series (map Num price)
              /\ select "total" df5 = Series (map Num (products qty price)))
           \/ (select "price" df4 = NoColumn
               /\ select "total" df5 = Series (map (fun q => Num (q * 0)) qty)))
          -> total_is_quantity_times_price final) as Hre.
  { intros Hcase. exists qty. split; [rewrite Hfin; [exact Hq4|discriminate|discriminate]|].
    rewrite Hfint, (Hfin "price") by discriminate. exact Hcase. }
  exists qsrc. split; [exact Hqsrc|].
  split; [rewrite Hfin; [exact Hq4|discriminate|discriminate]|].
  split.
  - destruct (first_containing "price" df1) as [pc|] eqn:Hpc.
    + destruct Hp4 as (psrc & Hsel & Hcol). exists psrc. split.
      * rewrite <- Hsel. symmetry. apply Hsel2. intros ->.
        apply first_containing_some in Hpc. discriminate Hpc.
      * apply (column_is_filter _ _ df4); [|exact Hcol].
        rewrite (Hkeepf "price") by discriminate. apply Hkeep5. discriminate.
    + rewrite Hfin; [exact Hp4|discriminate|discriminate].
  - destruct (first_containing "total" df1) as [tc|] eqn:Htc.
    + destruct Ht4 as (tsrc & Hsel & Hcol). exists tsrc. split.
      * rewrite <- Hsel. symmetry. apply Hsel2. intros ->.
        apply first_containing_some in Htc. discriminate Htc.
      * specialize (Hsome5 _ Hcol).
        destruct (Qeq_bool (Qsum (money_column tsrc)) 0); [now apply Hre|].
        now rewrite Hfint.
    + apply Hre, Hnone5, Ht4.
Qed.

(** ** Stripping headers twice *)

Lemma rstrip_idempotent (s : string) : Text.rstrip (Text.rstrip s) = Text.rstrip s.
Proof.
  induction s as [|c r IH]; [reflexivity|].
  cbn [Text.rstrip]. destruct (Text.rstrip r) as [|a r'] eqn:Hr.
  - destruct (Text.is_space c) eqn:Hc; [reflexivity|]. cbn. now rewrite Hc.
  - cbn [Text.rstrip]. cbn [Text.rstrip] in IH. rewrite IH. reflexivity.
Qed.

Lemma lstrip_rstrip_lstrip (s : string) :
  Text.lstrip (Text.rstrip (Text.lstrip s)) = Text.rstrip (Text.lstrip s).
Proof.
  induction s as [|c r IH]; [reflexivity|].
  cbn [Text.lstrip]. destruct (Text.is_space c) eqn:Hc; [exact IH|].
  cbn [Text.rstrip]. destruct (Text.rstrip r); rewrite ?Hc; cbn [Text.lstrip];
    now rewrite Hc.
Qed.

Lemma strip_idempotent (s : string) : Text.strip (Text.strip s) = Text.strip s.
Proof.
  unfold Text.strip. now rewrite lstrip_rstrip_lstrip, rstrip_idempotent.
Qed.

Lemma strip_columns_idempotent (df : DataFrame) :
  strip_columns (strip_columns df) = strip_columns df.
Proof.
  unfold strip_columns, rename_columns. rewrite map_map. apply map_ext.
  intros col. cbn [fst snd]. now rewrite strip_idempotent.
Qed.

Lemma standardize_strip (df : DataFrame) :
  standardize_column_names (strip_columns df) = standardize_column_names df.
Proof. unfold standardize_column_names. now rewrite strip_columns_idempotent. Qed.

Lemma coerce_strip `{Pandas} (df : DataFrame) : coerce (strip_columns df) = coerce df.
Proof. unfold coerce. now rewrite standardize_strip. Qed.

Lemma ingest_inv `{Pandas} (df : DataFrame) (cur : Currency) (final : DataFrame) :
  ingest df = Done (cur, final) ->
  validate_dataframe df = (true, "") /\ coerce df = Done final.
Proof.
  unfold ingest. rewrite coerce_strip.
  assert (validate_dataframe (strip_columns df) = validate_dataframe df) as ->.
  { unfold validate_dataframe. now rewrite strip_columns_idempotent. }
  destruct (validate_dataframe df) as [ok msg] eqn:Hv.
  destruct ok; cbn [negb]; [|discriminate].
  destruct (coerce df); cbn [bind]; [|discriminate].
  intros [= _ <-]. split; [|reflexivity].
  rewrite validate_dataframe_unfold in Hv. cbv zeta in Hv.
  repeat match type of Hv with
         | (if ?b then _ else _) = _ => destruct b; try discriminate
         end.
  now injection Hv as <-.
Qed.

(** ** The total column *)

Lemma map_Num_injective (a b : list Q) : map Num a = map Num b -> a = b.
Proof.
  revert b. induction a as [|x a IH]; intros [|y b]; try discriminate; [reflexivity|].
  cbn. intros [= -> Hab]. f_equal. now apply IH.
Qed.









(** ** The money columns *)

Lemma money_column_cells `{Pandas} (col : list cell) :
  money_column col = map (cleaned_amount Text.remove_money_marks) col.
Proof.
  unfold money_column, to_numeric_coerce. rewrite !map_map. apply map_ext.
  intros [|q|s]; cbn; try reflexivity.
  destruct (parse_float (Text.remove_money_marks s)) as [[|q]|]; reflexivity.
Qed.

(** C5, as the code has it.  When the frame has a price-bearing column, the
    coercer fills [price] from it cell by cell: every dollar sign and every
    comma of a text is removed, wherever it stands, the rest is parsed as a
    number, and what does not parse counts as 0.  The total-bearing column
    fills [total] by the same rule.  The step succeeds whenever each of
    the two labels is carried by a single column. *)
Theorem coerce_money_removes_all_marks `{Pandas} (df : DataFrame) :
  (forall df', coerce_money df = Done df' ->
     (forall pc, first_containing "price" df = Some pc ->
        exists src, select pc df = Series src
                    /\ column_is "price"
                         (map (fun c => Num (cleaned_amount Text.remove_money_marks c)) src) df')
     /\ (forall tc, first_containing "total" df = Some tc ->
           exists src, select tc df = Series src
                       /\ column_is "total"
                            (map (fun c => Num (cleaned_amount Text.remove_money_marks c)) src) df'))
  /\ ((forall pc, first_containing "price" df = Some pc -> exists s, select pc df = Series s) ->
      (forall tc, first_containing "total" df = Some tc -> exists s, select tc df = Series s) ->
      exists df', coerce_money df = Done df').
Proof.
  split.
  - intros df' Hm. apply coerce_money_inv in Hm as (_ & Hp & Ht). split.
    + intros pc Hpc. rewrite Hpc in Hp. destruct Hp as (src & Hsel & Hcol).
      exists src. split; [exact Hsel|]. now rewrite money_column_cells, map_map in Hcol.
    + intros tc Htc. rewrite Htc in Ht. destruct Ht as (src & Hsel & Hcol).
      exists src. split; [exact Hsel|]. now rewrite money_column_cells, map_map in Hcol.
  - intros Hp Ht. unfold coerce_money.
    destruct (first_containing "price" df) as [pc|] eqn:Hpc.
    + destruct (Hp pc eq_refl) as (ps & Hps). unfold series at 1. rewrite Hps. cbn [as_series try_ bind].
      destruct (first_containing "total" df) as [tc|] eqn:Htc; [|eexists; reflexivity].
      destruct (Ht tc eq_refl) as (ts & Hts). unfold series.
      rewrite select_set_other, Hts; [cbn; eexists; reflexivity|].
      intros ->. apply first_containing_some in Htc. discriminate Htc.
    + cbn [bind]. destruct (first_containing "total" df) as [tc|] eqn:Htc; [|eexists; reflexivity].
      destruct (Ht tc eq_refl) as (ts & Hts). unfold series. rewrite Hts.
      cbn. eexists; reflexivity.
Qed.

Lemma coerce_money_removes_all_marks_witness :
  @coerce_money plain_reader table_thousands
  = Done [ ("date", [Str "2024-01-05"]); ("product", [Str "Widget"]);
           ("quantity", [Num 1]); ("price", [Num 1000]) ]
  /\ column_is "price" [Num 1000]
       [ ("date", [Str "2024-01-05"]); ("product", [Str "Widget"]);
         ("quantity", [Num 1]); ("price", [Num 1000]) ].
Proof.
  assert (@coerce_money plain_reader table_thousands
          = Done [ ("date", [Str "2024-01-05"]); ("product", [Str "Widget"]);
                   ("quantity", [Num 1]); ("price", [Num 1000]) ]) as Hm
      by (vm_compute; reflexivity).
  split; [exact Hm|].
  destruct (proj1 (proj1 (@coerce_money_removes_all_marks plain_reader table_thousands) _ Hm)
              "price" eq_refl) as (src & Hsel & Hcol).
  injection Hsel as <-. exact Hcol.
Defined.

(** C5 as worded (leading marks only) fails: the price "1,000" is read as
    1000 by the coercer, while removing leading marks only leaves a text
    that does not parse and would count as 0. *)
Lemma leading_marks_only_counterexample :
  ~ (forall (P : Pandas) (df df' : DataFrame) (pc : string) (src : list cell),
        coerce_money df = Done df' ->
        first_containing "price" df = Some pc ->
        select pc df = Series src ->
        column_is "price" (map (fun c => Num (cleaned_amount strip_leading_money c)) src) df').
Proof.
  intros Hclaim.
  specialize (Hclaim plain_reader table_thousands _ "price" [Str "1,000"]
                eq_refl eq_refl eq_refl).
  destruct Hclaim as [_ Hall]. vm_compute in Hall.
  inversion Hall as [|col rest Hhead _]. discriminate Hhead.
Qed.

(** ** The quantity column, from the validator to the coercer *)

Lemma standard_name_quantity (l : string) :
  String.eqb (standard_name l) "quantity"
  = Text.mem (Text.lower l) ["quantity"; "qty"; "units"].
Proof.
  unfold standard_name, column_mapping, Text.mem. cbn [dict_get existsb].
  set (x := Text.lower l).
  repeat match goal with
         | |- context [String.eqb ?k x] =>
             destruct (String.eqb_spec k x) as [<-|?]; [reflexivity|]
         end.
  rewrite (String.eqb_sym x "quantity"), (String.eqb_sym x "qty"), (String.eqb_sym x "units").
  repeat match goal with
         | Hne : ?k <> x |- context [String.eqb ?k x] =>
             rewrite (proj2 (String.eqb_neq k x) Hne)
         end.
  reflexivity.
Qed.

Lemma filter_rename (f : string -> string) (n : string) (df : DataFrame) :
  filter (labelled n) (rename_columns f df)
  = rename_columns f (filter (fun col => String.eqb (f (fst col)) n) df).
Proof.
  unfold rename_columns. induction df as [|col df IH]; [reflexivity|].
  cbn [map filter]. unfold labelled at 1. cbn [fst].
  destruct (String.eqb (f (fst col)) n); cbn [map]; now rewrite IH.
Qed.

Lemma filter_nil_sub {A : Type} (P Q : A -> bool) (l : list A) :
  (forall y, Q y = true -> P y = true) -> filter P l = [] -> filter Q l = [].
Proof.
  intros Hsub. induction l as [|y l IH]; [reflexivity|]. cbn [filter].
  destruct (P y) eqn:HP; [discriminate|].
  destruct (Q y) eqn:HQ; [rewrite (Hsub y HQ) in HP; discriminate|exact IH].
Qed.

Lemma filter_refine {A : Type} (P Q : A -> bool) (l : list A) (x : A) :
  (forall y, Q y = true -> P y = true) -> Q x = true ->
  filter P l = [x] -> filter Q l = [x].
Proof.
  intros Hsub HQx. induction l as [|y l IH]; [discriminate|]. cbn [filter].
  destruct (P y) eqn:HP.
  - intros [= -> Hrest]. rewrite HQx. f_equal. now apply (filter_nil_sub P).
  - destruct (Q y) eqn:HQ; [rewrite (Hsub y HQ) in HP; discriminate|exact IH].
Qed.

Lemma find_filter_head (M : string -> bool) (df : DataFrame)
      (x : string * list cell) (rest : DataFrame) :
  filter (fun col => M (fst col)) df = x :: rest -> find M (columns df) = Some (fst x).
Proof.
  unfold columns. induction df as [|col df IH]; [discriminate|]. cbn [filter map find].
  destruct (M (fst col)); [now intros [= -> _]|exact IH].
Qed.

(** The column the validator checks under its original label is the column
    the coercer reads under the name [quantity]. *)
Lemma matched_quantity_is_coerced (t : DataFrame) (qsrc : list cell) :
  select "quantity" (rename_columns standard_name t) = Series qsrc ->
  matched_column t "quantity" = Some qsrc.
Proof.
  unfold select. rewrite filter_rename.
  destruct (filter (fun col => String.eqb (standard_name (fst col)) "quantity") t)
    as [|[h c] [|c' r]] eqn:Hf; cbn; try discriminate.
  intros [= ->]. unfold matched_column.
  change (synonyms "quantity") with ["quantity"; "qty"; "units"].
  assert (filter (fun col => Text.mem (Text.lower (fst col)) ["quantity"; "qty"; "units"]) t
          = [(h, qsrc)]) as Hf'.
  { rewrite <- Hf. apply filter_ext. intros col. symmetry. apply standard_name_quantity. }
  unfold first_match.
  rewrite (find_filter_head (fun col => Text.mem (Text.lower col) ["quantity"; "qty"; "units"])
             t (h, qsrc) [] Hf').
  cbn [fst]. unfold select.
  assert (In (h, qsrc) (filter (fun col => String.eqb (standard_name (fst col)) "quantity") t))
    as Hin by (rewrite Hf; now left).
  apply filter_In in Hin as [_ Hh]. cbn [fst] in Hh.
  rewrite (filter_refine (fun col => String.eqb (standard_name (fst col)) "quantity")
             (labelled h) t (h, qsrc)); [reflexivity| |apply String.eqb_refl|exact Hf].
  intros y Hy. apply String.eqb_eq in Hy. now rewrite Hy.
Qed.

Lemma quantity_column_cells `{Pandas} (col : list cell) :
  existsb refused col = false ->
  Forall2 (fun c q => to_numeric_cell c = Some (Fin q)
                      \/ (to_numeric_cell c = Some NaN /\ q = 0%Q))
          col (quantity_column col).
Proof.
  unfold quantity_column, to_numeric_coerce. rewrite map_map.
  induction col as [|c col IH]; cbn [existsb map]; [constructor|].
  intros Hno. apply orb_false_elim in Hno as [Hc Hrest].
  constructor; [|now apply IH].
  unfold refused in Hc. destruct (to_numeric_cell c) as [[|q]|]; try discriminate.
  - right. now split.
  - now left.
Qed.

(** C10, as the code has it.  For a table that passes the validator and is
    accepted, the column the validator checked is the one the coercer
    reads, and none of its cells is refused by the numeric parse, so
    [errors='coerce'] never discards a text.  A cell that reads as a number
    gives that number; a cell that is missing reads as NaN and is filled
    with 0 by [fillna(0)]. *)
Theorem quantity_parsed_or_filled `{Pandas}
        (df : DataFrame) (cur : Currency) (final : DataFrame) :
  ingest df = Done (cur, final) ->
  exists qsrc,
    matched_column (strip_columns df) "quantity" = Some qsrc
    /\ select "quantity" (standardize_column_names df) = Series qsrc
    /\ existsb refused qsrc = false
    /\ select "quantity" final = Series (map Num (quantity_column qsrc))
    /\ Forall2 (fun c q => to_numeric_cell c = Some (Fin q)
                           \/ (to_numeric_cell c = Some NaN /\ q = 0%Q))
               qsrc (quantity_column qsrc).
Proof.
  intros Hin. apply ingest_inv in Hin as [Hv Hco].
  destruct (coerce_spec df final Hco) as (qsrc & Hsrc & Hq & _).
  exists qsrc. pose proof (matched_quantity_is_coerced _ _ Hsrc) as Hm.
  assert (existsb refused qsrc = false) as Hno.
  { rewrite validate_dataframe_unfold in Hv. cbv zeta in Hv.
    repeat match type of Hv with
           | (if negb ?b then _ else _) = _ => destruct b eqn:?; cbn [negb] in Hv;
                                               try discriminate
           end.
    match goal with
    | Hb : (dates_parse _ && quantity_parses _)%bool = true |- _ =>
        apply andb_prop in Hb as [_ Hqp]
    end.
    unfold quantity_parses in Hqp. rewrite Hm in Hqp. now apply negb_true_iff. }
  repeat split; try assumption. now apply quantity_column_cells.
Qed.

Lemma quantity_parsed_or_filled_witness :
  @ingest plain_reader table_blank_quantity = Done (USD, table_blank_quantity_coerced)
  /\ select "quantity" table_blank_quantity_coerced = Series [Num 0].
Proof.
  assert (@ingest plain_reader table_blank_quantity
          = Done (USD, table_blank_quantity_coerced)) as Hin by (vm_compute; reflexivity).
  split; [exact Hin|].
  destruct (@quantity_parsed_or_filled plain_reader _ _ _ Hin)
    as (qsrc & _ & Hsrc & _ & Hq & _).
  injection Hsrc as <-. exact Hq.
Defined.

(** C10 as worded fails: a table whose quantity cell is empty passes the
    validator and is accepted; the cell reads as NaN, not as a number, and
    the stored quantity is the filled-in 0. *)
Lemma quantity_fallback_counterexample :
  ~ (forall (P : Pandas) (df : DataFrame) (cur : Currency) (final : DataFrame)
            (qsrc : list cell) (qty : list Q),
        ingest df = Done (cur, final) ->
        matched_column (strip_columns df) "quantity" = Some qsrc ->
        select "quantity" final = Series (map Num qty) ->
        Forall2 (fun c q => to_numeric_cell c = Some (Fin q)) qsrc qty).
Proof.
  intros Hclaim.
  specialize (Hclaim plain_reader table_blank_quantity USD table_blank_quantity_coerced
                [Blank] [0%Q] eq_refl eq_refl eq_refl).
  inversion Hclaim as [|c q cs qs Hhead _]. discriminate Hhead.
Qed.

(** ** Rows *)

Lemma select_in (n : string) (s : list cell) (df : DataFrame) :
  select n df = Series s -> In (n, s) df.
Proof.
  unfold select. destruct (filter (labelled n) df) as [|[l c] [|c' r]] eqn:Hf; try discriminate.
  intros [= ->].
  assert (In (l, s) (filter (labelled n) df)) as Hin by (rewrite Hf; now left).
  apply filter_In in Hin as [Hin Hl]. apply String.eqb_eq in Hl. cbn in Hl. now subst l.
Qed.

Lemma rectangular_length (df : DataFrame) (col : string * list cell) :
  rectangular df = true -> In col df -> List.length (snd col) = nrows df.
Proof.
  unfold rectangular. intros Hrect Hin.
  rewrite forallb_forall in Hrect. now apply Nat.eqb_eq, Hrect.
Qed.

Lemma select_length (n : string) (s : list cell) (df : DataFrame) :
  rectangular df = true -> select n df = Series s -> List.length s = nrows df.
Proof.
  intros Hrect Hsel. exact (rectangular_length df (n, s) Hrect (select_in _ _ _ Hsel)).
Qed.

Lemma rectangular_intro (df : DataFrame) (k : nat) :
  (forall col, In col df -> List.length (snd col) = k) ->
  rectangular df = true /\ (df <> [] -> nrows df = k).
Proof.
  intros Hall. assert (df <> [] -> nrows df = k) as Hn.
  { destruct df as [|[l c] df]; [congruence|]. intros _. exact (Hall (l, c) (or_introl eq_refl)). }
  split; [|exact Hn]. unfold rectangular. apply forallb_forall. intros col Hin.
  apply Nat.eqb_eq. rewrite (Hall col Hin). symmetry. apply Hn. now destruct df.
Qed.

Lemma set_column_rectangular (n : string) (s : list cell) (df : DataFrame) :
  rectangular df = true -> List.length s = nrows df ->
  rectangular (set_column n s df) = true /\ nrows (set_column n s df) = nrows df.
Proof.
  intros Hrect Hlen.
  destruct (rectangular_intro (set_column n s df) (nrows df)) as [Hr Hn].
  - intros col. unfold set_column. destruct (has_column n df).
    + intros Hin. apply in_map_iff in Hin as (col0 & <- & Hin0).
      destruct (labelled n col0); [exact Hlen|now apply rectangular_length].
    + intros Hin. apply in_app_or in Hin as [Hin|[<-|[]]]; [now apply rectangular_length|exact Hlen].
  - split; [exact Hr|]. apply Hn. unfold set_column.
    destruct (has_column n df) eqn:Hhas; [|now destruct df].
    destruct df; [discriminate Hhas|discriminate].
Qed.

Lemma rename_rectangular (f : string -> string) (df : DataFrame) :
  rectangular (rename_columns f df) = rectangular df
  /\ nrows (rename_columns f df) = nrows df.
Proof.
  assert (nrows (rename_columns f df) = nrows df) as Hn by (now destruct df as [|[l c] df]).
  split; [|exact Hn]. unfold rectangular. rewrite Hn. unfold rename_columns.
  generalize (nrows df) as k. clear Hn. intros k.
  induction df as [|col df IH]; [reflexivity|]. cbn [map forallb snd]. now rewrite IH.
Qed.

Lemma as_floats_length (col : list cell) (vs : list numeric) :
  as_floats col = Some vs -> List.length vs = List.length col.
Proof.
  revert vs. induction col as [|c col IH]; intros vs; cbn [as_floats].
  - now intros [= <-].
  - destruct c; try discriminate; destruct (as_floats col) as [vs'|]; try discriminate;
      intros [= <-]; cbn; now rewrite (IH vs' eq_refl).
Qed.

Lemma series_mul_length (a b : list numeric) :
  List.length a = List.length b -> List.length (series_mul a b) = List.length a.
Proof.
  revert b. induction a as [|x a IH]; intros [|y b]; cbn; try congruence.
  intros [= Hlen]. now rewrite IH.
Qed.

Lemma coerce_rectangular `{Pandas} (df final : DataFrame) :
  rectangular df = true -> coerce df = Done final ->
  rectangular final = true /\ nrows final = nrows df.
Proof.
  intros Hrect Hco.
  destruct (coerce_stages df final Hco) as (df2 & df4 & df5 & H2 & H4 & H5 & Hf).
  set (df1 := standardize_column_names df) in *.
  assert (rectangular df1 = true /\ nrows df1 = nrows df) as [Hr1 Hn1].
  { unfold df1, standardize_column_names, strip_columns.
    destruct (rename_rectangular Text.strip df) as [Ha Hb].
    destruct (rename_rectangular standard_name (rename_columns Text.strip df)) as [Hc Hd].
    split; congruence. }
  assert (rectangular df2 = true /\ nrows df2 = nrows df1) as [Hr2 Hn2].
  { apply coerce_quantity_inv in H2 as (qsrc & Hsel & ->).
    apply set_column_rectangular; [exact Hr1|].
    unfold quantity_column, to_numeric_coerce. rewrite !length_map.
    now apply (select_length "quantity"). }
  assert (rectangular df4 = true /\ nrows df4 = nrows df2) as [Hr4 Hn4].
  { revert H4. unfold coerce_money.
    assert (forall (d : DataFrame) (c name : string),
               rectangular d = true ->
               forall d', (s <- series c d ;; Done (set_column name (map Num (money_column s)) d))
                          = Done d' ->
                          rectangular d' = true /\ nrows d' = nrows d) as Hstep.
    { intros d c name Hrd d'. destruct (series c d) as [s|] eqn:Hs; [|discriminate].
      cbn [bind]. intros [= <-]. apply series_inv in Hs.
      apply set_column_rectangular; [exact Hrd|].
      unfold money_column, to_numeric_coerce. rewrite !length_map.
      now apply (select_length c). }
    destruct (first_containing "price" df2) as [pc|].
    - destruct (s <- series pc df2 ;; Done (set_column "price" (map Num (money_column s)) df2))
        as [df3|] eqn:E3; [|discriminate].
      destruct (Hstep _ _ _ Hr2 _ E3) as [Hr3 Hn3]. cbn [bind].
      destruct (first_containing "total" df2) as [tc|].
      + intros E4. destruct (Hstep _ _ _ Hr3 _ E4) as [Hr4 Hn4]. split; congruence.
      + intros [= <-]. now split.
    - cbn [bind]. destruct (first_containing "total" df2) as [tc|].
      + intros E4. exact (Hstep _ _ _ Hr2 _ E4).
      + intros [= <-]. now split. }
  assert (forall d d', rectangular d = true -> recompute_total d = Done d' ->
                       rectangular d' = true /\ nrows d' = nrows d) as Hre.
  { intros d d' Hrd. unfold recompute_total, floats.
    destruct (series "quantity" d) as [qs|] eqn:Hqs; [|discriminate]. cbn [bind].
    apply series_inv in Hqs.
    destruct (as_floats qs) as [qv|] eqn:Hqv; [|discriminate]. cbn [try_ bind].
    pose proof (as_floats_length _ _ Hqv) as Hlq.
    pose proof (select_length _ _ _ Hrd Hqs) as Hlq'.
    destruct (select "price" d) as [|ps|] eqn:Hps; [| |discriminate].
    - intros [= <-]. apply set_column_rectangular; [exact Hrd|]. rewrite length_map. congruence.
    - destruct (as_floats ps) as [pv|] eqn:Hpv; [|discriminate]. cbn [try_ bind].
      intros [= <-]. apply set_column_rectangular; [exact Hrd|].
      pose proof (as_floats_length _ _ Hpv) as Hlp.
      pose proof (select_length _ _ _ Hrd Hps) as Hlp'.
      rewrite length_map, series_mul_length; congruence. }
  assert (rectangular df5 = true /\ nrows df5 = nrows df4) as [Hr5 Hn5].
  { revert H5. unfold settle_total.
    destruct (negb (has_column "total" df4)); [now apply Hre|].
    destruct (floats "total" df4) as [tv|]; [|discriminate]. cbn [bind].
    destruct (Qeq_bool (nansum tv) 0); [now apply Hre|].
    intros [= <-]. now split. }
  assert (rectangular final = true /\ nrows final = nrows df5) as [Hrf Hnf].
  { revert Hf. unfold format_dates.
    destruct (series "date" df5) as [ds|] eqn:Hds; [|discriminate]. cbn [bind].
    destruct (to_datetime ds) as [parsed|]; [|discriminate]. cbn [try_ bind].
    intros [= <-]. apply series_inv in Hds.
    apply set_column_rectangular; [exact Hr5|]. rewrite length_map.
    now apply (select_length "date"). }
  split; congruence.
Qed.

Lemma record_get_filter (name : string) (i : nat) (df : DataFrame) :
  record_get name (row_at df i) = record_get name (row_at (filter (labelled name) df) i).
Proof.
  unfold row_at. induction df as [|col df IH]; [reflexivity|].
  cbn [map filter record_get]. rewrite IH. unfold labelled at 2. cbn [fst].
  destruct (String.eqb (fst col) name) eqn:E.
  - cbn [map record_get fst]. now rewrite E.
  - match goal with
    | |- _ = ?rhs => destruct rhs; reflexivity
    end.
Qed.

Lemma record_get_series (name : string) (i : nat) (df : DataFrame) (s : list cell) :
  select name df = Series s -> record_get name (row_at df i) = Some (nth i s Blank).
Proof.
  intros Hsel. rewrite record_get_filter. unfold select in Hsel.
  destruct (filter (labelled name) df) as [|[l c] [|c' r]] eqn:Hf; try discriminate.
  injection Hsel as ->.
  assert (In (l, s) (filter (labelled name) df)) as Hin by (rewrite Hf; now left).
  apply filter_In in Hin as [_ Hl]. unfold labelled in Hl. cbn [fst] in Hl.
  cbn. now rewrite Hl.
Qed.

Lemma record_get_missing (name : string) (i : nat) (df : DataFrame) :
  select name df = NoColumn -> record_get name (row_at df i) = None.
Proof.
  intros Hsel. rewrite record_get_filter. unfold select in Hsel.
  now destruct (filter (labelled name) df) as [|[l c] [|c' r]].
Qed.

Lemma nth_map_Num (i : nat) (l : list Q) :
  (i < List.length l)%nat -> nth i (map Num l) Blank = Num (nth i l 0%Q).
Proof.
  intros Hi. rewrite (nth_indep _ Blank (Num 0%Q)) by (now rewrite length_map).
  apply (map_nth Num).
Qed.



Lemma in_to_dict_records (df : DataFrame) (r : record) :
  In r (to_dict_records df) -> exists i, (i < nrows df)%nat /\ r = row_at df i.
Proof.
  unfold to_dict_records. intros Hin. apply in_map_iff in Hin as (i & <- & Hi).
  apply in_seq in Hi. exists i. split; [lia|reflexivity].
Qed.




(** ** The upload store *)

(** C9. Ingestion is atomic.  When the validator rejects the table, the
    column mapping fails or the coercion raises, the store is left as it
    was and the route answers with an error; the same holds when the file
    cannot be read.  The store changes only by one whole upload, appended
    after validation and coercion of the entire table have succeeded, and
    that upload holds the records of the fully coerced table. *)
Theorem upload_file_atomic `{Pandas} (store : Store) (req : request) :
  (forall name df f,
      posted req = Some (name, Some df) -> ingest df = Stop f ->
      fst (upload_file store req) = store
      /\ exists status msg, snd (upload_file store req) = Error status msg)
  /\ (forall name, posted req = Some (name, None) -> fst (upload_file store req) = store)
  /\ (fst (upload_file store req) = store
      \/ exists uid name df cur final,
           session_user req = Some uid
           /\ posted req = Some (name, Some df)
           /\ validate_dataframe df = (true, "")
           /\ coerce df = Done final
           /\ cur = detect_currency df
           /\ fst (upload_file store req)
              = store ++ [mkUpload uid name (to_dict_records final) cur]).
Proof.
  unfold upload_file. destruct (session_user req) as [uid|]; [|store_untouched].
  destruct (posted req) as [[name content]|]; [|store_untouched].
  destruct (String.eqb name ""); [store_untouched|].
  destruct (negb (allowed_extension name)); [store_untouched|].
  destruct content as [df|]; [|store_untouched].
  split; [|split].
  - intros name' df' f [= _ <-] Hstop. rewrite Hstop.
    destruct f; (split; [reflexivity|do 2 eexists; reflexivity]).
  - discriminate.
  - destruct (ingest df) as [[cur final]|f] eqn:Hin.
    + right. exists uid, name, df, cur, final.
      destruct (ingest_inv df cur final Hin) as [Hv Hco].
      pose proof (ingest_currency df cur final Hin) as Hcur.
      repeat split; try assumption.
      now destruct (response_stats cur final).
    + left. now destruct f.
Qed.

Lemma upload_file_atomic_witness :
  fst (@upload_file plain_reader []
         (mkRequest (Some 7) (Some ("sales.csv", Some [("Date", []); ("Product", [])]))))
  = [].
Proof.
  apply (proj1 (@upload_file_atomic plain_reader []
                  (mkRequest (Some 7)
                     (Some ("sales.csv", Some [("Date", []); ("Product", [])]))))
           "sales.csv" [("Date", []); ("Product", [])]
           (Invalid "Missing required columns: quantity")
           eq_refl eq_refl).
Defined.

(** A failure that comes after the commit is none of the ingestion errors
    above.  With a product and a description column, which both rename to
    [product], the table is validated, coerced and stored; then
    [int(df['product'].nunique())] raises on the two-column selection, and
    the handler of the same [try] block answers "Processing failed" with
    the upload already in the store. *)
Remark upload_stored_then_failed :
  let out := @upload_file plain_reader []
               (mkRequest (Some 7) (Some ("sales.csv", Some table_two_product_columns))) in
  snd out = Error 500 "Processing failed"
  /\ fst out
     = [ mkUpload 7 "sales.csv"
           [ [ ("date", Str "2024-01-05"); ("product", Str "Widget");
               ("product", Str "Blue widget"); ("quantity", Num 3);
               ("price", Num 10); ("total", Num (3 * 10)) ] ]
           USD ]
  /\ fst out <> []
  /\ @ingest plain_reader table_two_product_columns
     = Done (USD, [ ("date", [Str "2024-01-05"]); ("product", [Str "Widget"]);
                    ("product", [Str "Blue widget"]); ("quantity", [Num 3]);
                    ("price", [Num 10]); ("total", [Num (3 * 10)]) ]).
Proof.
  cbv zeta. split; [vm_compute; reflexivity|].
  split; [vm_compute; reflexivity|].
  split; [vm_compute; discriminate|].
  vm_compute. reflexivity.
Qed.

(** ** Sorting *)

Section SortingFacts.
Context {A : Type} (leb : A -> A -> bool).

Lemma insert_sorted_perm (x : A) (l : list A) :
  Permutation (insert_sorted leb x l) (x :: l).
Proof.
  induction l as [|y l IH]; cbn; [reflexivity|].
  destruct (leb x y); [reflexivity|].
  rewrite IH. apply perm_swap.
Qed.

Lemma sort_by_perm (l : list A) : Permutation (sort_by leb l) l.
Proof.
  induction l as [|x l IH]; cbn; [reflexivity|].
  rewrite insert_sorted_perm. now constructor.
Qed.

(** Elements of one class keep their order when, inside the class, every
    element counts as not greater than every other. *)
Lemma insert_sorted_stable (p : A -> bool) (x : A) (l : list A) :
  (forall y, In y l -> p x = true -> p y = true -> leb x y = true) ->
  filter p (insert_sorted leb x l) = filter p (x :: l).
Proof.
  induction l as [|y l IH]; intros Hcls; [reflexivity|].
  cbn [insert_sorted]. destruct (leb x y) eqn:Hxy; [reflexivity|].
  cbn [filter]. rewrite IH by (intros z Hz; apply Hcls; now right).
  cbn [filter]. destruct (p x) eqn:Hpx; [|reflexivity].
  destruct (p y) eqn:Hpy; [|reflexivity].
  rewrite (Hcls y (or_introl eq_refl) eq_refl Hpy) in Hxy. discriminate.
Qed.

Lemma sort_by_stable (p : A -> bool) (l : list A) :
  (forall x y, p x = true -> p y = true -> leb x y = true) ->
  filter p (sort_by leb l) = filter p l.
Proof.
  intros Hcls. induction l as [|x l IH]; [reflexivity|].
  cbn [sort_by]. rewrite insert_sorted_stable by (intros y _; apply Hcls).
  cbn [filter]. now rewrite IH.
Qed.

Hypothesis leb_total : forall x y, leb x y = false -> leb y x = true.

Lemma insert_sorted_sorted (x : A) (l : list A) :
  Sorted (fun a b => leb a b = true) l ->
  Sorted (fun a b => leb a b = true) (insert_sorted leb x l).
Proof.
  induction l as [|y l IH]; intros Hs; cbn [insert_sorted].
  - repeat constructor.
  - destruct (leb x y) eqn:Hxy.
    + constructor; [exact Hs|now constructor].
    + inversion Hs as [|? ? Hs' Hhd]; subst. constructor; [now apply IH|].
      destruct l as [|z l]; cbn [insert_sorted].
      * constructor. now apply leb_total.
      * destruct (leb x z); constructor; [now apply leb_total|now inversion Hhd].
Qed.

Lemma sort_by_sorted (l : list A) : Sorted (fun a b => leb a b = true) (sort_by leb l).
Proof.
  induction l as [|x l IH]; cbn [sort_by]; [constructor|now apply insert_sorted_sorted].
Qed.

Hypothesis leb_trans : forall x y z, leb x y = true -> leb y z = true -> leb x z = true.

Lemma sort_by_strongly_sorted (l : list A) :
  StronglySorted (fun a b => leb a b = true) (sort_by leb l).
Proof.
  apply Sorted_StronglySorted; [|apply sort_by_sorted].
  intros x y z. apply leb_trans.
Qed.

End SortingFacts.

(** ** Sums of rationals *)

Lemma Qsum_perm (l l' : list Q) : Permutation l l' -> Qsum l == Qsum l'.
Proof.
  induction 1 as [|x l l' _ IH|x y l|l l' l'' _ IH1 _ IH2]; cbn.
  - reflexivity.
  - now rewrite IH.
  - ring.
  - now rewrite IH1.
Qed.

Lemma Qsum_map_ext {K : Type} (f g : K -> Q) (ks : list K) :
  (forall k, In k ks -> f k == g k) -> Qsum (map f ks) == Qsum (map g ks).
Proof.
  induction ks as [|k ks IH]; intros Hfg; cbn; [reflexivity|].
  rewrite (Hfg k (or_introl eq_refl)), IH; [reflexivity|].
  intros k' Hk'. apply Hfg. now right.
Qed.

Lemma Qsum_map_plus {K : Type} (f g : K -> Q) (ks : list K) :
  Qsum (map (fun k => (f k + g k)%Q) ks) == Qsum (map f ks) + Qsum (map g ks).
Proof.
  induction ks as [|k ks IH]; cbn [map Qsum fold_right]; [ring|].
  fold (Qsum (map (fun k => (f k + g k)%Q) ks)) (Qsum (map f ks)) (Qsum (map g ks)).
  rewrite IH. ring.
Qed.

Lemma Qsum_map_zero {K : Type} (ks : list K) : Qsum (map (fun _ => 0%Q) ks) == 0.
Proof.
  induction ks as [|k ks IH]; cbn [map Qsum fold_right]; [reflexivity|].
  fold (Qsum (map (fun _ : K => 0%Q) ks)). rewrite IH. ring.
Qed.

(** ** Grouping *)

Section GroupByFacts.
Context {K : Type} (eqb leb : K -> K -> bool).
Hypothesis eqb_sym : forall a b, eqb a b = eqb b a.
Hypothesis eqb_trans : forall a b c, eqb a b = true -> eqb b c = true -> eqb a c = true.

Lemma existsb_filter_other (x y : K) (l : list K) :
  eqb x y = false ->
  existsb (eqb x) (filter (fun z => negb (eqb y z)) l) = existsb (eqb x) l.
Proof.
  intros Hxy. induction l as [|z l IH]; [reflexivity|]. cbn [filter existsb].
  destruct (eqb y z) eqn:Hyz; cbn [negb existsb]; [|now rewrite IH].
  rewrite IH. destruct (eqb x z) eqn:Hxz; [|reflexivity].
  rewrite eqb_sym in Hyz. now rewrite (eqb_trans x z y Hxz Hyz) in Hxy.
Qed.

Lemma existsb_dedup (x : K) (l : list K) :
  existsb (eqb x) (dedup eqb l) = existsb (eqb x) l.
Proof.
  induction l as [|y l IH]; [reflexivity|]. cbn [dedup existsb].
  destruct (eqb x y) eqn:Hxy; [reflexivity|].
  cbn [orb]. now rewrite existsb_filter_other.
Qed.

Lemma dedup_distinct (l : list K) :
  ForallOrdPairs (fun a b => eqb a b = false) (dedup eqb l).
Proof.
  induction l as [|x l IH]; cbn [dedup]; [constructor|].
  constructor.
  - apply Forall_forall. intros y Hy. apply filter_In in Hy as [_ Hy].
    now apply negb_true_iff.
  - induction IH as [|a r Ha Hr IHr]; cbn [filter]; [constructor|].
    destruct (negb (eqb x a)); [|exact IHr].
    constructor; [|exact IHr].
    apply Forall_forall. intros y Hy. apply filter_In in Hy as [Hy _].
    rewrite Forall_forall in Ha. now apply Ha.
Qed.

Lemma indicator_sum (ks : list K) (k0 : K) (c : Q) :
  ForallOrdPairs (fun a b => eqb a b = false) ks ->
  existsb (eqb k0) ks = true ->
  Qsum (map (fun k => if eqb k k0 then c else 0%Q) ks) == c.
Proof.
  induction 1 as [|k ks Hk Hks IH]; cbn [existsb map Qsum fold_right]; [discriminate|].
  fold (Qsum (map (fun k => if eqb k k0 then c else 0%Q) ks)).
  destruct (eqb k k0) eqn:Hkk0.
  - intros _. rewrite (Qsum_map_ext _ (fun _ => 0%Q) ks), Qsum_map_zero; [ring|].
    intros b Hb. rewrite Forall_forall in Hk. specialize (Hk b Hb).
    destruct (eqb b k0) eqn:Hb0; [|reflexivity].
    rewrite eqb_sym in Hb0. now rewrite (eqb_trans k k0 b Hkk0 Hb0) in Hk.
  - rewrite (eqb_sym k0 k), Hkk0. cbn [orb]. intros Hex. rewrite (IH Hex). ring.
Qed.

Lemma group_total_cons (row : option K * numeric) (rows : list (option K * numeric)) (k : K) :
  group_total eqb (row :: rows) k
  == (if in_group eqb k row then fillna0 (snd row) else 0%Q) + group_total eqb rows k.
Proof.
  unfold group_total. cbn [filter]. destruct (in_group eqb k row).
  - unfold nansum. cbn [map Qsum fold_right]. reflexivity.
  - ring.
Qed.

Lemma sum_over_groups (rows : list (option K * numeric)) (ks : list K) :
  ForallOrdPairs (fun a b => eqb a b = false) ks ->
  (forall k', In k' (present_keys rows) -> existsb (eqb k') ks = true) ->
  Qsum (map (group_total eqb rows) ks) == nansum (map snd (filter has_key rows)).
Proof.
  intros Hdist. induction rows as [|[[k0|] v] rows IH]; intros Hcover.
  - unfold group_total. cbn [filter map nansum]. apply Qsum_map_zero.
  - rewrite (Qsum_map_ext _ _ ks (fun k _ => group_total_cons (Some k0, v) rows k)).
    rewrite Qsum_map_plus. unfold in_group at 1. cbn [fst snd].
    rewrite indicator_sum; [|exact Hdist|apply Hcover; now left].
    rewrite IH by (intros k' Hk'; apply Hcover; now right).
    cbn [filter has_key fst]. unfold nansum. cbn [map Qsum fold_right snd]. reflexivity.
  - rewrite (Qsum_map_ext _ _ ks (fun k _ => group_total_cons (None, v) rows k)).
    rewrite Qsum_map_plus. unfold in_group at 1. cbn [fst snd].
    rewrite Qsum_map_zero. rewrite IH by exact Hcover.
    cbn [filter has_key fst]. ring.
Qed.

Hypothesis eqb_refl : forall a, eqb a a = true.

Lemma existsb_self (x : K) (l : list K) : In x l -> existsb (eqb x) l = true.
Proof.
  intros Hin. apply existsb_exists. exists x. split; [exact Hin|apply eqb_refl].
Qed.

(** The group sums add up to the total of the rows that have a key. *)
Lemma groupby_sum_total (rows : list (option K * numeric)) :
  Qsum (map snd (groupby_sum eqb leb rows)) == nansum (map snd (filter has_key rows)).
Proof.
  unfold groupby_sum. rewrite map_map. cbn [snd].
  rewrite (Qsum_perm _ (map (group_total eqb rows) (dedup eqb (present_keys rows))))
    by (apply Permutation_map, sort_by_perm).
  apply sum_over_groups; [apply dedup_distinct|].
  intros k' Hk'. rewrite existsb_dedup. now apply existsb_self.
Qed.


End GroupByFacts.

(** ** The grouping keys *)

Lemma Qeq_bool_sym (x y : Q) : Qeq_bool x y = Qeq_bool y x.
Proof.
  apply eq_true_iff_eq. rewrite !Qeq_bool_iff. split; intros Heq; now symmetry.
Qed.

Lemma key_eqb_sym (a b : cell) : key_eqb a b = key_eqb b a.
Proof.
  destruct a, b; cbn; try reflexivity; [apply Qeq_bool_sym|apply String.eqb_sym].
Qed.

Lemma key_eqb_refl (a : cell) : key_eqb a a = true.
Proof.
  destruct a; cbn; [reflexivity| |apply String.eqb_refl].
  now apply Qeq_bool_iff.
Qed.

Lemma key_eqb_trans (a b c : cell) :
  key_eqb a b = true -> key_eqb b c = true -> key_eqb a c = true.
Proof.
  destruct a, b, c; cbn; try discriminate; try reflexivity.
  - rewrite !Qeq_bool_iff. intros ->. trivial.
  - rewrite !String.eqb_eq. congruence.
Qed.

Lemma period_eqb_sym (a b : Z * Z) : period_eqb a b = period_eqb b a.
Proof. unfold period_eqb. now rewrite (Z.eqb_sym (fst a)), (Z.eqb_sym (snd a)). Qed.

Lemma period_eqb_refl (a : Z * Z) : period_eqb a a = true.
Proof. unfold period_eqb. now rewrite !Z.eqb_refl. Qed.

Lemma period_eqb_trans (a b c : Z * Z) :
  period_eqb a b = true -> period_eqb b c = true -> period_eqb a c = true.
Proof.
  unfold period_eqb. rewrite !andb_true_iff, !Z.eqb_eq. intros [-> ->] [-> ->]. now split.
Qed.

Lemma string_eqb_trans (a b c : string) :
  String.eqb a b = true -> String.eqb b c = true -> String.eqb a c = true.
Proof. rewrite !String.eqb_eq. congruence. Qed.

Lemma Qle_bool_total (x y : Q) : Qle_bool x y = false -> Qle_bool y x = true.
Proof.
  intros Hxy. apply Qle_bool_iff. destruct (Qlt_le_dec y x) as [Hlt|Hle].
  - now apply Qlt_le_weak.
  - apply Qle_bool_iff in Hle. congruence.
Qed.

Lemma key_leb_total (a b : cell) : key_leb a b = false -> key_leb b a = true.
Proof.
  destruct a, b; cbn; try discriminate; try reflexivity.
  - apply Qle_bool_total.
  - intros Hst. destruct (String.leb_total s s0) as [H1|H1]; congruence.
Qed.

Lemma filter_map_swap {A B : Type} (p : B -> bool) (g : A -> B) (l : list A) :
  filter p (map g l) = map g (filter (fun x => p (g x)) l).
Proof.
  induction l as [|x l IH]; [reflexivity|]. cbn [map filter].
  destruct (p (g x)); cbn [map]; now rewrite IH.
Qed.

Lemma filter_all {A : Type} (p : A -> bool) (l : list A) :
  (forall x, In x l -> p x = true) -> filter p l = l.
Proof.
  induction l as [|x l IH]; intros Hall; [reflexivity|]. cbn [filter].
  rewrite (Hall x (or_introl eq_refl)), IH; [reflexivity|].
  intros y Hy. apply Hall. now right.
Qed.

(** ** Revenue by product, by month, and in total *)

Lemma sales_by_product_sum (rows : list sale) :
  Qsum (map snd (sales_by_product rows))
  == nansum (map s_total (filter has_product rows)).
Proof.
  unfold sales_by_product, sort_values.
  rewrite (Qsum_perm _ (map snd (groupby_sum key_eqb key_leb (by_product s_total rows))))
    by (apply Permutation_map, sort_by_perm).
  rewrite (groupby_sum_total key_eqb key_leb key_eqb_sym key_eqb_trans key_eqb_refl).
  unfold by_product. rewrite filter_map_swap, map_map. cbn [snd]. reflexivity.
Qed.

Lemma monthly_sales_sum (rows : list sale) :
  Qsum (map snd (monthly_sales rows)) == nansum (map s_total (filter has_date rows)).
Proof.
  unfold monthly_sales.
  rewrite (groupby_sum_total period_eqb period_leb period_eqb_sym period_eqb_trans
             period_eqb_refl).
  rewrite filter_map_swap, map_map. cbn [snd].
  assert (filter (fun r => has_key (option_map to_period_M (s_date r), s_total r)) rows
          = filter has_date rows) as ->; [|reflexivity].
  apply filter_ext. intros r. unfold has_key, has_date. cbn [fst].
  now destruct (s_date r).
Qed.

(** C7, as the code has it.  Revenue by product sums the totals of the
    records that have a product, the monthly trend those of the records
    that have a date.  When every record has both, the sum over products,
    the sum over months and the grand total are equal. *)
Theorem revenue_views_consistent (rows : list sale) :
  Qsum (map snd (sales_by_product rows))
  == nansum (map s_total (filter has_product rows))
  /\ Qsum (map snd (monthly_sales rows))
     == nansum (map s_total (filter has_date rows))
  /\ ((forall r, In r rows -> has_product r = true /\ has_date r = true) ->
      Qsum (map snd (sales_by_product rows)) == Qsum (map snd (monthly_sales rows))
      /\ Qsum (map snd (sales_by_product rows)) == grand_total rows
      /\ Qsum (map snd (monthly_sales rows)) == grand_total rows).
Proof.
  split; [apply sales_by_product_sum|]. split; [apply monthly_sales_sum|].
  intros Hall. rewrite sales_by_product_sum, monthly_sales_sum.
  rewrite !filter_all by (intros r Hr; now apply Hall).
  unfold grand_total. repeat split; reflexivity.
Qed.

Lemma revenue_views_consistent_witness :
  Qsum (map snd (sales_by_product nine_products)) == grand_total nine_products.
Proof.
  apply (proj2 (proj2 (revenue_views_consistent nine_products))).
  intros r Hr. unfold nine_products in Hr. apply in_map_iff in Hr as (name & <- & _).
  split; reflexivity.
Defined.

(** C7 as worded fails on records the pipeline itself produces: a sale
    whose product cell is empty is accepted and stored, and the grouping by
    product leaves it out, so the products sum to 10 while the months and
    the grand total give 15. *)
Lemma revenue_views_counterexample :
  ~ (forall (P : Pandas) (df : DataFrame) (cur : Currency) (final : DataFrame)
            (rows : list sale),
        ingest df = Done (cur, final) ->
        prepare (frame_of_records (to_dict_records final)) = Some rows ->
        Qsum (map snd (sales_by_product rows)) == Qsum (map snd (monthly_sales rows))
        /\ Qsum (map snd (sales_by_product rows)) == grand_total rows).
Proof.
  intros Hclaim.
  destruct (Hclaim plain_reader table_blank_product USD table_blank_product_coerced
              sales_blank_product eq_refl eq_refl) as [_ Hsum].
  vm_compute in Hsum. discriminate Hsum.
Qed.

(** ** Revenue by weekday *)








(** ** Top products by quantity *)

Lemma insert_sorted_pairs {A : Type} (leb : A -> A -> bool) (R : A -> A -> Prop)
      (x : A) (l : list A) :
  (forall a b, R a b -> R b a) ->
  Forall (R x) l -> ForallOrdPairs R l -> ForallOrdPairs R (insert_sorted leb x l).
Proof.
  intros Hsym. induction l as [|y l IH]; intros Hx Hl; cbn [insert_sorted].
  - repeat constructor.
  - destruct (leb x y); [now constructor|].
    inversion Hl as [|? ? Hy Hl']; subst. inversion Hx as [|? ? Hxy Hx']; subst.
    constructor; [|now apply IH].
    apply (Permutation_Forall (Permutation_sym (insert_sorted_perm leb x l))).
    constructor; [now apply Hsym|exact Hy].
Qed.

Lemma sort_by_pairs {A : Type} (leb : A -> A -> bool) (R : A -> A -> Prop) (l : list A) :
  (forall a b, R a b -> R b a) ->
  ForallOrdPairs R l -> ForallOrdPairs R (sort_by leb l).
Proof.
  intros Hsym. induction 1 as [|x l Hx Hl IH]; cbn [sort_by]; [constructor|].
  apply insert_sorted_pairs; [exact Hsym| |exact IH].
  now apply (Permutation_Forall (Permutation_sym (sort_by_perm leb l))).
Qed.

Lemma dedup_incl {K : Type} (eqb : K -> K -> bool) (l : list K) (x : K) :
  In x (dedup eqb l) -> In x l.
Proof.
  induction l as [|y l IH]; [trivial|]. cbn [dedup]. intros [->|Hin]; [now left|].
  right. apply IH. now apply filter_In in Hin.
Qed.

Lemma quantity_group (rows : list sale) (k : cell) :
  group_total key_eqb (by_product (fun r => Fin (s_quantity r)) rows) k
  = product_quantity rows k.
Proof.
  unfold group_total, product_quantity, by_product, nansum.
  rewrite filter_map_swap, !map_map. cbn [snd fillna0]. reflexivity.
Qed.

Lemma strongly_sorted_impl {A : Type} (R S : A -> A -> Prop) (l : list A) :
  (forall a b, R a b -> S a b) -> StronglySorted R l -> StronglySorted S l.
Proof.
  intros HRS. induction 1 as [|x l _ IH Hx]; constructor; [exact IH|].
  revert Hx. apply Forall_impl. intros b. apply HRS.
Qed.

(** C6, as the code has it.  The view is the first 8 entries of a ranking
    of the per-product quantity sums that is in descending order of the
    sum.  When there are more than 8 products, the ranking leaves products
    with equal sums in the order they have in the grouped series; with 8
    products or fewer the view holds all of them in descending order, and
    the order among equal sums is that of pandas' default sort, about
    which nothing is stated.  The grouped series lists each product once,
    with the quantity summed over its rows, in ascending order of the
    product key: ties go to the smaller key, not to the product met first
    in the rows. *)
Theorem top_qty_ranked (rows : list sale) :
  let groups := groupby_sum key_eqb key_leb
                  (by_product (fun r => Fin (s_quantity r)) rows) in
  exists ranked,
    top_qty rows = firstn 8 ranked
    /\ Permutation ranked groups
    /\ StronglySorted (fun a b => (snd b <= snd a)%Q) ranked
    /\ ((8 < List.length groups)%nat ->
        forall v, filter (fun e => Qeq_bool (snd e) v) ranked
                  = filter (fun e => Qeq_bool (snd e) v) groups)
    /\ Sorted (fun a b => key_leb a b = true) (map fst groups)
    /\ ForallOrdPairs (fun a b => key_eqb a b = false) (map fst groups)
    /\ (forall e, In e groups ->
          snd e = product_quantity rows (fst e)
          /\ exists r, In r rows /\ cell_key (s_product r) = Some (fst e)).
Proof.
  intros groups. exists (sort_by value_ge groups).
  split; [reflexivity|]. split; [apply sort_by_perm|]. split; [|split; [|split; [|split]]].
  - apply (strongly_sorted_impl (fun a b => value_ge a b = true)).
    + intros a b. unfold value_ge. apply Qle_bool_iff.
    + apply sort_by_strongly_sorted.
      * intros x y. apply Qle_bool_total.
      * intros x y z. unfold value_ge. rewrite !Qle_bool_iff. intros Hxy Hyz.
        now apply (Qle_trans _ (snd y)).
  - intros _ v. apply sort_by_stable. intros x y Hx Hy. unfold value_ge.
    apply Qeq_bool_iff in Hx, Hy. apply Qle_bool_iff. rewrite Hx, Hy. apply Qle_refl.
  - unfold groups, groupby_sum. rewrite map_map. cbn [fst]. rewrite map_id.
    apply sort_by_sorted. apply key_leb_total.
  - unfold groups, groupby_sum. rewrite map_map. cbn [fst]. rewrite map_id.
    apply sort_by_pairs.
    + intros a b Hab. now rewrite key_eqb_sym.
    + apply (dedup_distinct key_eqb).
  - intros e He. unfold groups, groupby_sum in He.
    apply in_map_iff in He as (k & <- & Hk). cbn [fst snd].
    split; [apply quantity_group|].
    apply (Permutation_in _ (sort_by_perm key_leb _)) in Hk.
    apply dedup_incl in Hk. unfold present_keys, by_product in Hk.
    apply in_flat_map in Hk as (row & Hrow & Hk).
    apply in_map_iff in Hrow as (r & <- & Hr). cbn [fst] in Hk.
    exists r. split; [exact Hr|].
    destruct (cell_key (s_product r)) as [k'|]; [|destruct Hk].
    destruct Hk as [->|[]]. reflexivity.
Qed.

Lemma top_qty_ranked_witness :
  exists ranked,
    top_qty nine_products = firstn 8 ranked
    /\ filter (fun e => Qeq_bool (snd e) 1) ranked
       = [ (Str "a", 1%Q); (Str "b", 1%Q); (Str "c", 1%Q); (Str "d", 1%Q);
           (Str "e", 1%Q); (Str "f", 1%Q); (Str "g", 1%Q); (Str "h", 1%Q);
           (Str "i", 1%Q) ].
Proof.
  destruct (top_qty_ranked nine_products) as (ranked & Htop & _ & _ & Hties & _).
  exists ranked. split; [exact Htop|].
  rewrite (Hties ltac:(vm_compute; apply le_n) 1%Q). vm_compute. reflexivity.
Defined.

(** C6 as worded fails: with nine products sold one unit each and met in
    the order i, h, ..., a, the view keeps a to h; breaking the tie by
    first appearance would keep i to b. *)
Lemma top_qty_first_seen_counterexample :
  ~ (forall rows : list sale, top_qty rows = top_qty_first_seen rows).
Proof.
  intros Hclaim. specialize (Hclaim nine_products).
  vm_compute in Hclaim. discriminate Hclaim.
Qed.

(** ** The scenarios of the specification, run through the embedding *)

Example scenario_A :
  @ingest plain_reader table_widget = Done (KSH, table_widget_coerced).
Proof. vm_compute. reflexivity. Qed.

Example scenario_B (dates products quantities : list cell) :
  @validate_dataframe plain_reader
    [("Date", dates); ("Product", products); ("Quantity", quantities)]
  = (false, "Missing price or total column").
Proof. reflexivity. Qed.

Example scenario_D :
  @ingest plain_reader table_kept_total = Done (USD, table_kept_total_coerced).
Proof. vm_compute. reflexivity. Qed.

Example scenario_E :
  @ingest plain_reader table_zero_total = Done (USD, table_zero_total_coerced).
Proof. vm_compute. reflexivity. Qed.

Example friday_2024_01_05 :
  weekday_of (mkdate 2024 1 5) = Friday /\ date_text (mkdate 2024 1 5) = "2024-01-05".
Proof. split; reflexivity. Qed.

Example currency_symbols :
  get_currency_symbol "USD" = "$" /\ get_currency_symbol "ksh" = "KSh"
  /\ get_currency_symbol "EUR" = "EUR".
Proof. repeat split; reflexivity. Qed.

(* ================================================================== *)
(** * Further properties of the code *)

(** ** Renaming headers *)

Lemma lower_char_idempotent (c : ascii) :
  Text.lower_char (Text.lower_char c) = Text.lower_char c.
Proof. destruct c as [[] [] [] [] [] [] [] []]; reflexivity. Qed.

Lemma lower_idempotent (s : string) : Text.lower (Text.lower s) = Text.lower s.
Proof.
  induction s as [|c r IH]; [reflexivity|]. cbn [Text.lower].
  now rewrite lower_char_idempotent, IH.
Qed.

(** Walks through the items of [column_mapping], one comparison at a time. *)
Ltac walk_mapping x :=
  repeat match goal with
         | |- context [String.eqb ?k x] =>
             destruct (String.eqb_spec k x) as [<-|?]; [reflexivity|]
         end.

Lemma standard_label_idempotent (x : string) :
  standard_name (Text.strip (standard_name (Text.strip x))) = standard_name (Text.strip x).
Proof.
  set (y := Text.strip x). unfold standard_name at 2 3.
  set (l := Text.lower y).
  assert (Text.strip l = l) as Hstrip.
  { unfold l, y. rewrite <- TextFacts.lower_strip. now rewrite strip_idempotent. }
  assert (Text.lower l = l) as Hlow by apply lower_idempotent.
  unfold column_mapping. cbn [dict_get].
  walk_mapping l.
  rewrite Hstrip. unfold standard_name. rewrite Hlow. unfold column_mapping. cbn [dict_get].
  repeat match goal with
         | Hne : ?k <> l |- context [String.eqb ?k l] =>
             rewrite (proj2 (String.eqb_neq k l) Hne)
         end.
  reflexivity.
Qed.

(** X1. Renaming the headers is idempotent: a table whose headers were
    already standardized comes out of [standardize_column_names] unchanged,
    labels and cells. *)
Theorem standardize_column_names_idempotent (df : DataFrame) :
  standardize_column_names (standardize_column_names df) = standardize_column_names df.
Proof.
  unfold standardize_column_names, strip_columns, rename_columns.
  rewrite !map_map. apply map_ext. intros col. cbn [fst snd].
  now rewrite standard_label_idempotent.
Qed.

(** ** The validator and the renaming agree *)

Lemma standard_name_field (field l : string) :
  In field required ->
  String.eqb (standard_name l) field = Text.mem (Text.lower l) (synonyms field).
Proof.
  intros [<-|[<-|[<-|[]]]];
    [ change (synonyms "date") with ["date"; "sale date"; "transaction date"; "order date"]
    | change (synonyms "product") with ["product"; "item"; "description"; "name"]
    | apply standard_name_quantity ];
    unfold standard_name, column_mapping, Text.mem; cbn [dict_get existsb];
    set (x := Text.lower l);
    walk_mapping x;
    repeat match goal with
           | |- context [String.eqb x ?k] => rewrite (String.eqb_sym x k)
           end;
    repeat match goal with
           | Hne : ?k <> x |- context [String.eqb ?k x] =>
               rewrite (proj2 (String.eqb_neq k x) Hne)
           end;
    reflexivity.
Qed.

Lemma has_column_standardized (field : string) (df : DataFrame) :
  In field required ->
  has_column field (standardize_column_names df)
  = field_matched (columns (strip_columns df)) field.
Proof.
  intros Hf. rewrite has_column_labelled. unfold standardize_column_names, field_matched.
  generalize (strip_columns df) as t. intros t. unfold rename_columns, columns.
  induction t as [|col t IH]; [reflexivity|]. cbn [map existsb].
  rewrite IH. f_equal. unfold labelled. cbn [fst]. now apply standard_name_field.
Qed.

Lemma mapping_check_is_first_gate (df : DataFrame) :
  forallb (fun col => has_column col (standardize_column_names df))
          ["date"; "product"; "quantity"]
  = match missing_fields (columns (strip_columns df)) with [] => true | _ => false end.
Proof.
  cbn [forallb]. rewrite !has_column_standardized by (cbn; tauto).
  unfold missing_fields, required. cbn [filter].
  destruct (field_matched _ "date"), (field_matched _ "product"),
    (field_matched _ "quantity"); reflexivity.
Qed.

Lemma only_raises_try {A : Type} (o : option A) : only_raises (try_ o).
Proof. destruct o; intros f; cbn; congruence. Qed.

Lemma only_raises_bind {A B : Type} (m : outcome A) (k : A -> outcome B) :
  only_raises m -> (forall a, only_raises (k a)) -> only_raises (bind m k).
Proof.
  intros Hm Hk f. destruct m as [a|f']; cbn [bind]; [apply Hk|].
  intros [= <-]. now apply Hm.
Qed.

Lemma only_raises_done {A : Type} (a : A) : only_raises (Done a).
Proof. intros f. discriminate. Qed.

Lemma only_raises_floats (name : string) (df : DataFrame) : only_raises (floats name df).
Proof.
  unfold floats, series.
  apply only_raises_bind; [apply only_raises_try|intros ?; apply only_raises_try].
Qed.

Lemma only_raises_recompute (df : DataFrame) : only_raises (recompute_total df).
Proof.
  unfold recompute_total.
  apply only_raises_bind; [apply only_raises_floats|intros ?].
  destruct (select "price" df);
    [apply only_raises_done| |intros f; congruence].
  apply only_raises_bind; [apply only_raises_try|intros ?; apply only_raises_done].
Qed.

Lemma only_raises_stages `{Pandas} (df : DataFrame) :
  only_raises (df2 <- coerce_quantity df ;;
               df4 <- coerce_money df2 ;;
               df5 <- settle_total df4 ;;
               format_dates df5).
Proof.
  apply only_raises_bind.
  { unfold coerce_quantity, series.
    apply only_raises_bind; [apply only_raises_try|intros ?; apply only_raises_done]. }
  intros df2. apply only_raises_bind.
  { unfold coerce_money, series. apply only_raises_bind.
    - destruct (first_containing "price" df2); [|apply only_raises_done].
      apply only_raises_bind; [apply only_raises_try|intros ?; apply only_raises_done].
    - intros df3. destruct (first_containing "total" df2); [|apply only_raises_done].
      apply only_raises_bind; [apply only_raises_try|intros ?; apply only_raises_done]. }
  intros df4. apply only_raises_bind.
  { unfold settle_total. destruct (negb (has_column "total" df4));
      [apply only_raises_recompute|].
    apply only_raises_bind; [apply only_raises_floats|intros ?].
    destruct (Qeq_bool _ 0); [apply only_raises_recompute|apply only_raises_done]. }
  intros df5. unfold format_dates, series.
  repeat (apply only_raises_bind; [apply only_raises_try|intros ?]).
  apply only_raises_done.
Qed.

(** X2. The defensive check after the renaming tests exactly what the
    first gate of the validator tests: the three standard names are all
    present after renaming if and only if no required field is missing.
    So "Column mapping failed" is never the outcome of an upload: a table
    either fails validation, or raises during coercion, or is accepted. *)
Theorem column_mapping_never_fails `{Pandas} (df : DataFrame) :
  (forallb (fun col => has_column col (standardize_column_names df))
           ["date"; "product"; "quantity"] = true
   <-> missing_fields (columns (strip_columns df)) = [])
  /\ ingest df <> Stop ColumnMappingFailed
  /\ (coerce df = Stop ColumnMappingFailed ->
      validate_dataframe df
      = (false, "Missing required columns: "
                ++ String.concat ", " (missing_fields (columns (strip_columns df))))%string).
Proof.
  assert (coerce df = Stop ColumnMappingFailed ->
          missing_fields (columns (strip_columns df)) <> []) as Hco.
  { unfold coerce. cbv zeta. rewrite mapping_check_is_first_gate.
    destruct (missing_fields (columns (strip_columns df))); [|discriminate].
    cbn [negb]. intros Hstop. apply only_raises_stages in Hstop. discriminate. }
  split; [|split].
  - rewrite mapping_check_is_first_gate.
    destruct (missing_fields (columns (strip_columns df))); split; congruence.
  - unfold ingest. rewrite coerce_strip.
    destruct (validate_dataframe (strip_columns df)) as [ok msg] eqn:Hv.
    destruct ok; cbn [negb]; [|discriminate].
    destruct (coerce df) as [final|f] eqn:Hc; cbn [bind]; [discriminate|].
    intros [= ->]. specialize (Hco eq_refl). apply Hco.
    rewrite validate_dataframe_unfold, strip_columns_idempotent in Hv. cbv zeta in Hv.
    destruct (missing_fields (columns (strip_columns df))); [reflexivity|discriminate].
  - intros Hstop. apply Hco in Hstop. rewrite validate_dataframe_unfold. cbv zeta.
    destruct (missing_fields (columns (strip_columns df))); [congruence|reflexivity].
Qed.

Lemma column_mapping_never_fails_witness :
  @validate_dataframe plain_reader [("Date", []); ("Product", [])]
  = (false, "Missing required columns: quantity").
Proof.
  apply (proj2 (proj2 (@column_mapping_never_fails plain_reader
                         [("Date", []); ("Product", [])]))).
  reflexivity.
Defined.

(** ** What the validator reads *)

Lemma same_checked_columns (df df' : DataFrame) :
  same_checked_cells df df' -> columns (strip_columns df) = columns (strip_columns df').
Proof.
  unfold columns, strip_columns, rename_columns. rewrite !map_map. cbn [fst].
  induction 1 as [|col col' df df' [Hl _] _ IH]; [reflexivity|].
  cbn [map]. now rewrite Hl, IH.
Qed.

Lemma same_checked_select (df df' : DataFrame) (h : string) :
  same_checked_cells df df' ->
  (Text.mem (Text.lower h) (synonyms "date")
   || Text.mem (Text.lower h) (synonyms "quantity"))%bool = true ->
  select h (strip_columns df) = select h (strip_columns df').
Proof.
  intros Hsame Hh. unfold select.
  replace (filter (labelled h) (strip_columns df'))
    with (filter (labelled h) (strip_columns df)); [reflexivity|].
  unfold strip_columns, rename_columns.
  induction Hsame as [|col col' df df' [Hl Hc] _ IH]; [reflexivity|].
  cbn [map filter fst snd]. rewrite <- Hl.
  change (labelled h (Text.strip (fst col), snd col'))
    with (labelled h (Text.strip (fst col), snd col)).
  destruct (labelled h (Text.strip (fst col), snd col)) eqn:Hlab; [|exact IH].
  rewrite IH. apply String.eqb_eq in Hlab. cbn [fst] in Hlab.
  rewrite Hc; [reflexivity|]. unfold checked_label. now rewrite Hlab.
Qed.

Lemma first_match_mem (names cols : list string) (h : string) :
  first_match names cols = Some h -> Text.mem (Text.lower h) names = true.
Proof. unfold first_match. intros Hf. now apply find_some in Hf. Qed.

(** X3. The validator reads the headers and the cells of the date and
    quantity columns, nothing else: two tables with the same headers and
    the same cells under every date or quantity header get the same
    verdict, whatever their product, price and total cells hold. *)
Theorem validate_dataframe_reads_date_and_quantity `{Pandas} (df df' : DataFrame) :
  same_checked_cells df df' -> validate_dataframe df = validate_dataframe df'.
Proof.
  intros Hsame. rewrite !validate_dataframe_unfold. cbv zeta.
  rewrite <- (same_checked_columns df df' Hsame).
  assert (dates_parse (strip_columns df) = dates_parse (strip_columns df')) as ->.
  { unfold dates_parse, matched_column. rewrite <- (same_checked_columns df df' Hsame).
    destruct (first_match (synonyms "date") (columns (strip_columns df))) as [h|] eqn:Hh;
      [|reflexivity].
    rewrite (same_checked_select df df' h Hsame); [reflexivity|].
    now rewrite (first_match_mem _ _ _ Hh). }
  assert (quantity_parses (strip_columns df) = quantity_parses (strip_columns df')) as ->.
  { unfold quantity_parses, matched_column. rewrite <- (same_checked_columns df df' Hsame).
    destruct (first_match (synonyms "quantity") (columns (strip_columns df))) as [h|] eqn:Hh;
      [|reflexivity].
    rewrite (same_checked_select df df' h Hsame); [reflexivity|].
    rewrite (first_match_mem _ _ _ Hh). apply orb_true_r. }
  reflexivity.
Qed.

Lemma validate_dataframe_reads_date_and_quantity_witness :
  @validate_dataframe plain_reader table_widget
  = @validate_dataframe plain_reader
      [ ("Date", [Str "2024-01-05"]); ("Item", [Blank]);
        ("Qty", [Num 3]); ("Price (KSH)", [Str "not a price"]) ].
Proof.
  apply (@validate_dataframe_reads_date_and_quantity plain_reader).
  unfold table_widget, same_checked_cells.
  repeat constructor; cbn; intros; congruence.
Defined.

(** ** What the coercion leaves alone *)

Lemma columns_set (n : string) (s : list cell) (df : DataFrame) :
  columns (set_column n s df) = columns df ++ (if has_column n df then [] else [n]).
Proof.
  destruct (has_column n df) eqn:Hhas.
  - rewrite app_nil_r. now apply columns_set_existing.
  - unfold set_column. rewrite Hhas. unfold columns. now rewrite map_app.
Qed.

Lemma extends_set (allowed : list string) (n : string) (s : list cell) (df : DataFrame)
      (base : list string) :
  In n allowed ->
  (exists added, columns df = base ++ added /\ incl added allowed) ->
  exists added, columns (set_column n s df) = base ++ added /\ incl added allowed.
Proof.
  intros Hn (added & Hcols & Hincl). rewrite columns_set, Hcols, <- app_assoc.
  eexists. split; [reflexivity|].
  apply incl_app; [exact Hincl|].
  destruct (has_column n df); intros x Hx; [destruct Hx|].
  destruct Hx as [<-|[]]. exact Hn.
Qed.

Lemma coerce_keeps_other_columns `{Pandas} (df final : DataFrame) (l : string) :
  coerce df = Done final ->
  l <> "quantity" -> l <> "price" -> l <> "total" -> l <> "date" ->
  filter (labelled l) final = filter (labelled l) (standardize_column_names df).
Proof.
  intros Hco Hq Hp Ht Hd.
  destruct (coerce_stages df final Hco) as (df2 & df4 & df5 & H2 & H4 & H5 & Hf).
  set (df1 := standardize_column_names df) in *.
  rewrite (format_dates_inv df5 final Hf l Hd).
  apply coerce_quantity_inv in H2 as (qsrc & Hqsrc & ->).
  pose proof (coerce_money_inv _ _ H4) as (Hkeep4 & _ & _).
  assert (filter (labelled l) df5 = filter (labelled l) df4) as ->.
  { revert H5. unfold settle_total, recompute_total.
    destruct (negb (has_column "total" df4)).
    - destruct (floats "quantity" df4); [|discriminate]. cbn [bind].
      destruct (select "price" df4); [| |discriminate].
      + intros [= <-]. now apply filter_set_other.
      + destruct (try_ (as_floats s)); [|discriminate]. cbn [bind].
        intros [= <-]. now apply filter_set_other.
    - destruct (floats "total" df4); [|discriminate]. cbn [bind].
      destruct (Qeq_bool _ 0); [|now intros [= <-]].
      destruct (floats "quantity" df4); [|discriminate]. cbn [bind].
      destruct (select "price" df4); [| |discriminate].
      + intros [= <-]. now apply filter_set_other.
      + destruct (try_ (as_floats s)); [|discriminate]. cbn [bind].
        intros [= <-]. now apply filter_set_other. }
  rewrite (Hkeep4 l Hp Ht). now apply filter_set_other.
Qed.

(** X4. The coercion of an accepted table rewrites four columns only.
    Every column under another name keeps its cells, no column is dropped
    or moved, and the only columns that can be appended, on the right,
    are [price] and [total]. *)
Theorem coerce_rewrites_four_columns `{Pandas} (df final : DataFrame) :
  coerce df = Done final ->
  (forall l, l <> "quantity" -> l <> "price" -> l <> "total" -> l <> "date" ->
             filter (labelled l) final
             = filter (labelled l) (standardize_column_names df))
  /\ exists added,
       columns final = columns (standardize_column_names df) ++ added
       /\ incl added ["price"; "total"].
Proof.
  intros Hco.
  destruct (coerce_stages df final Hco) as (df2 & df4 & df5 & H2 & H4 & H5 & Hf).
  set (df1 := standardize_column_names df) in *. split.
  - intros l Hq Hp Ht Hd. now apply coerce_keeps_other_columns.
  - assert (exists added, columns df2 = columns df1 ++ added /\ incl added ["price"; "total"])
      as E2.
    { apply coerce_quantity_inv in H2 as (qsrc & Hqsrc & ->).
      exists []. rewrite app_nil_r. split; [|intros x []].
      apply columns_set_existing. now rewrite select_has_column, Hqsrc. }
    assert (exists added, columns df4 = columns df1 ++ added /\ incl added ["price"; "total"])
      as E4.
    { revert H4. unfold coerce_money.
      destruct (first_containing "price" df2).
      - destruct (series s df2); [|discriminate]. cbn [bind].
        destruct (first_containing "total" df2).
        + destruct (series s0 _); [|discriminate]. cbn [bind]. intros [= <-].
          apply extends_set; [cbn; tauto|]. apply extends_set; [cbn; tauto|exact E2].
        + intros [= <-]. apply extends_set; [cbn; tauto|exact E2].
      - cbn [bind]. destruct (first_containing "total" df2).
        + destruct (series s df2); [|discriminate]. cbn [bind]. intros [= <-].
          apply extends_set; [cbn; tauto|exact E2].
        + now intros [= <-]. }
    assert (forall d d', recompute_total d = Done d' ->
              (exists added, columns d = columns df1 ++ added /\ incl added ["price"; "total"]) ->
              exists added, columns d' = columns df1 ++ added /\ incl added ["price"; "total"])
      as Hre.
    { intros d d'. unfold recompute_total.
      destruct (floats "quantity" d); [|discriminate]. cbn [bind].
      destruct (select "price" d); [| |discriminate].
      - intros [= <-]. apply extends_set. cbn; tauto.
      - destruct (try_ (as_floats s)); [|discriminate]. cbn [bind].
        intros [= <-]. apply extends_set. cbn; tauto. }
    assert (exists added, columns df5 = columns df1 ++ added /\ incl added ["price"; "total"])
      as E5.
    { revert H5. unfold settle_total. destruct (negb (has_column "total" df4)).
      - intros H5. exact (Hre _ _ H5 E4).
      - destruct (floats "total" df4); [|discriminate]. cbn [bind].
        destruct (Qeq_bool _ 0); [intros H5; exact (Hre _ _ H5 E4)|now intros [= <-]]. }
    revert Hf. unfold format_dates.
    destruct (series "date" df5) as [dates|] eqn:Hd; [|discriminate]. cbn [bind].
    destruct (to_datetime dates); [|discriminate]. cbn [try_ bind]. intros [= <-].
    apply series_inv in Hd. rewrite columns_set_existing; [exact E5|].
    now rewrite select_has_column, Hd.
Qed.

Lemma coerce_rewrites_four_columns_witness :
  filter (labelled "product") table_widget_coerced = [("product", [Str "Widget"])].
Proof.
  rewrite (proj1 (@coerce_rewrites_four_columns plain_reader table_widget
                    table_widget_coerced eq_refl) "product");
    [reflexivity|discriminate|discriminate|discriminate|discriminate].
Defined.

(** ** Records written to the store and read back *)

Lemma dedup_nodup (l : list string) : NoDup l -> dedup String.eqb l = l.
Proof.
  induction 1 as [|x l Hx _ IH]; [reflexivity|]. cbn [dedup]. rewrite IH. f_equal.
  apply filter_all. intros y Hy. apply negb_true_iff, String.eqb_neq. congruence.
Qed.

Lemma map_nth_all (s : list cell) :
  map (fun i => nth i s Blank) (seq 0 (List.length s)) = s.
Proof.
  induction s as [|c s IH]; [reflexivity|]. cbn [List.length seq map nth].
  f_equal. rewrite <- seq_shift, map_map. exact IH.
Qed.

Lemma filter_none {A : Type} (p : A -> bool) (l : list A) :
  (forall y, In y l -> p y = false) -> filter p l = [].
Proof.
  induction l as [|x l IH]; intros Hall; [reflexivity|]. cbn [filter].
  rewrite (Hall x (or_introl eq_refl)). apply IH. intros y Hy. apply Hall. now right.
Qed.

Lemma nodup_select (df : DataFrame) (col : string * list cell) :
  NoDup (columns df) -> In col df -> select (fst col) df = Series (snd col).
Proof.
  unfold select. intros Hnd Hin.
  assert (filter (labelled (fst col)) df = [col]) as ->; [|now destruct col].
  induction df as [|c df IH]; [destruct Hin|]. cbn [columns map] in Hnd.
  inversion Hnd as [|? ? Hnot Hnd']; subst. cbn [filter]. destruct Hin as [->|Hin].
  - unfold labelled at 1. rewrite String.eqb_refl. f_equal.
    apply filter_none. intros y Hy. apply String.eqb_neq. intros Heq.
    apply Hnot. rewrite <- Heq. now apply in_map.
  - assert (labelled (fst col) c = false) as ->.
    { apply String.eqb_neq. intros Heq. apply Hnot. rewrite Heq. now apply in_map. }
    now apply IH.
Qed.

Lemma column_read_back (df : DataFrame) (name : string) (s : list cell) :
  select name df = Series s -> List.length s = nrows df ->
  map (fun r => match record_get name r with Some c => c | None => Blank end)
      (to_dict_records df) = s.
Proof.
  intros Hsel Hlen. unfold to_dict_records. rewrite map_map, <- Hlen.
  rewrite <- (map_nth_all s) at 2. apply map_ext. intros i.
  now rewrite (record_get_series name i df s Hsel).
Qed.

Lemma frame_of_records_labels (df : DataFrame) :
  columns (frame_of_records (to_dict_records df))
  = match nrows df with
    | O => []
    | S _ => dedup String.eqb (columns df)
    end.
Proof.
  unfold to_dict_records. destruct (nrows df) as [|n]; [reflexivity|].
  cbn [seq map frame_of_records]. unfold columns. rewrite map_map. cbn [fst].
  rewrite map_id. unfold row_at. now rewrite map_map.
Qed.

Lemma frame_of_records_no_new_label (df : DataFrame) (name : string) :
  has_column name (frame_of_records (to_dict_records df)) = true ->
  has_column name df = true.
Proof.
  unfold has_column at 1. rewrite frame_of_records_labels.
  destruct (nrows df); [discriminate|]. unfold has_column, Text.mem.
  intros Hex. apply existsb_exists in Hex as (l & Hin & Hl).
  apply existsb_exists. exists l. split; [|exact Hl]. now apply dedup_incl in Hin.
Qed.

(** X5. Storing and reloading is a round trip.  For a rectangular frame
    with at least one row and no repeated label, the frame rebuilt by
    [pd.DataFrame] from the records of [to_dict(orient='records')] is the
    frame itself.  With no row the records are the empty list and the
    rebuilt frame has no column at all; in general the rebuilt frame never
    has a label the frame did not have. *)
Theorem records_round_trip (df : DataFrame) :
  (NoDup (columns df) -> rectangular df = true -> (0 < nrows df)%nat ->
   frame_of_records (to_dict_records df) = df)
  /\ (nrows df = 0%nat ->
      to_dict_records df = [] /\ frame_of_records (to_dict_records df) = [])
  /\ (forall name, has_column name (frame_of_records (to_dict_records df)) = true ->
                   has_column name df = true).
Proof.
  split; [|split].
  - intros Hnd Hrect Hrows. unfold frame_of_records.
    destruct (to_dict_records df) as [|r rest] eqn:Hdata.
    { apply (f_equal (@List.length record)) in Hdata. unfold to_dict_records in Hdata.
      rewrite length_map, length_seq in Hdata. cbn in Hdata. lia. }
    assert (r = row_at df 0) as ->.
    { unfold to_dict_records in Hdata. destruct (nrows df); [lia|].
      cbn [seq map] in Hdata. now injection Hdata as <- _. }
    rewrite <- Hdata.
    replace (map fst (row_at df 0)) with (columns df)
      by (unfold row_at, columns; now rewrite map_map).
    rewrite (dedup_nodup _ Hnd). unfold columns. rewrite map_map.
    transitivity (map (fun col : string * list cell => col) df); [|apply map_id].
    apply map_ext_in. intros col Hcol.
    rewrite (column_read_back df (fst col) (snd col)); [now destruct col| |].
    + now apply nodup_select.
    + now apply rectangular_length.
  - intros Hn. unfold to_dict_records. rewrite Hn. now split.
  - intros name. apply frame_of_records_no_new_label.
Qed.

Lemma records_round_trip_witness :
  frame_of_records (to_dict_records table_kept_total_coerced) = table_kept_total_coerced.
Proof.
  apply (proj1 (records_round_trip table_kept_total_coerced)).
  - unfold table_kept_total_coerced, columns. cbn [map fst].
    repeat constructor; cbn; intuition discriminate.
  - reflexivity.
  - cbn. lia.
Defined.

(** ** Uploads the dashboard cannot chart *)

Lemma prepare_needs_price `{Pandas} (df : DataFrame) :
  select "price" df = NoColumn -> generate_charts df = None.
Proof.
  intros Hprice. unfold generate_charts, prepare. rewrite Hprice.
  destruct (as_series (select "date" df)) as [dates|]; [|reflexivity].
  destruct (to_datetime dates); [|reflexivity].
  destruct (as_series (select "quantity" df)); reflexivity.
Qed.

(** X6. An accepted table none of whose headers contains "price" is stored
    without a price field, and [generate_charts] makes no chart from the
    stored records: its read of [df['price']] raises and the function
    returns the empty dict. *)
Theorem no_charts_without_price `{Pandas}
        (df : DataFrame) (cur : Currency) (final : DataFrame) :
  ingest df = Done (cur, final) ->
  first_containing "price" (standardize_column_names df) = None ->
  (forall r, In r (to_dict_records final) -> record_get "price" r = None)
  /\ generate_charts (frame_of_records (to_dict_records final)) = None.
Proof.
  intros Hin Hnone. apply ingest_inv in Hin as [_ Hco].
  destruct (coerce_spec df final Hco) as (qsrc & _ & _ & Hprice & _).
  rewrite Hnone in Hprice. split.
  - intros r Hr. apply in_to_dict_records in Hr as (i & _ & ->).
    now apply record_get_missing.
  - apply prepare_needs_price.
    destruct (select "price" (frame_of_records (to_dict_records final))) eqn:Hsel;
      [reflexivity| |].
    + assert (has_column "price" final = true) as Hhas.
      { apply frame_of_records_no_new_label.
        now rewrite select_has_column, Hsel. }
      rewrite select_has_column, Hprice in Hhas. discriminate.
    + assert (has_column "price" final = true) as Hhas.
      { apply frame_of_records_no_new_label.
        now rewrite select_has_column, Hsel. }
      rewrite select_has_column, Hprice in Hhas. discriminate.
Qed.

Lemma no_charts_without_price_witness :
  @generate_charts plain_reader
    (frame_of_records (to_dict_records table_total_only_coerced)) = None.
Proof.
  apply (proj2 (@no_charts_without_price plain_reader table_total_only USD
                  table_total_only_coerced eq_refl eq_refl)).
Defined.

(** X7. A file with a header line and no rows can be accepted; it is then
    stored with an empty record list, the frame rebuilt from it has no
    columns, and [generate_charts] makes no chart. *)
Theorem no_charts_without_rows `{Pandas}
        (df : DataFrame) (cur : Currency) (final : DataFrame) :
  rectangular df = true -> nrows df = 0%nat ->
  ingest df = Done (cur, final) ->
  to_dict_records final = []
  /\ frame_of_records (to_dict_records final) = []
  /\ generate_charts (frame_of_records (to_dict_records final)) = None.
Proof.
  intros Hrect Hrows Hin. apply ingest_inv in Hin as [_ Hco].
  destruct (coerce_rectangular df final Hrect Hco) as [_ Hn].
  assert (to_dict_records final = []) as ->
      by (unfold to_dict_records; now rewrite Hn, Hrows).
  repeat split.
Qed.

Lemma no_charts_without_rows_witness :
  @ingest plain_reader table_headers_only = Done (USD, table_headers_only_coerced)
  /\ to_dict_records table_headers_only_coerced = [].
Proof.
  assert (@ingest plain_reader table_headers_only
          = Done (USD, table_headers_only_coerced)) as Hin by (vm_compute; reflexivity).
  split; [exact Hin|].
  exact (proj1 (@no_charts_without_rows plain_reader table_headers_only USD
                  table_headers_only_coerced eq_refl eq_refl Hin)).
Defined.

(** ** The routes over stored uploads *)

Lemma query_get_in (upload_id : Z) (t : Table) (r : UploadRow) :
  query_get upload_id t = Some r -> In r t /\ row_id r = upload_id.
Proof.
  intros Hget. apply find_some in Hget as [Hin Hid].
  split; [exact Hin|]. now apply Z.eqb_eq.
Qed.

Lemma query_get_none (upload_id : Z) (t : Table) :
  query_get upload_id t = None -> forall r, In r t -> row_id r <> upload_id.
Proof.
  intros Hget r Hr Hid.
  pose proof (find_none _ _ Hget r Hr) as Hno. cbn in Hno.
  apply Z.eqb_neq in Hno. contradiction.
Qed.

(** Ids are a primary key: a row is found by its id. *)
Lemma query_get_unique (t : Table) (r : UploadRow) :
  NoDup (map row_id t) -> In r t -> query_get (row_id r) t = Some r.
Proof.
  induction t as [|x t IH]; intros Hnd Hr; [contradiction|].
  cbn [map] in Hnd. inversion Hnd as [|? ? Hx Hnd']; subst.
  unfold query_get. cbn [find].
  destruct (row_id x =? row_id r) eqn:Hid.
  - destruct Hr as [->|Hr]; [reflexivity|].
    apply Z.eqb_eq in Hid. exfalso. apply Hx. rewrite Hid. now apply in_map.
  - destruct Hr as [->|Hr]; [rewrite Z.eqb_refl in Hid; discriminate|].
    now apply IH.
Qed.

Lemma query_get_after_delete (upload_id other : Z) (t : Table) :
  query_get other (filter (fun r => negb (row_id r =? upload_id)) t)
  = if other =? upload_id then None else query_get other t.
Proof.
  unfold query_get. induction t as [|x t IH]; cbn [filter find].
  - now destruct (other =? upload_id).
  - destruct (row_id x =? upload_id) eqn:Hx; cbn [negb find].
    + rewrite IH. destruct (other =? upload_id) eqn:Ho; [reflexivity|].
      apply Z.eqb_eq in Hx. apply Z.eqb_neq in Ho.
      destruct (row_id x =? other) eqn:Hxo; [|reflexivity].
      apply Z.eqb_eq in Hxo. congruence.
    + destruct (row_id x =? other) eqn:Hxo.
      * apply Z.eqb_eq in Hxo. subst other. now rewrite Hx.
      * exact IH.
Qed.

Lemma filter_filter_comm {A : Type} (p q : A -> bool) (l : list A) :
  filter p (filter q l) = filter q (filter p l).
Proof.
  induction l as [|x l IH]; [reflexivity|].
  cbn [filter]. destruct (p x) eqn:Hp, (q x) eqn:Hq; cbn [filter];
    rewrite ?Hp, ?Hq, IH; reflexivity.
Qed.

(** X8. Deleting an upload.  With ids a primary key, the route answers 200
    exactly when the session's user owns an upload with the requested id;
    any other answer leaves the table as it was; after a 200 the id is gone
    and every other id is looked up as before; and whatever the answer, the
    uploads of every user other than the session's are untouched. *)
Theorem delete_upload_own_only
        (session : option Z) (upload_id : Z) (t t' : Table) (status : Z) :
  NoDup (map row_id t) ->
  delete_upload session upload_id t = (t', status) ->
  (status = 200 <->
   exists uid r, session = Some uid /\ In r t /\ row_id r = upload_id
                 /\ owned_by uid r = true)
  /\ (status <> 200 -> t' = t)
  /\ (status = 200 ->
      query_get upload_id t' = None
      /\ (forall other, other <> upload_id -> query_get other t' = query_get other t)
      /\ S (List.length t') = List.length t)
  /\ (forall uid, session <> Some uid ->
        filter (owned_by uid) t' = filter (owned_by uid) t).
Proof.
  intros Hnd. unfold delete_upload.
  destruct session as [uid|].
  2:{ intros [= <- <-].
      split; [split; [discriminate|]|split; [reflexivity|split; [discriminate|reflexivity]]].
      intros (uid & r & Hs & _). discriminate. }
  destruct (query_get upload_id t) as [upload|] eqn:Hget.
  2:{ intros [= <- <-].
      split; [split; [discriminate|]|split; [reflexivity|split; [discriminate|reflexivity]]].
      intros (uid' & r & _ & Hr & Hid & _).
      exfalso. now apply (query_get_none _ _ Hget r Hr). }
  pose proof (query_get_in _ _ _ Hget) as [Hin Hid]. subst upload_id.
  destruct (owned_by uid upload) eqn:Hown; cbn [negb].
  2:{ intros [= <- <-].
      split; [split; [discriminate|]|split; [reflexivity|split; [discriminate|reflexivity]]].
      intros (uid' & r & [= <-] & Hr & Hrid & Howned).
      rewrite <- Hrid in Hget. rewrite (query_get_unique t r Hnd Hr) in Hget.
      injection Hget as ->. congruence. }
  intros [= <- <-]. split; [|split; [|split]].
  - split; [|reflexivity]. intros _. now exists uid, upload.
  - intros Hne. now contradiction Hne.
  - intros _. split; [|split].
    + rewrite query_get_after_delete. now rewrite Z.eqb_refl.
    + intros other Hother. rewrite query_get_after_delete.
      apply Z.eqb_neq in Hother. now rewrite Hother.
    + clear Hget Hown. revert Hnd Hin. induction t as [|x t IH]; [contradiction|].
      cbn [map]. intros Hnd Hin. inversion Hnd as [|? ? Hx Hnd']; subst.
      cbn [filter]. destruct (row_id x =? row_id upload) eqn:Hxid; cbn [negb].
      * f_equal. cbn [List.length]. f_equal.
        apply Z.eqb_eq in Hxid.
        clear IH Hin Hnd Hnd'. induction t as [|y t IH]; [reflexivity|].
        cbn [filter]. destruct (row_id y =? row_id upload) eqn:Hy.
        -- apply Z.eqb_eq in Hy. exfalso. apply Hx. left. congruence.
        -- cbn [negb List.length]. f_equal. apply IH.
           intros Hin. apply Hx. now right.
      * destruct Hin as [->|Hin]; [rewrite Z.eqb_refl in Hxid; discriminate|].
        cbn [List.length]. f_equal. now apply IH.
  - intros uid' Hother. rewrite filter_filter_comm.
    apply filter_all. intros r Hr.
    apply filter_In in Hr as [Hr Hown'].
    destruct (row_id r =? row_id upload) eqn:Hrid; [|reflexivity].
    apply Z.eqb_eq in Hrid.
    pose proof (query_get_unique t r Hnd Hr) as Hq.
    rewrite Hrid, Hget in Hq. injection Hq as <-.
    unfold owned_by in Hown, Hown'.
    apply Z.eqb_eq in Hown, Hown'. exfalso. apply Hother. congruence.
Qed.

Lemma delete_upload_own_only_witness :
  query_get 3 (fst (delete_upload (Some 7) 3 three_uploads)) = None
  /\ filter (owned_by 8) (fst (delete_upload (Some 7) 3 three_uploads))
     = filter (owned_by 8) three_uploads.
Proof.
  assert (NoDup (map row_id three_uploads)) as Hnd.
  { cbn. repeat constructor; cbn; intuition discriminate. }
  pose proof (delete_upload_own_only (Some 7) 3 three_uploads _ _ Hnd eq_refl)
    as (_ & _ & Hgone & Hothers).
  split; [exact (proj1 (Hgone eq_refl))|].
  apply Hothers. discriminate.
Defined.

Lemma newer_first_total (a b : UploadRow) :
  newer_first a b = false -> newer_first b a = true.
Proof. unfold newer_first. intros Hab. apply Z.leb_gt in Hab. apply Z.leb_le. lia. Qed.

Lemma newer_first_trans (a b c : UploadRow) :
  newer_first a b = true -> newer_first b c = true -> newer_first a c = true.
Proof.
  unfold newer_first. intros Hab Hbc.
  apply Z.leb_le in Hab, Hbc. apply Z.leb_le. lia.
Qed.

(** The head of the user's list is one of the user's uploads, and none of
    them is newer. *)
Lemma user_uploads_head (uid : Z) (t : Table) (latest : UploadRow) (rest : list UploadRow) :
  user_uploads uid t = latest :: rest ->
  In latest t /\ owned_by uid latest = true
  /\ forall r, In r t -> owned_by uid r = true -> upload_date r <= upload_date latest.
Proof.
  intros Hlist.
  pose proof (sort_by_perm newer_first (filter (owned_by uid) t)) as Hperm.
  pose proof (sort_by_strongly_sorted newer_first newer_first_total newer_first_trans
                (filter (owned_by uid) t)) as Hsorted.
  fold (user_uploads uid t) in Hperm, Hsorted. rewrite Hlist in Hperm, Hsorted.
  assert (In latest (filter (owned_by uid) t)) as Hlatest
      by (eapply Permutation_in; [exact Hperm|now left]).
  apply filter_In in Hlatest as [Hin Hown].
  split; [exact Hin|]. split; [exact Hown|].
  intros r Hr Hrown.
  assert (In r (latest :: rest)) as [<-|Hrest].
  { eapply Permutation_in; [symmetry; exact Hperm|]. apply filter_In. now split. }
  - lia.
  - inversion Hsorted as [|? ? _ Hall]; subst.
    rewrite Forall_forall in Hall. specialize (Hall r Hrest).
    unfold newer_first in Hall. now apply Z.leb_le.
Qed.

Lemma user_uploads_nil (uid : Z) (t : Table) :
  user_uploads uid t = [] <-> forall r, In r t -> owned_by uid r = false.
Proof.
  pose proof (sort_by_perm newer_first (filter (owned_by uid) t)) as Hperm.
  fold (user_uploads uid t) in Hperm. split.
  - intros Hnil r Hr. rewrite Hnil in Hperm. apply Permutation_nil in Hperm.
    destruct (owned_by uid r) eqn:Hown; [|reflexivity].
    assert (In r (filter (owned_by uid) t)) as Hin by (apply filter_In; now split).
    rewrite Hperm in Hin. contradiction.
  - intros Hnone.
    assert (filter (owned_by uid) t = []) as Hfil.
    { apply filter_none. exact Hnone. }
    rewrite Hfil in Hperm. now apply Permutation_sym, Permutation_nil in Hperm.
Qed.

(** X9. What the dashboard shows.  The upload whose data and charts are
    rendered always belongs to the session's user.  The permission warning
    is flashed exactly when the requested id names an upload of somebody
    else, and then, as when no id (or id 0) is requested, the user's newest
    upload is shown.  A user without uploads gets the empty dashboard
    whatever id is requested, never a 404. *)
Theorem dashboard_shows_own_upload
        (session : option Z) (upload_id : option Z) (t : Table) :
  (forall selected flashed,
      dashboard session upload_id t = Shown selected flashed ->
      exists uid,
        session = Some uid /\ In selected t /\ owned_by uid selected = true
        /\ (flashed = true <->
            exists id other, upload_id = Some id /\ id <> 0
                             /\ query_get id t = Some other
                             /\ owned_by uid other = false)
        /\ (flashed = true \/ upload_id = None \/ upload_id = Some 0 ->
            forall r, In r t -> owned_by uid r = true ->
                      upload_date r <= upload_date selected)
        /\ (flashed = false -> forall id, upload_id = Some id -> id <> 0 ->
            query_get id t = Some selected))
  /\ (dashboard session upload_id t = NoUploads <->
      exists uid, session = Some uid /\ forall r, In r t -> owned_by uid r = false)
  /\ (dashboard session upload_id t = NotFound ->
      exists uid id, session = Some uid /\ upload_id = Some id
                     /\ query_get id t = None
                     /\ exists r, In r t /\ owned_by uid r = true).
Proof.
  unfold dashboard. destruct session as [uid|].
  2:{ split; [discriminate|]. split; [|discriminate].
      split; [discriminate|]. intros (uid & Hs & _). discriminate. }
  destruct (user_uploads uid t) as [|latest rest] eqn:Hlist.
  { split; [discriminate|]. split; [|discriminate].
    split; [|reflexivity]. intros _. exists uid. split; [reflexivity|].
    now apply user_uploads_nil. }
  pose proof (user_uploads_head uid t latest rest Hlist) as (Hin & Hown & Hnewest).
  assert (forall uid', Some uid = Some uid' ->
                       ~ (forall r, In r t -> owned_by uid' r = false)) as Hsome.
  { intros uid' [= <-] Hnone. rewrite (Hnone latest Hin) in Hown. discriminate. }
  destruct upload_id as [id|].
  2:{ split; [|split; [|discriminate]].
      - intros selected flashed [= <- <-]. exists uid.
        split; [reflexivity|]. split; [exact Hin|]. split; [exact Hown|].
        split; [|split; [intros _; exact Hnewest|discriminate]].
        split; [discriminate|]. intros (id & other & Hid & _). discriminate.
      - split; [discriminate|]. intros (uid' & Hs & Hnone). exfalso; now apply (Hsome uid' Hs). }
  destruct (id =? 0) eqn:Hzero.
  { apply Z.eqb_eq in Hzero. subst id.
    split; [|split; [|discriminate]].
    - intros selected flashed [= <- <-]. exists uid.
      split; [reflexivity|]. split; [exact Hin|]. split; [exact Hown|].
      split; [|split; [intros _; exact Hnewest|]].
      + split; [discriminate|]. intros (id & other & [= <-] & Hne & _). now contradiction Hne.
      + intros _ id [= <-] Hne. now contradiction Hne.
    - split; [discriminate|]. intros (uid' & Hs & Hnone). exfalso; now apply (Hsome uid' Hs). }
  apply Z.eqb_neq in Hzero.
  destruct (query_get id t) as [selected|] eqn:Hget.
  2:{ split; [discriminate|]. split.
      - split; [discriminate|]. intros (uid' & Hs & Hnone). exfalso; now apply (Hsome uid' Hs).
      - intros _. exists uid, id. repeat split; [exact Hget|].
        now exists latest. }
  pose proof (query_get_in _ _ _ Hget) as [Hsel _].
  destruct (owned_by uid selected) eqn:Hselown; cbn [negb].
  - split; [|split; [|discriminate]].
    + intros ? flashed [= <- <-]. exists uid.
      split; [reflexivity|]. split; [exact Hsel|]. split; [exact Hselown|].
      split; [|split].
      * split; [discriminate|].
        intros (id' & other & [= <-] & _ & Hget' & Hother).
        rewrite Hget in Hget'. injection Hget' as <-. congruence.
      * intros [Hf|[Hn|Hz]]; [discriminate|discriminate|].
        injection Hz as ->. now contradiction Hzero.
      * intros _ id' [= <-] _. exact Hget.
    + split; [discriminate|]. intros (uid' & Hs & Hnone). exfalso; now apply (Hsome uid' Hs).
  - split; [|split; [|discriminate]].
    + intros ? flashed [= <- <-]. exists uid.
      split; [reflexivity|]. split; [exact Hin|]. split; [exact Hown|].
      split; [|split; [intros _; exact Hnewest|discriminate]].
      split; [|reflexivity]. intros _. now exists id, selected.
    + split; [discriminate|]. intros (uid' & Hs & Hnone). exfalso; now apply (Hsome uid' Hs).
Qed.

Lemma dashboard_shows_own_upload_witness :
  exists uid,
    Some 7 = Some uid
    /\ In (mkRow 3 300 (mkUpload 7 "feb.csv" [] USD)) three_uploads
    /\ owned_by uid (mkRow 3 300 (mkUpload 7 "feb.csv" [] USD)) = true.
Proof.
  destruct (proj1 (dashboard_shows_own_upload (Some 7) (Some 2) three_uploads)
              (mkRow 3 300 (mkUpload 7 "feb.csv" [] USD)) true eq_refl)
    as (uid & Hs & Hin & Hown & _).
  exists uid. now repeat split.
Defined.

(** ** What an accepted upload stores *)

Lemma record_get_labelled (name : string) (i : nat) (l : DataFrame) :
  Forall (fun col => labelled name col = true) l -> l <> [] ->
  exists col, In col l /\ record_get name (row_at l i) = Some (nth i (snd col) Blank).
Proof.
  induction l as [|x l IH]; intros Hall Hne; [now contradiction Hne|].
  inversion Hall as [|? ? Hx Hall']; subst.
  destruct l as [|y l].
  - exists x. split; [now left|]. cbn. unfold labelled in Hx. now rewrite Hx.
  - destruct (IH Hall' ltac:(discriminate)) as (col & Hcol & Hget).
    exists col. split; [now right|].
    change (row_at (x :: y :: l) i)
      with ((fst x, nth i (snd x) Blank) :: row_at (y :: l) i).
    cbn [record_get]. now rewrite Hget.
Qed.

Lemma record_get_present (name : string) (i : nat) (df : DataFrame) :
  has_column name df = true ->
  exists col, In col df /\ fst col = name
              /\ record_get name (row_at df i) = Some (nth i (snd col) Blank).
Proof.
  intros Hhas. rewrite record_get_filter.
  destruct (record_get_labelled name i (filter (labelled name) df)) as (col & Hcol & Hget).
  - apply Forall_forall. intros col Hcol. now apply filter_In in Hcol.
  - rewrite has_column_filter in Hhas. now destruct (filter (labelled name) df).
  - apply filter_In in Hcol as [Hin Hlab]. exists col.
    repeat split; [exact Hin| |exact Hget]. now apply String.eqb_eq.
Qed.

Lemma record_get_column_is (name : string) (s : list cell) (i : nat) (df : DataFrame) :
  column_is name s df -> record_get name (row_at df i) = Some (nth i s Blank).
Proof.
  intros [Hhas Hall]. rewrite record_get_filter.
  destruct (record_get_labelled name i (filter (labelled name) df)) as (col & Hcol & Hget).
  - apply Forall_forall. intros col Hcol. now apply filter_In in Hcol.
  - rewrite has_column_filter in Hhas. now destruct (filter (labelled name) df).
  - rewrite Forall_forall in Hall. now rewrite <- (Hall col Hcol).
Qed.

Lemma column_is_length (name : string) (s : list cell) (df : DataFrame) :
  rectangular df = true -> column_is name s df -> List.length s = nrows df.
Proof.
  intros Hrect [Hhas Hall]. rewrite has_column_filter in Hhas.
  destruct (filter (labelled name) df) as [|col l] eqn:Hfil; [discriminate|].
  inversion Hall as [|? ? Hcol _]; subst.
  apply (rectangular_length df col Hrect).
  assert (In col (filter (labelled name) df)) as Hin by (rewrite Hfil; now left).
  now apply filter_In in Hin.
Qed.

Lemma format_dates_spec `{Pandas} (df df' : DataFrame) :
  format_dates df = Done df' ->
  exists dates parsed,
    select "date" df = Series dates
    /\ to_datetime dates = Some parsed
    /\ df' = set_column "date" (map (fun c => strftime (parsed c)) dates) df.
Proof.
  unfold format_dates. destruct (series "date" df) as [dates|] eqn:Hs; [|discriminate].
  cbn [bind]. destruct (to_datetime dates) as [parsed|] eqn:Hp; [|discriminate].
  cbn [try_ bind]. intros [= <-]. exists dates, parsed.
  split; [now apply series_inv|]. now split.
Qed.

Lemma coerce_passed_mapping_check `{Pandas} (df final : DataFrame) :
  coerce df = Done final ->
  forall field, In field required -> has_column field (standardize_column_names df) = true.
Proof.
  unfold coerce.
  destruct (forallb (fun col => has_column col (standardize_column_names df))
                    ["date"; "product"; "quantity"]) eqn:Hall; [|discriminate].
  intros _ field Hfield. rewrite forallb_forall in Hall. now apply Hall.
Qed.

Lemma length_text_append (a b : string) :
  String.length (a ++ b)%string = (String.length a + String.length b)%nat.
Proof. induction a as [|c a IH]; [reflexivity|]. cbn. now rewrite IH. Qed.

Lemma fixed_width_length (w : nat) (n : Z) : String.length (Text.fixed_width w n) = w.
Proof.
  revert n. induction w as [|w IH]; intros n; [reflexivity|].
  cbn [Text.fixed_width]. rewrite length_text_append, IH. cbn. lia.
Qed.

Lemma date_text_length (d : date) : String.length (date_text d) = 10%nat.
Proof.
  unfold date_text. rewrite !length_text_append, !fixed_width_length. reflexivity.
Qed.

(** X10. The fields of a stored record.  In every record of an accepted
    upload the quantity is a number, the price is a number when the record
    has one, the date is missing or a text of ten characters, and the
    product key is present. *)
Theorem stored_fields_are_clean `{Pandas}
        (df : DataFrame) (cur : Currency) (final : DataFrame) :
  rectangular df = true ->
  ingest df = Done (cur, final) ->
  forall r, In r (to_dict_records final) ->
    (exists q, record_get "quantity" r = Some (Num q))
    /\ (record_get "price" r = None \/ exists p, record_get "price" r = Some (Num p))
    /\ (record_get "date" r = Some Blank
        \/ exists text, record_get "date" r = Some (Str text)
                        /\ String.length text = 10%nat)
    /\ record_get "product" r <> None.
Proof.
  intros Hrect Hin r Hr. apply ingest_inv in Hin as [_ Hco].
  destruct (coerce_rectangular df final Hrect Hco) as [Hrf Hn].
  apply in_to_dict_records in Hr as (i & Hi & ->).
  destruct (coerce_spec df final Hco) as (qsrc & _ & Hq & Hprice & _).
  split; [|split; [|split]].
  - rewrite (record_get_series _ _ _ _ Hq).
    pose proof (select_length _ _ _ Hrf Hq) as Hlen. rewrite length_map in Hlen.
    rewrite nth_map_Num by lia. now eexists.
  - destruct (first_containing "price" (standardize_column_names df)).
    + destruct Hprice as (psrc & _ & Hcol). right.
      rewrite (record_get_column_is _ _ _ _ Hcol).
      pose proof (column_is_length _ _ _ Hrf Hcol) as Hlen. rewrite length_map in Hlen.
      rewrite nth_map_Num by lia. now eexists.
    + left. now apply record_get_missing.
  - destruct (coerce_stages df final Hco) as (df2 & df4 & df5 & _ & _ & _ & Hf).
    apply format_dates_spec in Hf as (dates & parsed & Hsel & _ & ->).
    pose proof (select_set_series "date" (map (fun c => strftime (parsed c)) dates)
                  dates df5 Hsel) as Hdate.
    rewrite (record_get_series _ _ _ _ Hdate).
    pose proof (select_length _ _ _ Hrf Hdate) as Hlen. rewrite length_map in Hlen.
    rewrite (nth_indep _ Blank (strftime (parsed Blank)))
      by (rewrite length_map; lia).
    rewrite (map_nth (fun c => strftime (parsed c))).
    destruct (parsed (nth i dates Blank)) as [d|]; [right|now left].
    exists (date_text d). split; [reflexivity|apply date_text_length].
  - assert (has_column "product" final = true) as Hhas.
    { rewrite has_column_filter.
      rewrite (coerce_keeps_other_columns df final "product" Hco)
        by discriminate.
      rewrite <- has_column_filter.
      apply (coerce_passed_mapping_check df final Hco). cbn. tauto. }
    destruct (record_get_present "product" i final Hhas) as (col & _ & _ & Hget).
    rewrite Hget. discriminate.
Qed.

Lemma stored_fields_are_clean_witness :
  exists q, record_get "quantity"
              [("date", Str "2024-01-05"); ("product", Str "Widget");
               ("quantity", Num 3); ("total", Num 30)] = Some (Num q).
Proof.
  apply (@stored_fields_are_clean plain_reader table_total_only USD
           table_total_only_coerced eq_refl eq_refl).
  now left.
Defined.

(** ** The grouped series of the charts *)

Lemma period_leb_total (a b : Z * Z) : period_leb a b = false -> period_leb b a = true.
Proof.
  unfold period_leb. intros Hab.
  apply orb_false_iff in Hab as [Hlt Hle]. apply Z.ltb_ge in Hlt.
  destruct (fst a =? fst b) eqn:Heq.
  - apply Z.eqb_eq in Heq. cbn in Hle. apply Z.leb_gt in Hle.
    apply orb_true_iff. right. apply andb_true_iff. split.
    + apply Z.eqb_eq. lia.
    + apply Z.leb_le. lia.
  - apply Z.eqb_neq in Heq. apply orb_true_iff. left. apply Z.ltb_lt. lia.
Qed.

Lemma period_leb_spec (a b : Z * Z) :
  period_leb a b = true <-> fst a < fst b \/ (fst a = fst b /\ snd a <= snd b).
Proof.
  unfold period_leb. rewrite orb_true_iff, andb_true_iff, Z.ltb_lt, Z.eqb_eq, Z.leb_le.
  reflexivity.
Qed.

Lemma period_leb_trans (a b c : Z * Z) :
  period_leb a b = true -> period_leb b c = true -> period_leb a c = true.
Proof. rewrite !period_leb_spec. lia. Qed.

Lemma period_eqb_eq (a b : Z * Z) : period_eqb a b = true <-> a = b.
Proof.
  unfold period_eqb. rewrite andb_true_iff, !Z.eqb_eq.
  destruct a, b; cbn. split; [intros [-> ->]; reflexivity|intros [= -> ->]; now split].
Qed.

Lemma strongly_sorted_pairs {A : Type} (R S : A -> A -> Prop) (l : list A) :
  StronglySorted R l -> ForallOrdPairs S l ->
  StronglySorted (fun a b => R a b /\ S a b) l.
Proof.
  induction 1 as [|x l _ IH Hx]; intros Hp; [constructor|].
  inversion Hp as [|? ? Hs Hp']; subst. constructor; [now apply IH|].
  rewrite Forall_forall in *. intros b Hb. split; [now apply Hx|now apply Hs].
Qed.

Lemma groupby_sum_keys {K : Type} (eqb leb : K -> K -> bool)
      (rows : list (option K * numeric)) :
  map fst (groupby_sum eqb leb rows) = sort_by leb (dedup eqb (present_keys rows)).
Proof. unfold groupby_sum. rewrite map_map. cbn [fst]. apply map_id. Qed.

Lemma groupby_sum_in {K : Type} (eqb leb : K -> K -> bool)
      (rows : list (option K * numeric)) (k : K) (v : Q) :
  In (k, v) (groupby_sum eqb leb rows) ->
  v = group_total eqb rows k /\ In k (present_keys rows).
Proof.
  unfold groupby_sum. intros Hin. apply in_map_iff in Hin as (k' & [= -> <-] & Hk).
  split; [reflexivity|].
  apply (dedup_incl eqb). eapply Permutation_in; [apply sort_by_perm|exact Hk].
Qed.

Lemma present_keys_in {K : Type} (rows : list (option K * numeric)) (k : K) :
  In k (present_keys rows) <-> exists v, In (Some k, v) rows.
Proof.
  unfold present_keys. rewrite in_flat_map. split.
  - intros ([[k'|] v] & Hrow & Hk); cbn in Hk; [|contradiction].
    destruct Hk as [->|[]]. now exists v.
  - intros (v & Hrow). exists (Some k, v). split; [exact Hrow|now left].
Qed.

Lemma month_group (rows : list sale) (m : Z * Z) :
  group_total period_eqb
    (map (fun r => (option_map to_period_M (s_date r), s_total r)) rows) m
  = nansum (map s_total (filter (in_month m) rows)).
Proof.
  unfold group_total. rewrite filter_map_swap, map_map. cbn [snd].
  f_equal. f_equal. apply filter_ext. intros r.
  unfold in_group, in_month. cbn [fst]. now destruct (s_date r).
Qed.

(** X11. The monthly trend.  The months of the series are in strictly
    increasing calendar order, so no month occurs twice; each entry is the
    sum of the totals of the records dated in its month, of which there is
    at least one; and every dated record has its month in the series. *)
Theorem monthly_sales_chronological (rows : list sale) :
  StronglySorted period_lt (map fst (monthly_sales rows))
  /\ (forall m v, In (m, v) (monthly_sales rows) ->
        v = nansum (map s_total (filter (in_month m) rows))
        /\ exists r d, In r rows /\ s_date r = Some d /\ to_period_M d = m)
  /\ (forall r d, In r rows -> s_date r = Some d ->
        exists v, In (to_period_M d, v) (monthly_sales rows)).
Proof.
  unfold monthly_sales.
  set (keyed := map (fun r => (option_map to_period_M (s_date r), s_total r)) rows).
  split; [|split].
  - rewrite groupby_sum_keys.
    apply (strongly_sorted_impl
             (fun a b => period_leb a b = true /\ period_eqb a b = false)).
    + intros a b [Hle Hne]. apply period_leb_spec in Hle.
      unfold period_lt. destruct Hle as [Hlt|[Hy Hm]]; [now left|right].
      split; [exact Hy|].
      destruct (Z.eq_dec (snd a) (snd b)) as [Heq|Hneq]; [|lia].
      assert (period_eqb a b = true) as Hab
          by (apply period_eqb_eq; destruct a, b; cbn in *; congruence).
      congruence.
    + apply strongly_sorted_pairs.
      * apply sort_by_strongly_sorted; [apply period_leb_total|apply period_leb_trans].
      * apply sort_by_pairs; [|apply dedup_distinct].
        intros a b Hab. now rewrite period_eqb_sym.
  - intros m v Hin. apply groupby_sum_in in Hin as [-> Hkey]. split.
    + apply month_group.
    + apply present_keys_in in Hkey as (t & Hrow). unfold keyed in Hrow.
      apply in_map_iff in Hrow as (r & Heq & Hr).
      destruct (s_date r) as [d|] eqn:Hd; [|discriminate].
      cbn in Heq. injection Heq as Hm _. now exists r, d.
  - intros r d Hr Hd.
    exists (group_total period_eqb keyed (to_period_M d)).
    unfold groupby_sum. apply in_map_iff. exists (to_period_M d). split; [reflexivity|].
    eapply Permutation_in; [symmetry; apply sort_by_perm|].
    assert (existsb (period_eqb (to_period_M d)) (dedup period_eqb (present_keys keyed)) = true)
      as Hex.
    { rewrite (existsb_dedup period_eqb period_eqb_sym period_eqb_trans).
      apply existsb_exists. exists (to_period_M d). split; [|apply period_eqb_refl].
      apply present_keys_in. exists (s_total r). unfold keyed.
      apply in_map_iff. exists r. split; [now rewrite Hd|exact Hr]. }
    apply existsb_exists in Hex as (k & Hk & Heq).
    apply period_eqb_eq in Heq. now rewrite Heq.
Qed.

Lemma monthly_sales_chronological_witness :
  exists r d, In r sales_blank_product /\ s_date r = Some d /\ to_period_M d = (2024, 1).
Proof.
  pose proof (proj1 (proj2 (monthly_sales_chronological sales_blank_product))) as Hentry.
  destruct (monthly_sales sales_blank_product) as [|[m v] rest] eqn:Hseries;
    [discriminate Hseries|].
  injection Hseries as Hm _ _.
  destruct (Hentry m v (or_introl eq_refl)) as (_ & r & d & Hr & Hd & Hperiod).
  exists r, d. rewrite <- Hm in Hperiod. now repeat split.
Defined.

Lemma product_group (rows : list sale) (k : cell) :
  group_total key_eqb (by_product s_total rows) k = product_revenue rows k.
Proof.
  unfold group_total, product_revenue, by_product.
  now rewrite filter_map_swap, map_map.
Qed.

(** X12. Revenue by product and the revenue pie show the same figures.
    The bar series is a rearrangement of the pie series in ascending order
    of revenue; the pie series lists the products in ascending order of
    the product key, no product twice, each with the sum of the totals of
    its rows; every listed product occurs in some row, and every product
    that occurs in a row is listed. *)
Theorem sales_by_product_sorts_product_share (rows : list sale) :
  Permutation (sales_by_product rows) (product_share rows)
  /\ StronglySorted (fun a b => (snd a <= snd b)%Q) (sales_by_product rows)
  /\ Sorted (fun a b => key_leb a b = true) (map fst (product_share rows))
  /\ ForallOrdPairs (fun a b => key_eqb a b = false) (map fst (product_share rows))
  /\ (forall k v, In (k, v) (product_share rows) ->
        v = product_revenue rows k
        /\ exists r, In r rows /\ cell_key (s_product r) = Some k)
  /\ (forall r k, In r rows -> cell_key (s_product r) = Some k ->
        exists k' v, In (k', v) (product_share rows) /\ key_eqb k k' = true).
Proof.
  unfold sales_by_product, product_share, sort_values.
  split; [apply sort_by_perm|]. split; [|split; [|split; [|split]]].
  - apply (strongly_sorted_impl (fun a b => value_le a b = true)).
    + intros a b. unfold value_le. apply Qle_bool_iff.
    + apply sort_by_strongly_sorted.
      * intros x y. unfold value_le. apply Qle_bool_total.
      * intros x y z. unfold value_le. rewrite !Qle_bool_iff. apply Qle_trans.
  - rewrite groupby_sum_keys. apply sort_by_sorted. apply key_leb_total.
  - rewrite groupby_sum_keys. apply sort_by_pairs; [|apply dedup_distinct].
    intros a b Hab. now rewrite key_eqb_sym.
  - intros k v Hin. apply groupby_sum_in in Hin as [-> Hkey]. split.
    + apply product_group.
    + apply present_keys_in in Hkey as (t & Hrow). unfold by_product in Hrow.
      apply in_map_iff in Hrow as (r & [= Hk _] & Hr). now exists r.
  - intros r k Hr Hk.
    set (keyed := by_product s_total rows).
    assert (existsb (key_eqb k) (dedup key_eqb (present_keys keyed)) = true) as Hex.
    { rewrite (existsb_dedup key_eqb key_eqb_sym key_eqb_trans).
      apply existsb_exists. exists k. split; [|apply key_eqb_refl].
      apply present_keys_in. exists (s_total r). unfold keyed, by_product.
      apply in_map_iff. exists r. split; [now rewrite Hk|exact Hr]. }
    apply existsb_exists in Hex as (k' & Hk' & Heq).
    exists k', (group_total key_eqb keyed k'). split; [|exact Heq].
    unfold groupby_sum. apply in_map_iff. exists k'. split; [reflexivity|].
    eapply Permutation_in; [symmetry; apply sort_by_perm|exact Hk'].
Qed.

Lemma sales_by_product_sorts_product_share_witness :
  Permutation (sales_by_product sales_blank_product) (product_share sales_blank_product).
Proof. exact (proj1 (sales_by_product_sorts_product_share sales_blank_product)). Defined.



Lemma strongly_sorted_app {A : Type} (R : A -> A -> Prop) (a b : list A) :
  StronglySorted R (a ++ b) -> forall x y, In x a -> In y b -> R x y.
Proof.
  induction a as [|h a IH]; intros Hs x y Hx Hy; [contradiction|].
  cbn in Hs. inversion Hs as [|? ? Hs' Hall]; subst.
  destruct Hx as [->|Hx]; [|now apply IH].
  rewrite Forall_forall in Hall. apply Hall. apply in_or_app. now right.
Qed.

(** X14. The cut of the top-products view.  The view has at most 8
    entries; with 8 products or fewer it shows every product; and a product
    it leaves out never sold more than one it shows. *)
Theorem top_qty_cut (rows : list sale) :
  let groups := groupby_sum key_eqb key_leb
                  (by_product (fun r => Fin (s_quantity r)) rows) in
  (List.length (top_qty rows) <= 8)%nat
  /\ ((List.length groups <= 8)%nat -> Permutation (top_qty rows) groups)
  /\ (forall shown left_out,
        In shown (top_qty rows) -> In left_out groups ->
        ~ In left_out (top_qty rows) ->
        (snd left_out <= snd shown)%Q).
Proof.
  intros groups. unfold top_qty, nlargest. fold groups.
  pose proof (sort_by_perm value_ge groups) as Hperm.
  split; [apply firstn_le_length|]. split.
  - intros Hlen. rewrite firstn_all2; [exact Hperm|].
    now rewrite (Permutation_length Hperm).
  - intros shown left_out Hshown Hgroup Hout.
    assert (StronglySorted (fun a b => value_ge a b = true) (sort_by value_ge groups))
      as Hsorted.
    { apply sort_by_strongly_sorted.
      - intros x y. unfold value_ge. apply Qle_bool_total.
      - intros x y z. unfold value_ge. rewrite !Qle_bool_iff.
        intros Hyx Hzy. now apply (Qle_trans _ (snd y)). }
    rewrite <- (firstn_skipn 8 (sort_by value_ge groups)) in Hsorted.
    assert (In left_out (skipn 8 (sort_by value_ge groups))) as Hrest.
    { assert (In left_out (sort_by value_ge groups)) as Hin
          by (eapply Permutation_in; [symmetry; exact Hperm|exact Hgroup]).
      rewrite <- (firstn_skipn 8 (sort_by value_ge groups)) in Hin.
      apply in_app_or in Hin as [Hin|Hin]; [contradiction|exact Hin]. }
    pose proof (strongly_sorted_app _ _ _ Hsorted shown left_out Hshown Hrest) as Hge.
    unfold value_ge in Hge. now apply Qle_bool_iff.
Qed.

Lemma top_qty_cut_witness :
  (List.length (top_qty nine_products) <= 8)%nat
  /\ (snd (Str "i", 1%Q) <= snd (Str "a", 1%Q))%Q.
Proof.
  pose proof (top_qty_cut nine_products) as (Hlen & _ & Hcut).
  split; [exact Hlen|].
  apply (Hcut (Str "a", 1%Q) (Str "i", 1%Q)).
  - vm_compute. tauto.
  - vm_compute. tauto.
  - vm_compute. intros H. repeat (destruct H as [H|H]; [discriminate H|]). exact H.
Defined.

(** ** Stored uploads as the dashboard reads them *)

Lemma distinct_nodup (l : list string) :
  ForallOrdPairs (fun a b => String.eqb a b = false) l -> NoDup l.
Proof.
  induction 1 as [|x l Hx _ IH]; constructor; [|exact IH].
  intros Hin. rewrite Forall_forall in Hx. specialize (Hx x Hin).
  rewrite String.eqb_refl in Hx. discriminate.
Qed.

Lemma in_dedup (x : string) (l : list string) : In x l -> In x (dedup String.eqb l).
Proof.
  intros Hin.
  assert (existsb (String.eqb x) (dedup String.eqb l) = true) as Hex.
  { rewrite (existsb_dedup String.eqb String.eqb_sym string_eqb_trans).
    apply existsb_exists. exists x. split; [exact Hin|apply String.eqb_refl]. }
  apply existsb_exists in Hex as (y & Hy & Heq). apply String.eqb_eq in Heq. now subst.
Qed.

(** A label of the stored frame is read back as one column: the values
    the records hold under it. *)
Lemma select_read_back (df : DataFrame) (name : string) :
  (0 < nrows df)%nat -> has_column name df = true ->
  select name (frame_of_records (to_dict_records df))
  = Series (map (fun r => match record_get name r with Some c => c | None => Blank end)
                (to_dict_records df)).
Proof.
  intros Hrows Hhas.
  set (read := fun k => map (fun r => match record_get k r with
                                     | Some c => c | None => Blank end)
                           (to_dict_records df)).
  assert (frame_of_records (to_dict_records df)
          = map (fun k => (k, read k)) (dedup String.eqb (columns df))) as Hframe.
  { unfold read, to_dict_records. destruct (nrows df) as [|n]; [lia|].
    cbn [seq map frame_of_records].
    replace (map fst (row_at df 0)) with (columns df)
      by (unfold row_at, columns; now rewrite map_map).
    reflexivity. }
  rewrite Hframe.
  apply (nodup_select (map (fun k => (k, read k)) (dedup String.eqb (columns df)))
           (name, read name)).
  - unfold columns. rewrite map_map. cbn [fst]. rewrite map_id.
    apply distinct_nodup, dedup_distinct.
  - apply in_map_iff. exists name. split; [reflexivity|].
    apply in_dedup. unfold has_column, Text.mem in Hhas.
    apply existsb_exists in Hhas as (l & Hl & Heq). apply String.eqb_eq in Heq. now subst.
Qed.

Lemma read_back_column_is (df : DataFrame) (name : string) (s : list cell) :
  column_is name s df -> List.length s = nrows df ->
  map (fun r => match record_get name r with Some c => c | None => Blank end)
      (to_dict_records df) = s.
Proof.
  intros Hcol Hlen. unfold to_dict_records. rewrite map_map, <- Hlen.
  rewrite <- (map_nth_all s) at 2. apply map_ext. intros i.
  now rewrite (record_get_column_is name s i df Hcol).
Qed.

Lemma select_read_back_column_is (df : DataFrame) (name : string) (s : list cell) :
  rectangular df = true -> (0 < nrows df)%nat -> column_is name s df ->
  select name (frame_of_records (to_dict_records df)) = Series s.
Proof.
  intros Hrect Hrows Hcol.
  rewrite (select_read_back df name Hrows (proj1 Hcol)).
  now rewrite (read_back_column_is df name s Hcol (column_is_length name s df Hrect Hcol)).
Qed.

Lemma to_dict_records_length (df : DataFrame) :
  List.length (to_dict_records df) = nrows df.
Proof. unfold to_dict_records. now rewrite length_map, length_seq. Qed.

(** What a success response of the route tells about the request. *)
Lemma upload_file_uploaded `{Pandas} (store store' : Store) (req : request) (stats : Stats) :
  upload_file store req = (store', Uploaded stats) ->
  exists uid name df cur final,
    session_user req = Some uid
    /\ posted req = Some (name, Some df)
    /\ ingest df = Done (cur, final)
    /\ store' = store ++ [mkUpload uid name (to_dict_records final) cur]
    /\ response_stats cur final = Some stats.
Proof.
  unfold upload_file. destruct (session_user req) as [uid|]; [|discriminate].
  destruct (posted req) as [[name content]|]; [|discriminate].
  destruct (String.eqb name ""); [discriminate|].
  destruct (negb (allowed_extension name)); [discriminate|].
  destruct content as [df|]; [|discriminate].
  destruct (ingest df) as [[cur final]|f] eqn:Hin; [|destruct f; discriminate].
  destruct (response_stats cur final) as [stats'|] eqn:Hstats; [|discriminate].
  intros [= <- <-]. now exists uid, name, df, cur, final.
Qed.

(** X15. The upload response and the dashboard history agree.  When the
    route answers an upload with its statistics, exactly one upload has
    been appended to the store, and the history line the dashboard computes
    from its stored records shows the revenue of the response's
    [total_sales] and as many records as the table had rows; the currency
    of the response is the stored one. *)
Theorem history_matches_upload_response `{Pandas}
        (store store' : Store) (req : request) (stats : Stats)
        (name : string) (df : DataFrame) :
  posted req = Some (name, Some df) -> rectangular df = true ->
  upload_file store req = (store', Uploaded stats) ->
  exists upload,
    store' = store ++ [upload]
    /\ filename upload = name
    /\ session_user req = Some (user_id upload)
    /\ upload_history_line (data upload) = Figures (total_sales stats) (nrows df)
    /\ stats_currency stats = currency_code (currency upload).
Proof.
  intros Hposted Hrect Hup.
  apply upload_file_uploaded in Hup
    as (uid & name' & df' & cur & final & Huser & Hposted' & Hin & -> & Hstats).
  rewrite Hposted in Hposted'. injection Hposted' as <- <-.
  exists (mkUpload uid name (to_dict_records final) cur). cbn [filename user_id data currency].
  split; [reflexivity|]. split; [reflexivity|]. split; [exact Huser|].
  apply ingest_inv in Hin as [_ Hco].
  destruct (coerce_rectangular df final Hrect Hco) as [Hrf Hn].
  unfold response_stats in Hstats.
  destruct (select "total" final) as [|total|] eqn:Htotal; cbn [as_series] in Hstats;
    try discriminate.
  destruct (as_floats total) as [values|] eqn:Hvalues; [|discriminate].
  destruct (as_series (select "product" final)); [|discriminate].
  injection Hstats as <-. cbn [total_sales stats_currency]. split; [|reflexivity].
  unfold upload_history_line. destruct (nrows df) as [|n] eqn:Hrows.
  - assert (to_dict_records final = []) as ->
        by (unfold to_dict_records; now rewrite Hn).
    cbn. pose proof (select_length _ _ _ Hrf Htotal) as Hlen. rewrite Hn in Hlen.
    destruct total; [|discriminate]. cbn in Hvalues. now injection Hvalues as <-.
  - rewrite (select_read_back_column_is final "total" total Hrf ltac:(lia)
               (select_column_is _ _ _ Htotal)).
    now rewrite Hvalues, to_dict_records_length, Hn.
Qed.

Lemma history_matches_upload_response_witness :
  exists upload,
    fst (@upload_file plain_reader []
           (mkRequest (Some 7) (Some ("sales.csv", Some table_kept_total))))
    = [] ++ [upload]
    /\ upload_history_line (data upload) = Figures 100 2.
Proof.
  destruct (@history_matches_upload_response plain_reader []
              [mkUpload 7 "sales.csv" (to_dict_records table_kept_total_coerced) USD]
              (mkRequest (Some 7) (Some ("sales.csv", Some table_kept_total)))
              (mkStats 100 2 "USD") "sales.csv" table_kept_total
              eq_refl eq_refl)
    as (upload & Hstore & _ & _ & Hline & _).
  - vm_compute. reflexivity.
  - exists upload. split; [|exact Hline].
    rewrite <- Hstore. vm_compute. reflexivity.
Defined.

Lemma zip_sales_fields (d : list (option date)) (p : list cell) (q pr : list Q)
      (t : list numeric) :
  List.length p = List.length d -> List.length q = List.length d ->
  List.length pr = List.length d -> List.length t = List.length d ->
  map s_date (zip_sales d p q pr t) = d
  /\ map s_product (zip_sales d p q pr t) = p
  /\ map s_quantity (zip_sales d p q pr t) = q
  /\ map s_price (zip_sales d p q pr t) = pr
  /\ map s_total (zip_sales d p q pr t) = t.
Proof.
  revert p q pr t. induction d as [|d0 d IH]; intros p q pr t Hp Hq Hpr Ht.
  - destruct p, q, pr, t; try discriminate. now repeat split.
  - destruct p as [|p0 p], q as [|q0 q], pr as [|pr0 pr], t as [|t0 t]; try discriminate.
    cbn in Hp, Hq, Hpr, Ht.
    destruct (IH p q pr t) as (Hd & Hp' & Hq' & Hpr' & Ht'); try lia.
    cbn [zip_sales map s_date s_product s_quantity s_price s_total].
    now rewrite Hd, Hp', Hq', Hpr', Ht'.
Qed.

Lemma to_numeric_coerce_Num `{Pandas} (l : list Q) :
  to_numeric_coerce (map Num l) = map Fin l.
Proof. unfold to_numeric_coerce. now rewrite map_map. Qed.

Lemma fillna0_Fin (l : list Q) : map fillna0 (map Fin l) = l.
Proof. rewrite map_map. cbn [fillna0]. apply map_id. Qed.

Lemma all_zero_sum (l : list Q) : forallb is_zero (map Fin l) = true -> Qsum l == 0.
Proof.
  induction l as [|x l IH]; [reflexivity|]. cbn [map forallb is_zero].
  intros Hall. apply andb_prop in Hall as [Hx Hl]. apply Qeq_bool_iff in Hx.
  cbn [Qsum fold_right]. fold (Qsum l). rewrite Hx, (IH Hl). reflexivity.
Qed.

Lemma coerce_has_product `{Pandas} (df final : DataFrame) :
  coerce df = Done final -> has_column "product" final = true.
Proof.
  intros Hco. rewrite has_column_filter.
  rewrite (coerce_keeps_other_columns df final "product" Hco) by discriminate.
  rewrite <- has_column_filter.
  apply (coerce_passed_mapping_check df final Hco). cbn. tauto.
Qed.

(** The numeric columns of an accepted table that has a price: numbers
    throughout, with a total the chart preparation leaves as it is. *)
Lemma stored_numbers `{Pandas} (df final : DataFrame) :
  rectangular final = true ->
  coerce df = Done final ->
  first_containing "price" (standardize_column_names df) <> None ->
  exists qty price total,
    select "quantity" final = Series (map Num qty)
    /\ column_is "price" (map Num price) final
    /\ select "total" final = Series (map Num total)
    /\ (if (forallb is_nan (map Fin total) || forallb is_zero (map Fin total))%bool
        then series_mul (map Fin qty) (map Fin price)
        else map Fin total) = map Fin total.
Proof.
  intros Hrect Hco Hprice.
  destruct (coerce_spec df final Hco) as (qsrc & _ & Hq & Hp & Ht).
  destruct (first_containing "price" (standardize_column_names df)) as [pc|];
    [|now contradiction Hprice].
  destruct Hp as (psrc & _ & Hpcol).
  set (qty := quantity_column qsrc) in *. set (price := money_column psrc) in *.
  assert (total_is_quantity_times_price final ->
          select "total" final = Series (map Num (products qty price))) as Hrecomputed.
  { intros (qty' & Hq' & [(price' & Hp' & Ht')|[Hno _]]).
    - rewrite Hq in Hq'. injection Hq' as Hqq. apply map_Num_injective in Hqq.
      pose proof (column_is_select _ _ _ _ Hpcol Hp') as Hpp.
      apply map_Num_injective in Hpp. now subst.
    - destruct Hpcol as [Hhas _]. rewrite select_has_column, Hno in Hhas. discriminate. }
  assert (forall total, select "total" final = Series (map Num total) ->
            total = products qty price \/ Qeq_bool (Qsum total) 0 = false ->
            exists qty price total,
              select "quantity" final = Series (map Num qty)
              /\ column_is "price" (map Num price) final
              /\ select "total" final = Series (map Num total)
              /\ (if (forallb is_nan (map Fin total)
                      || forallb is_zero (map Fin total))%bool
                  then series_mul (map Fin qty) (map Fin price)
                  else map Fin total) = map Fin total) as Hclose.
  { intros total Htotal Hcase. exists qty, price, total.
    split; [exact Hq|]. split; [exact Hpcol|]. split; [exact Htotal|].
    destruct (forallb is_nan (map Fin total) || forallb is_zero (map Fin total))%bool
      eqn:Htest; [|reflexivity].
    destruct Hcase as [->|Hsum]; [apply series_mul_Fin|].
    exfalso. apply orb_prop in Htest as [Hnan|Hzero].
    - destruct total; [|discriminate]. discriminate.
    - apply all_zero_sum, Qeq_bool_iff in Hzero. congruence. }
  destruct (first_containing "total" (standardize_column_names df)) as [tc|].
  - destruct Ht as (tsrc & _ & Ht).
    destruct (Qeq_bool (Qsum (money_column tsrc)) 0) eqn:Hsum.
    + apply (Hclose _ (Hrecomputed Ht)). now left.
    + apply (Hclose _ Ht). now right.
  - apply (Hclose _ (Hrecomputed Ht)). now left.
Qed.

(** X16. The chart rows of a stored upload.  For an accepted upload with
    a price and at least one row, provided the stored dates read back as
    dates, the preparation of [generate_charts] (lines 134 to 144) succeeds
    on the frame rebuilt from the records, with one chart row per record
    carrying the stored quantity, price and total; whenever
    [generate_charts] returns its charts, they are the five series of
    these rows; and the revenue of the history line is the grand total of
    these rows.  Whether the plotting calls go through is not stated. *)
Theorem stored_upload_chart_rows `{Pandas}
        (df : DataFrame) (cur : Currency) (final : DataFrame) :
  rectangular df = true -> (0 < nrows df)%nat ->
  ingest df = Done (cur, final) ->
  first_containing "price" (standardize_column_names df) <> None ->
  (forall dates, select "date" final = Series dates -> to_datetime dates <> None) ->
  exists rows,
    prepare (frame_of_records (to_dict_records final)) = Some rows
    /\ (forall views,
          generate_charts (frame_of_records (to_dict_records final)) = Some views ->
          views = mkSeries5 (sales_by_product rows) (monthly_sales rows)
                    (product_share rows) (top_qty rows) (weekday_sales rows))
    /\ List.length rows = nrows df
    /\ select "quantity" final = Series (map (fun r => Num (s_quantity r)) rows)
    /\ column_is "price" (map (fun r => Num (s_price r)) rows) final
    /\ select "total" final = Series (map (fun r => cell_of_numeric (s_total r)) rows)
    /\ upload_history_line (to_dict_records final)
       = Figures (grand_total rows) (List.length rows).
Proof.
  intros Hrect Hrows Hin Hprice Hdates. apply ingest_inv in Hin as [_ Hco].
  destruct (coerce_rectangular df final Hrect Hco) as [Hrf Hn].
  assert (0 < nrows final)%nat as Hrows' by lia.
  destruct (stored_numbers df final Hrf Hco Hprice)
    as (qty & price & total & Hq & Hp & Ht & Htest).
  destruct (coerce_stages df final Hco) as (df2 & df4 & df5 & _ & _ & _ & Hf).
  destruct (format_dates_spec df5 final Hf) as (dates0 & parsed0 & Hsel0 & _ & Hfinal).
  set (dates := map (fun c => strftime (parsed0 c)) dates0) in *.
  assert (select "date" final = Series dates) as Hd
      by (rewrite Hfinal; exact (select_set_series "date" dates dates0 df5 Hsel0)).
  destruct (to_datetime dates) as [parsed|] eqn:Hparsed;
    [|now contradiction (Hdates dates Hd)].
  set (fr := frame_of_records (to_dict_records final)).
  set (product := map (fun r => match record_get "product" r with
                                | Some c => c | None => Blank end)
                      (to_dict_records final)).
  set (rows := zip_sales (map parsed dates) product qty price (map Fin total)).
  assert (prepare fr = Some rows) as Hprep.
  { unfold prepare, fr.
    rewrite (select_read_back_column_is final "date" dates Hrf Hrows'
               (select_column_is _ _ _ Hd)).
    cbn [as_series]. rewrite Hparsed.
    rewrite (select_read_back_column_is final "quantity" _ Hrf Hrows'
               (select_column_is _ _ _ Hq)).
    cbn [as_series].
    rewrite (select_read_back_column_is final "price" _ Hrf Hrows' Hp).
    cbn [as_series].
    rewrite (select_read_back_column_is final "total" _ Hrf Hrows'
               (select_column_is _ _ _ Ht)).
    cbn [as_series].
    rewrite (select_read_back final "product" Hrows' (coerce_has_product df final Hco)).
    cbn [as_series]. rewrite !to_numeric_coerce_Num, !fillna0_Fin, Htest. reflexivity. }
  pose proof (select_length _ _ _ Hrf Hd) as Hld.
  pose proof (select_length _ _ _ Hrf Hq) as Hlq. rewrite length_map in Hlq.
  pose proof (column_is_length _ _ _ Hrf Hp) as Hlp. rewrite length_map in Hlp.
  pose proof (select_length _ _ _ Hrf Ht) as Hlt. rewrite length_map in Hlt.
  destruct (zip_sales_fields (map parsed dates) product qty price (map Fin total))
    as (Hfd & _ & Hfq & Hfp & Hft);
    rewrite ?length_map; unfold product; rewrite ?length_map, ?to_dict_records_length;
    try lia.
  fold product in Hfd, Hfq, Hfp, Hft. fold rows in Hfd, Hfq, Hfp, Hft.
  exists rows. split; [exact Hprep|].
  split; [intros views; unfold generate_charts; fold fr; rewrite Hprep;
          now intros [= <-]|].
  split; [|split; [|split; [|split]]].
  - rewrite <- (length_map s_date), Hfd, length_map. lia.
  - now rewrite <- (map_map s_quantity Num), Hfq.
  - now rewrite <- (map_map s_price Num), Hfp.
  - now rewrite <- (map_map s_total cell_of_numeric), Hft, map_cell_of_numeric_Fin.
  - unfold upload_history_line.
    rewrite (select_read_back_column_is final "total" _ Hrf Hrows'
               (select_column_is _ _ _ Ht)).
    rewrite as_floats_Num. unfold grand_total. rewrite Hft.
    f_equal. rewrite to_dict_records_length.
    rewrite <- (length_map s_date rows), Hfd, length_map. lia.
Qed.

Lemma stored_upload_chart_rows_witness :
  exists rows,
    @prepare plain_reader (frame_of_records (to_dict_records table_kept_total_coerced))
    = Some rows
    /\ List.length rows = 2%nat.
Proof.
  destruct (@stored_upload_chart_rows plain_reader table_kept_total USD
              table_kept_total_coerced eq_refl ltac:(cbn; lia) eq_refl)
    as (rows & Hprep & _ & Hlen & _).
  - vm_compute. discriminate.
  - intros dates [= <-]. vm_compute. discriminate.
  - now exists rows.
Defined.

(** ** Currency symbols *)

Lemma upper_char_not_lower_s (c : ascii) : Text.upper_char c <> "s"%char.
Proof. destruct c as [[] [] [] [] [] [] [] []]; vm_compute; discriminate. Qed.

Lemma upper_not_Ksh (code : string) : String.eqb "Ksh" (Text.upper code) = false.
Proof.
  apply String.eqb_neq. intros Heq.
  destruct code as [|a [|b rest]]; try discriminate.
  cbn [Text.upper] in Heq. injection Heq as _ Hs _.
  now apply (upper_char_not_lower_s b).
Qed.

(** X17. Currency symbols.  The code is looked up in upper case, so the
    spelling of usd or ksh does not matter and the mapping entry under
    ['Ksh'] is never used; any other code comes back unchanged.  The
    currency detected for a table is shown as KSh when some header
    contains ksh, whatever its case, and as $ otherwise. *)
Theorem get_currency_symbol_cases :
  (forall code,
      get_currency_symbol code
      = if String.eqb (Text.upper code) "USD" then "$"
        else if String.eqb (Text.upper code) "KSH" then "KSh"
        else code)
  /\ (forall df,
        get_currency_symbol (currency_code (detect_currency df))
        = if existsb (fun h => Text.contains "ksh" (Text.lower h)) (columns df)
          then "KSh" else "$").
Proof.
  split.
  - intros code. unfold get_currency_symbol. cbn [dict_get].
    rewrite (String.eqb_sym "USD"), (String.eqb_sym "KSH"), upper_not_Ksh.
    destruct (String.eqb (Text.upper code) "USD"); [reflexivity|].
    destruct (String.eqb (Text.upper code) "KSH"); reflexivity.
  - intros df. unfold detect_currency.
    assert (existsb (Text.contains "ksh") (map Text.lower (columns df))
            = existsb (fun h => Text.contains "ksh" (Text.lower h)) (columns df)) as ->.
    { induction (columns df) as [|h l IH]; [reflexivity|]. cbn. now rewrite IH. }
    destruct (existsb _ (columns df)); reflexivity.
Qed.

(** ** Header case and white space *)

Lemma existsb_via_map {A B : Type} (f : B -> bool) (g : A -> B) (l : list A) :
  existsb (fun x => f (g x)) l = existsb f (map g l).
Proof. induction l as [|x l IH]; [reflexivity|]. cbn. now rewrite IH. Qed.

Lemma standard_name_normal (l l' : string) :
  normal_label l = normal_label l' ->
  standard_name (Text.strip l) = standard_name (Text.strip l').
Proof. unfold standard_name, normal_label. now intros ->. Qed.

Lemma same_case_standardize (df df' : DataFrame) :
  same_up_to_header_case df df' ->
  standardize_column_names df = standardize_column_names df'.
Proof.
  unfold standardize_column_names, strip_columns, rename_columns.
  induction 1 as [|col col' df df' [Hl Hc] _ IH]; [reflexivity|].
  cbn [map fst snd]. now rewrite (standard_name_normal _ _ Hl), Hc, IH.
Qed.

Lemma same_case_lower_columns (df df' : DataFrame) :
  same_up_to_header_case df df' ->
  map Text.lower (columns (strip_columns df))
  = map Text.lower (columns (strip_columns df')).
Proof.
  unfold columns, strip_columns, rename_columns.
  induction 1 as [|col col' df df' [Hl _] _ IH]; [reflexivity|].
  cbn [map fst]. unfold normal_label in Hl. now rewrite Hl, IH.
Qed.

(** The first header matching a field stands at the same place in both
    frames, over the same cells. *)
Lemma same_case_first_match (names : list string) (df df' : DataFrame) :
  same_up_to_header_case df df' ->
  match first_match names (columns (strip_columns df)),
        first_match names (columns (strip_columns df')) with
  | Some l, Some l' =>
      exists cells, In (l, cells) (strip_columns df) /\ In (l', cells) (strip_columns df')
  | None, None => True
  | _, _ => False
  end.
Proof.
  unfold first_match, columns, strip_columns, rename_columns.
  induction 1 as [|col col' df df' [Hl Hc] _ IH]; [exact I|].
  cbn [map find fst snd]. unfold normal_label in Hl. rewrite <- Hl.
  destruct (Text.mem (Text.lower (Text.strip (fst col))) names).
  - exists (snd col). split; [now left|]. left. now rewrite Hc.
  - destruct (find _ (map fst (map _ df))) as [l|], (find _ (map fst (map _ df'))) as [l'|];
      try exact IH.
    destruct IH as (cells & Hin & Hin'). exists cells. split; now right.
Qed.

Lemma same_case_matched_column (field : string) (df df' : DataFrame) :
  same_up_to_header_case df df' ->
  NoDup (map normal_label (columns df)) ->
  matched_column (strip_columns df) field = matched_column (strip_columns df') field.
Proof.
  intros Hsame Hnd. unfold matched_column.
  assert (map Text.lower (columns (strip_columns df)) = map normal_label (columns df))
    as Hnormal.
  { unfold columns, strip_columns, rename_columns. rewrite !map_map. reflexivity. }
  assert (NoDup (columns (strip_columns df))) as Hnd1.
  { apply (NoDup_map_inv Text.lower). now rewrite Hnormal. }
  assert (NoDup (columns (strip_columns df'))) as Hnd2.
  { apply (NoDup_map_inv Text.lower).
    now rewrite <- (same_case_lower_columns df df' Hsame), Hnormal. }
  pose proof (same_case_first_match (synonyms field) df df' Hsame) as Hfirst.
  destruct (first_match (synonyms field) (columns (strip_columns df))) as [l|],
           (first_match (synonyms field) (columns (strip_columns df'))) as [l'|];
    try contradiction; [|reflexivity].
  destruct Hfirst as (cells & Hin & Hin').
  pose proof (nodup_select _ (l, cells) Hnd1 Hin) as Hsel.
  pose proof (nodup_select _ (l', cells) Hnd2 Hin') as Hsel'.
  cbn [fst snd] in Hsel, Hsel'. now rewrite Hsel, Hsel'.
Qed.

(** X18. Header case and surrounding white space do not matter.  Two
    tables with the same cells whose headers agree once stripped and
    lower-cased, these normal forms being pairwise different, get the same
    verdict from the validator and the same outcome of the whole ingestion:
    the same rejection, or the same currency and the same stored frame. *)
Theorem ingest_ignores_header_case `{Pandas} (df df' : DataFrame) :
  same_up_to_header_case df df' ->
  NoDup (map normal_label (columns df)) ->
  validate_dataframe df = validate_dataframe df'
  /\ ingest df = ingest df'.
Proof.
  intros Hsame Hnd.
  pose proof (same_case_lower_columns df df' Hsame) as Hcols.
  assert (validate_dataframe df = validate_dataframe df') as Hv.
  { rewrite !validate_dataframe_unfold. cbv zeta.
    assert (missing_fields (columns (strip_columns df))
            = missing_fields (columns (strip_columns df'))) as ->.
    { unfold missing_fields, field_matched. apply filter_ext. intros field.
      now rewrite !(existsb_via_map (fun l => Text.mem l (synonyms field)) Text.lower), Hcols. }
    assert (has_price_or_total (columns (strip_columns df))
            = has_price_or_total (columns (strip_columns df'))) as ->.
    { unfold has_price_or_total.
      now rewrite !(existsb_via_map
                      (fun l => (Text.contains "price" l || Text.contains "total" l)%bool)
                      Text.lower), Hcols. }
    unfold dates_parse, quantity_parses.
    now rewrite !(same_case_matched_column _ df df' Hsame Hnd). }
  split; [exact Hv|].
  unfold ingest.
  assert (forall d, validate_dataframe (strip_columns d) = validate_dataframe d) as Hstrip
      by (intros d; unfold validate_dataframe; now rewrite strip_columns_idempotent).
  rewrite !Hstrip, !coerce_strip, Hv.
  assert (detect_currency (strip_columns df) = detect_currency (strip_columns df')) as ->
      by (unfold detect_currency; now rewrite Hcols).
  unfold coerce. now rewrite (same_case_standardize df df' Hsame).
Qed.

Lemma ingest_ignores_header_case_witness :
  @ingest plain_reader table_widget
  = @ingest plain_reader
      [ ("  DATE ", [Str "2024-01-05"]); ("item", [Str "Widget"]);
        ("QTY", [Num 3]); ("price (ksh)  ", [Num 10]) ].
Proof.
  apply (proj2 (@ingest_ignores_header_case plain_reader table_widget
                  [ ("  DATE ", [Str "2024-01-05"]); ("item", [Str "Widget"]);
                    ("QTY", [Num 3]); ("price (ksh)  ", [Num 10]) ]
                  ltac:(unfold table_widget, same_up_to_header_case;
                        repeat constructor)
                  ltac:(cbn; repeat constructor; cbn; intuition discriminate))).
Defined.

(** ** Validated tables with distinct headers are stored *)

Lemma has_column_in (n : string) (df : DataFrame) :
  has_column n df = true <-> In n (columns df).
Proof.
  unfold has_column, Text.mem. rewrite existsb_exists. split.
  - intros (l & Hl & Heq). apply String.eqb_eq in Heq. now subst.
  - intros Hin. exists n. split; [exact Hin|apply String.eqb_refl].
Qed.

Lemma nodup_has_series (df : DataFrame) (n : string) :
  NoDup (columns df) -> has_column n df = true -> exists s, select n df = Series s.
Proof.
  intros Hnd Hhas. apply has_column_in, in_map_iff in Hhas as (col & <- & Hcol).
  exists (snd col). now apply nodup_select.
Qed.

Lemma nodup_no_subframe (df : DataFrame) (n : string) (cols : list (list cell)) :
  NoDup (columns df) -> select n df <> SubFrame cols.
Proof.
  intros Hnd Hsel.
  assert (has_column n df = true) as Hhas by (now rewrite select_has_column, Hsel).
  destruct (nodup_has_series df n Hnd Hhas) as (s & Hs). congruence.
Qed.

Lemma set_column_nodup (n : string) (s : list cell) (df : DataFrame) :
  NoDup (columns df) -> NoDup (columns (set_column n s df)).
Proof.
  intros Hnd. rewrite columns_set. destruct (has_column n df) eqn:Hhas.
  - now rewrite app_nil_r.
  - apply (Permutation_NoDup (Permutation_cons_append (columns df) n)).
    constructor; [|exact Hnd]. intros Hin. apply has_column_in in Hin. congruence.
Qed.

Lemma first_containing_in (sub label : string) (df : DataFrame) :
  first_containing sub df = Some label -> has_column label df = true.
Proof.
  unfold first_containing. intros Hf. apply find_some in Hf as [Hin _].
  now apply has_column_in.
Qed.

Lemma coerce_money_progress `{Pandas} (df : DataFrame) :
  NoDup (columns df) ->
  exists df', coerce_money df = Done df' /\ NoDup (columns df').
Proof.
  intros Hnd. unfold coerce_money.
  assert (exists df3,
             match first_containing "price" df with
             | Some c => s <- series c df ;;
                         Done (set_column "price" (map Num (money_column s)) df)
             | None => Done df
             end = Done df3
             /\ NoDup (columns df3)
             /\ forall l, has_column l df = true -> has_column l df3 = true)
    as (df3 & -> & Hnd3 & Hkeep).
  { destruct (first_containing "price" df) as [pc|] eqn:Hpc.
    - destruct (nodup_has_series df pc Hnd (first_containing_in _ _ _ Hpc)) as (s & Hs).
      unfold series. rewrite Hs. cbn [as_series try_ bind]. eexists.
      split; [reflexivity|]. split; [now apply set_column_nodup|].
      intros l Hl. now rewrite has_column_set, Hl.
    - exists df. now repeat split. }
  cbn [bind]. destruct (first_containing "total" df) as [tc|] eqn:Htc.
  - destruct (nodup_has_series df3 tc Hnd3 (Hkeep tc (first_containing_in _ _ _ Htc)))
      as (s & Hs).
    unfold series. rewrite Hs. cbn [as_series try_ bind]. eexists.
    split; [reflexivity|]. now apply set_column_nodup.
  - now exists df3.
Qed.

Lemma recompute_total_progress (df : DataFrame) (qty : list Q) :
  NoDup (columns df) ->
  select "quantity" df = Series (map Num qty) ->
  (forall s, select "price" df = Series s -> exists price, s = map Num price) ->
  exists df', recompute_total df = Done df'.
Proof.
  intros Hnd Hq Hp. unfold recompute_total.
  rewrite (floats_Num "quantity" df qty Hq). cbn [bind].
  destruct (select "price" df) as [|s|cols] eqn:Hsel.
  - now eexists.
  - destruct (Hp s eq_refl) as (price & ->). rewrite as_floats_Num. cbn [try_ bind].
    now eexists.
  - now contradiction (nodup_no_subframe df "price" cols Hnd).
Qed.

Lemma settle_total_progress (df : DataFrame) (qty : list Q) :
  NoDup (columns df) ->
  select "quantity" df = Series (map Num qty) ->
  (forall s, select "price" df = Series s -> exists price, s = map Num price) ->
  (forall s, select "total" df = Series s -> exists total, s = map Num total) ->
  exists df', settle_total df = Done df'.
Proof.
  intros Hnd Hq Hp Ht. unfold settle_total.
  destruct (has_column "total" df) eqn:Hhas; cbn [negb].
  - destruct (nodup_has_series df "total" Hnd Hhas) as (s & Hs).
    destruct (Ht s Hs) as (total & ->).
    rewrite (floats_Num "total" df total Hs). cbn [bind].
    destruct (Qeq_bool (nansum (map Fin total)) 0); [|now eexists].
    now apply (recompute_total_progress df qty).
  - now apply (recompute_total_progress df qty).
Qed.

(** Past the mapping check, with distinct labels, the coercion can only
    stop on its date column. *)
Lemma coerce_progress `{Pandas} (df : DataFrame) :
  NoDup (columns (standardize_column_names df)) ->
  (forall field, In field required ->
                 has_column field (standardize_column_names df) = true) ->
  (forall dates, select "date" (standardize_column_names df) = Series dates ->
                 to_datetime dates <> None) ->
  exists final, coerce df = Done final.
Proof.
  intros Hnd Hreq Hdates. unfold coerce.
  set (df1 := standardize_column_names df) in *.
  assert (forallb (fun col => has_column col df1) ["date"; "product"; "quantity"] = true)
    as ->.
  { apply forallb_forall. intros field Hfield. now apply Hreq. }
  cbn [negb].
  destruct (nodup_has_series df1 "quantity" Hnd (Hreq "quantity" ltac:(cbn; tauto)))
    as (qsrc & Hq).
  unfold coerce_quantity, series. rewrite Hq. cbn [as_series try_ bind].
  set (qty := quantity_column qsrc).
  set (df2 := set_column "quantity" (map Num qty) df1).
  assert (NoDup (columns df2)) as Hnd2 by (now apply set_column_nodup).
  destruct (coerce_money_progress df2 Hnd2) as (df4 & Hmoney & Hnd4).
  rewrite Hmoney. cbn [bind].
  destruct (coerce_money_inv df2 df4 Hmoney) as (Hkeep4 & Hprice & Htotal).
  assert (select "quantity" df4 = Series (map Num qty)) as Hq4.
  { rewrite (select_filter "quantity" df2 df4)
      by (apply Hkeep4; discriminate).
    exact (select_set_series "quantity" _ qsrc df1 Hq). }
  assert (forall s, select "price" df4 = Series s -> exists price, s = map Num price)
    as Hp4.
  { intros s Hs. destruct (first_containing "price" df2).
    - destruct Hprice as (psrc & _ & Hcol). eexists.
      exact (column_is_select _ _ _ _ Hcol Hs).
    - congruence. }
  assert (forall s, select "total" df4 = Series s -> exists total, s = map Num total)
    as Ht4.
  { intros s Hs. destruct (first_containing "total" df2).
    - destruct Htotal as (tsrc & _ & Hcol). eexists.
      exact (column_is_select _ _ _ _ Hcol Hs).
    - congruence. }
  destruct (settle_total_progress df4 qty Hnd4 Hq4 Hp4 Ht4) as (df5 & Hsettle).
  rewrite Hsettle. cbn [bind].
  destruct (settle_total_inv df4 df5 qty Hq4 Hp4 Hsettle) as (Hkeep5 & _).
  destruct (nodup_has_series df1 "date" Hnd (Hreq "date" ltac:(cbn; tauto)))
    as (dates & Hd).
  assert (select "date" df5 = Series dates) as Hd5.
  { rewrite (select_filter "date" df4 df5) by (apply Hkeep5; discriminate).
    rewrite (select_filter "date" df2 df4) by (apply Hkeep4; discriminate).
    unfold df2. rewrite select_set_other by discriminate. exact Hd. }
  unfold format_dates, series. rewrite Hd5. cbn [as_series try_ bind].
  destruct (to_datetime dates) as [parsed|] eqn:Hparsed;
    [|now contradiction (Hdates dates Hd)].
  cbn [try_ bind]. now eexists.
Qed.

Lemma validated_date_column `{Pandas} (df : DataFrame) (dates : list cell) :
  NoDup (columns (standardize_column_names df)) ->
  dates_parse (strip_columns df) = true ->
  select "date" (standardize_column_names df) = Series dates ->
  to_datetime dates <> None.
Proof.
  intros Hnd Hparse Hsel. unfold dates_parse, matched_column in Hparse.
  destruct (first_match (synonyms "date") (columns (strip_columns df))) as [label|] eqn:Hm;
    [|discriminate].
  destruct (select label (strip_columns df)) as [|col|] eqn:Hcol;
    cbn [as_series] in Hparse; try discriminate.
  assert (In ("date", col) (standardize_column_names df)) as Hin.
  { unfold standardize_column_names, rename_columns. apply in_map_iff.
    exists (label, col). split; [|now apply select_in]. cbn [fst snd]. f_equal.
    apply String.eqb_eq. rewrite (standard_name_field "date" label) by (cbn; tauto).
    exact (first_match_mem _ _ _ Hm). }
  pose proof (nodup_select _ ("date", col) Hnd Hin) as Hsel'. cbn [fst snd] in Hsel'.
  rewrite Hsel in Hsel'. injection Hsel' as ->.
  now destruct (to_datetime col).
Qed.

(** X19. A validated table with distinct column names is stored.  When
    the validator accepts a table and the renamed headers are pairwise
    different, the coercion block runs through without raising: ingestion
    yields the detected currency and a coerced frame, so the route stores
    the upload instead of answering "Processing failed" before the
    commit. *)
Theorem validated_table_is_stored `{Pandas} (df : DataFrame) :
  validate_dataframe df = (true, "") ->
  NoDup (columns (standardize_column_names df)) ->
  exists final,
    ingest df = Done (detect_currency (strip_columns df), final)
    /\ forall store uid name,
         allowed_extension name = true -> name <> "" ->
         fst (upload_file store (mkRequest (Some uid) (Some (name, Some df))))
         = store ++ [mkUpload uid name (to_dict_records final)
                       (detect_currency (strip_columns df))].
Proof.
  intros Hv Hnd.
  pose proof Hv as Hgates. rewrite validate_dataframe_unfold in Hgates. cbv zeta in Hgates.
  destruct (missing_fields (columns (strip_columns df))) as [|m ms] eqn:Hmissing;
    cbn [negb] in Hgates; [|discriminate].
  destruct (has_price_or_total (columns (strip_columns df))); cbn [negb] in Hgates;
    [|discriminate].
  destruct (dates_parse (strip_columns df)) eqn:Hparse; cbn [andb negb] in Hgates;
    [|destruct (quantity_parses (strip_columns df)); discriminate].
  destruct (coerce_progress df Hnd) as (final & Hco).
  - intros field Hfield.
    pose proof (mapping_check_is_first_gate df) as Hcheck. rewrite Hmissing in Hcheck.
    rewrite forallb_forall in Hcheck. apply Hcheck.
    unfold required in Hfield. exact Hfield.
  - intros dates Hsel. now apply (validated_date_column df dates).
  - assert (ingest df = Done (detect_currency (strip_columns df), final)) as Hin.
    { unfold ingest.
      assert (validate_dataframe (strip_columns df) = validate_dataframe df) as ->
          by (unfold validate_dataframe; now rewrite strip_columns_idempotent).
      rewrite Hv, coerce_strip, Hco. reflexivity. }
    exists final. split; [exact Hin|].
    intros store uid name Hext Hname. unfold upload_file.
    cbn [session_user posted]. apply String.eqb_neq in Hname. rewrite Hname, Hext.
    cbn [negb]. rewrite Hin.
    now destruct (response_stats (detect_currency (strip_columns df)) final).
Qed.

Lemma validated_table_is_stored_witness :
  exists final,
    @ingest plain_reader table_widget
    = Done (detect_currency (strip_columns table_widget), final).
Proof.
  destruct (@validated_table_is_stored plain_reader table_widget eq_refl) as (final & Hin & _).
  - cbn. repeat constructor; cbn; intuition discriminate.
  - now exists final.
Defined.

(** ** The report *)




(** ** Accounts *)

Lemma find_user_in (name : option string) (users : list User) (u : User) :
  find_user name users = Some u -> In u users /\ name = Some (username u).
Proof.
  destruct name as [n|]; [|discriminate]. cbn [find_user]. intros Hf.
  apply find_some in Hf as [Hin Heq]. apply String.eqb_eq in Heq. split; congruence.
Qed.

Lemma find_user_none (n : string) (users : list User) :
  find_user (Some n) users = None -> ~ In n (map username users).
Proof.
  cbn [find_user]. intros Hf Hin. apply in_map_iff in Hin as (u & Hu & Hin).
  pose proof (find_none _ _ Hf u Hin) as Hno. cbn in Hno.
  rewrite Hu, String.eqb_refl in Hno. discriminate.
Qed.

Lemma find_user_appended (n : string) (users : list User) (u : User) :
  find_user (Some n) users = None -> username u = n ->
  find_user (Some n) (users ++ [u]) = Some u.
Proof.
  cbn [find_user]. intros Hnone Hu. induction users as [|x users IH].
  - cbn. now rewrite Hu, String.eqb_refl.
  - cbn [app find] in *. destruct (String.eqb (username x) n); [discriminate|].
    now apply IH.
Qed.

(** X21. Registration keeps user names unique.  The route only ever
    appends, and at most one user; it appends exactly when it answers with
    the redirect to the login page, and then the new user carries the
    posted name, which no earlier user has; so a table of pairwise
    different user names stays one, and no existing account is changed. *)
Theorem register_keeps_usernames_unique `{Werkzeug}
        (method : http_method) (form : credentials) (salt : string) (new_id : Z)
        (users users' : list User) (page : register_page) :
  NoDup (map username users) ->
  register method form salt new_id users = (users', page) ->
  NoDup (map username users')
  /\ (page <> Registered -> users' = users)
  /\ (page = Registered ->
      exists name password,
        form_username form = Some name /\ form_password form = Some password
        /\ ~ In name (map username users)
        /\ users' = users ++ [mkUser new_id name (generate_password_hash password salt)])
  /\ (page = UsernameExists <->
      method = POST /\ exists name, form_username form = Some name
                                    /\ In name (map username users)).
Proof.
  intros Hnd. unfold register. destruct method.
  { intros [= <- <-]. split; [exact Hnd|]. split; [reflexivity|].
    split; [discriminate|]. split; [discriminate|]. intros [Hm _]. discriminate. }
  destruct (find_user (form_username form) users) as [u|] eqn:Hfind.
  { intros [= <- <-]. split; [exact Hnd|]. split; [reflexivity|].
    split; [discriminate|]. split; [|reflexivity]. intros _. split; [reflexivity|].
    apply find_user_in in Hfind as [Hin Hname]. exists (username u).
    split; [exact Hname|]. now apply in_map. }
  assert (~ (POST = POST /\ exists name, form_username form = Some name
                                         /\ In name (map username users))) as Hfree.
  { intros (_ & name & Hname & Hin). rewrite Hname in Hfind.
    now apply (find_user_none name users Hfind). }
  destruct (form_password form) as [password|].
  2:{ intros [= <- <-]. split; [exact Hnd|]. split; [reflexivity|].
      split; [discriminate|]. split; [discriminate|]. intros Hex. now contradiction Hfree. }
  destruct (form_username form) as [name|] eqn:Hname.
  2:{ intros [= <- <-]. split; [exact Hnd|]. split; [reflexivity|].
      split; [discriminate|]. split; [discriminate|]. intros Hex. now contradiction Hfree. }
  intros [= <- <-]. pose proof (find_user_none name users Hfind) as Hnew.
  split; [|split; [|split; [|split]]].
  - rewrite map_app. cbn [map username].
    apply (Permutation_NoDup (Permutation_cons_append (map username users) name)).
    now constructor.
  - intros Hne. now contradiction Hne.
  - intros _. now exists name, password.
  - discriminate.
  - intros Hex. now contradiction Hfree.
Qed.

Lemma register_keeps_usernames_unique_witness :
  NoDup (map username
           (fst (@register plain_hasher POST (mkForm (Some "chao") (Some "pw")) "salt" 3
                   two_users))).
Proof.
  apply (@register_keeps_usernames_unique plain_hasher POST
           (mkForm (Some "chao") (Some "pw")) "salt" 3 two_users _ Registered).
  - cbn. repeat constructor; cbn; intuition discriminate.
  - reflexivity.
Defined.

(** X22. Logging in.  After a successful registration the same form logs
    in, whatever the session was, as the new user.  In general a login
    establishes a session only for an existing user that carries the posted
    name and whose stored hash the posted password checks against; every
    other answer leaves the session as it was; and logging out always
    leaves no user in the session. *)
Theorem register_then_login `{Werkzeug}
        (form : credentials) (salt : string) (new_id : Z)
        (users users' : list User) (session : Session) :
  (register POST form salt new_id users = (users', Registered) ->
   exists name,
     form_username form = Some name
     /\ login POST form session users' = (Some (new_id, name), LoggedIn))
  /\ (forall method session' page,
        login method form session users = (session', page) ->
        (page = LoggedIn ->
         exists user password,
           In user users /\ form_username form = Some (username user)
           /\ form_password form = Some password
           /\ check_password_hash (password_hash user) password = true
           /\ session' = Some (account_id user, username user))
        /\ (page <> LoggedIn -> session' = session))
  /\ session_user_id (logout session) = None.
Proof.
  split; [|split; [|reflexivity]].
  - unfold register.
    destruct (find_user (form_username form) users) as [u|] eqn:Hfind; [discriminate|].
    destruct (form_password form) as [password|] eqn:Hpw; [|discriminate].
    destruct (form_username form) as [name|] eqn:Hname; [|discriminate].
    intros [= <-]. exists name. split; [reflexivity|].
    unfold login. rewrite Hname, Hpw.
    rewrite (find_user_appended name users
               (mkUser new_id name (generate_password_hash password salt)) Hfind eq_refl).
    cbn [password_hash account_id username]. now rewrite check_generated.
  - intros method session' page. unfold login. destruct method.
    { intros [= <- <-]. split; [discriminate|reflexivity]. }
    destruct (find_user (form_username form) users) as [user|] eqn:Hfind.
    2:{ intros [= <- <-]. split; [discriminate|reflexivity]. }
    apply find_user_in in Hfind as [Hin Hname].
    destruct (form_password form) as [password|].
    2:{ intros [= <- <-]. split; [discriminate|reflexivity]. }
    destruct (check_password_hash (password_hash user) password) eqn:Hcheck.
    + intros [= <- <-]. split; [|intros Hne; now contradiction Hne].
      intros _. now exists user, password.
    + intros [= <- <-]. split; [discriminate|reflexivity].
Qed.

Lemma register_then_login_witness :
  exists name,
    Some "chao" = Some name
    /\ @login plain_hasher POST (mkForm (Some "chao") (Some "pw")) None
         (two_users ++ [mkUser 3 "chao" "pw"])
       = (Some (3, name), LoggedIn).
Proof.
  exact (proj1 (@register_then_login plain_hasher (mkForm (Some "chao") (Some "pw"))
                  "salt" 3 two_users (two_users ++ [mkUser 3 "chao" "pw"]) None)
               eq_refl).
Defined.
